(** * Dark-Matter-Detection: a shallow embedding of the detector framework

    The development follows the Python sources file by file:
    - [Py]: the few Python built-ins the code relies on ([str.split],
      [str.join], slicing, [str.lower], [str] of an [int], exceptions);
    - [Ast]: the part of Python's [ast] node types the detectors inspect,
      [ast.walk] and [ast.NodeVisitor];
    - [PhantomLoops], [ZombieOrbits], [EvidenceVoids]: the three detectors
      of [phantom_loops.py], [zombie_orbits.py] and [evidence_voids.py];
    - [Scanner]: [DarkMatterScanner] of [dark_matter_scanner.py].

    Scores are Python floats in the source.  Every float the scoring code
    manipulates is a sum of the weights 3.0, 2.0 and 1.0 (or the literals 0.0
    and 10.0), hence an integer-valued double on which binary64 addition and
    [min] are exact; those values are represented by [Z]. *)

From Stdlib Require Import String Ascii List ZArith Lia Bool DecimalString.
From Stdlib Require Permutation.
Import ListNotations.

#[local] Open Scope string_scope.
#[local] Open Scope Z_scope.

Scheme All for list.
Scheme All for prod.

(* ================================================================== *)
(** ** Python built-ins *)

Module Py.

(** The one-character string ["\n"]. *)
Definition nl : string := String "010"%char EmptyString.

(** [sep.join(l)]. *)
Definition join (sep : string) (l : list string) : string :=
  String.concat sep l.

(** [s.split('\n')]: never empty, one more piece than there are
    newline characters. *)
Fixpoint split_nl (s : string) : list string :=
  match s with
  | EmptyString => [EmptyString]
  | String c rest =>
      if Ascii.eqb c "010"%char then EmptyString :: split_nl rest
      else match split_nl rest with
           | piece :: pieces => String c piece :: pieces
           | [] => [String c EmptyString]
           end
  end.

(** [len(l)] as a Python int. *)
Definition len {A} (l : list A) : Z := Z.of_nat (length l).

(** How a slice bound is normalised against a sequence of length [n]:
    a negative bound counts from the end, and every bound is clamped
    into [0, n]. *)
Definition slice_bound (n i : Z) : Z :=
  if i <? 0 then Z.max 0 (i + n) else Z.min i n.

(** [l[start:stop]]. *)
Definition slice {A} (l : list A) (start stop : Z) : list A :=
  let a := slice_bound (len l) start in
  let b := slice_bound (len l) stop in
  firstn (Z.to_nat (b - a)) (skipn (Z.to_nat a) l).

(** [str(n)] for an int. *)
Definition str_int (n : Z) : string := NilZero.string_of_int (Z.to_int n).

(** [f"{x:.1f}"] for an integer-valued float [x]. *)
Definition format_1f (x : Z) : string := str_int x ++ ".0".

(** [s.lower()] on ASCII letters (identifiers are NFKC-normalised by the
    parser; no non-ASCII letter lower-cases to an ASCII one that would
    complete one of the names the detectors look for). *)
Definition lower_ascii (c : ascii) : ascii :=
  let n := nat_of_ascii c in
  if ((65 <=? n) && (n <=? 90))%nat then ascii_of_nat (n + 32) else c.

Fixpoint lower (s : string) : string :=
  match s with
  | EmptyString => EmptyString
  | String c rest => String (lower_ascii c) (lower rest)
  end.

(** [x in names] for a tuple or set of string literals. *)
Definition str_in (x : string) (names : list string) : bool :=
  existsb (String.eqb x) names.

(** [name in names] where [name] may be [None]. *)
Definition opt_in (x : option string) (names : list string) : bool :=
  match x with
  | Some s => str_in s names
  | None => false
  end.

(** [c * n] for a one-character string [c]. *)
Fixpoint repeat_char (c : ascii) (n : nat) : string :=
  match n with
  | O => EmptyString
  | S k => String c (repeat_char c k)
  end.

(** The exceptions that occur: those [ast.parse] can raise, and
    [KeyError] for a missing dict key. *)
Inductive exception :=
| SyntaxError
| ValueError
| RecursionError
| MemoryError
| KeyError.

(** The outcome of a call: a value, or a raised exception. *)
Inductive result (A : Type) :=
| Returns (a : A)
| Raises (e : exception).
Arguments Returns {A} a.
Arguments Raises {A} e.

End Py.

(* ================================================================== *)
(** ** The syntax tree *)

Module Ast.

(** The value of an [ast.Constant]. Floats, complex numbers, bytes and
    the ellipsis are kept by their [repr]. *)
Inductive constant :=
| CNone
| CBool (b : bool)
| CInt (n : Z)
| CStr (s : string)
| COther (repr : string).

Inductive expr_context := Load | Store | Del.

Inductive operator := Add | Sub | Mult | Div | FloorDiv | Mod | Pow.

Inductive cmpop := Eq | NotEq | Lt | LtE | Gt | GtE | Is | IsNot | In_ | NotIn.

(** Expressions, with their fields in the order of [_fields]. A keyword
    argument is the pair of its name and its value. *)
Inductive expr :=
| Constant (value : constant)
| Name (id : string) (ctx : expr_context)
| Attribute (value : expr) (attr : string) (ctx : expr_context)
| Call (lineno : Z) (func : expr) (args : list expr)
       (keywords : list (option string * expr))
| BinOp (left : expr) (op : operator) (right : expr)
| Compare (left : expr) (ops : list cmpop) (comparators : list expr).

(** [ast.arguments]: the parameters with their annotations, and the
    default values. *)
Record arguments := Arguments_ {
  args_args : list (string * option expr);
  args_defaults : list expr
}.

(** [ast.ExceptHandler], over the type of statements. *)
Record excepthandler_ (stmt : Type) := ExceptHandler {
  h_lineno : Z;
  h_type : option expr;
  h_name : option string;
  h_body : list stmt
}.
Arguments ExceptHandler {stmt}.
Arguments h_lineno {stmt}.
Arguments h_type {stmt}.
Arguments h_name {stmt}.
Arguments h_body {stmt}.

Scheme All for excepthandler_.

Inductive stmt :=
| FunctionDef (lineno : Z) (name : string) (args : arguments)
              (body : list stmt) (decorator_list : list expr)
              (returns : option expr)
| Return (value : option expr)
| Assign (targets : list expr) (value : expr)
| For (lineno : Z) (target iter : expr) (body orelse : list stmt)
| While (lineno : Z) (test : expr) (body orelse : list stmt)
| If (test : expr) (body orelse : list stmt)
| Raise (exc cause : option expr)
| Try (body : list stmt) (handlers : list (excepthandler_ stmt))
      (orelse finalbody : list stmt)
| Expr (lineno : Z) (value : expr)
| Pass
| Break
| Continue.

Definition excepthandler := excepthandler_ stmt.

(** [ast.Module]. *)
Record module_ := Module_ { m_body : list stmt }.

(** *** [ast.walk]

    Every use of [ast.walk] in the sources is a loop that returns [True]
    at the first node satisfying a test, so only the set of nodes
    matters; the nodes are listed here parent first. *)
Inductive node :=
| NExpr (e : expr)
| NStmt (s : stmt)
| NHandler (h : excepthandler).

Definition opt_list {A} (o : option A) : list A :=
  match o with Some a => [a] | None => [] end.

Fixpoint walk_expr (e : expr) : list expr :=
  e :: match e with
       | Constant _ | Name _ _ => []
       | Attribute v _ _ => walk_expr v
       | Call _ f args kws =>
           walk_expr f ++ flat_map walk_expr args
             ++ flat_map (fun kw => walk_expr (snd kw)) kws
       | BinOp l _ r => walk_expr l ++ walk_expr r
       | Compare l _ cs => walk_expr l ++ flat_map walk_expr cs
       end.

Definition walk_exprs (l : list expr) : list node :=
  map NExpr (flat_map walk_expr l).

Definition walk_arguments (a : arguments) : list node :=
  walk_exprs (flat_map (fun p => opt_list (snd p)) (args_args a))
    ++ walk_exprs (args_defaults a).

Fixpoint walk_stmt (s : stmt) : list node :=
  NStmt s ::
  match s with
  | FunctionDef _ _ a body decos ret =>
      walk_arguments a ++ flat_map walk_stmt body
        ++ walk_exprs decos ++ walk_exprs (opt_list ret)
  | Return v => walk_exprs (opt_list v)
  | Assign ts v => walk_exprs ts ++ walk_exprs [v]
  | For _ t i body orelse =>
      walk_exprs [t; i] ++ flat_map walk_stmt body
        ++ flat_map walk_stmt orelse
  | While _ t body orelse =>
      walk_exprs [t] ++ flat_map walk_stmt body ++ flat_map walk_stmt orelse
  | If t body orelse =>
      walk_exprs [t] ++ flat_map walk_stmt body ++ flat_map walk_stmt orelse
  | Raise e c => walk_exprs (opt_list e) ++ walk_exprs (opt_list c)
  | Try body handlers orelse finalbody =>
      flat_map walk_stmt body
        ++ flat_map (fun h => NHandler h :: walk_exprs (opt_list (h_type h))
                                ++ flat_map walk_stmt (h_body h)) handlers
        ++ flat_map walk_stmt orelse ++ flat_map walk_stmt finalbody
  | Expr _ v => walk_exprs [v]
  | Pass | Break | Continue => []
  end.

Definition walk_body (body : list stmt) : list node :=
  flat_map walk_stmt body.

Definition walk (m : module_) : list node := walk_body (m_body m).

(** *** [ast.NodeVisitor]

    A visitor over a state [S] (the detector object). Each [visit_X]
    method receives the node, the generic visit of that node's children
    (what [self.generic_visit(node)] does) and the detector; a class that
    does not define [visit_X] gets [default_visit]. *)
Section NodeVisitor.
Context {S : Type}.

Record NodeVisitor := {
  visit_FunctionDef : stmt -> (S -> S) -> S -> S;
  visit_For : stmt -> (S -> S) -> S -> S;
  visit_While : stmt -> (S -> S) -> S -> S;
  visit_Try : stmt -> (S -> S) -> S -> S;
  visit_Expr : stmt -> (S -> S) -> S -> S;
  visit_Call : expr -> (S -> S) -> S -> S
}.

Definition default_visit {N} (_ : N) (generic_visit : S -> S) : S -> S :=
  generic_visit.

Variable V : NodeVisitor.

(** [self.visit(e)] for an expression. *)
Fixpoint visit_expr (e : expr) : S -> S :=
  let generic_visit : S -> S :=
    match e with
    | Constant _ | Name _ _ => fun self => self
    | Attribute v _ _ => visit_expr v
    | Call _ f args kws => fun self =>
        fold_left (fun self kw => visit_expr (snd kw) self) kws
          (fold_left (fun self a => visit_expr a self) args
             (visit_expr f self))
    | BinOp l _ r => fun self => visit_expr r (visit_expr l self)
    | Compare l _ cs => fun self =>
        fold_left (fun self c => visit_expr c self) cs (visit_expr l self)
    end in
  match e with
  | Call _ _ _ _ => visit_Call V e generic_visit
  | _ => generic_visit
  end.

Definition visit_exprs (l : list expr) (self : S) : S :=
  fold_left (fun self e => visit_expr e self) l self.

Definition visit_opt_expr (o : option expr) (self : S) : S :=
  visit_exprs (opt_list o) self.

Definition visit_arguments (a : arguments) (self : S) : S :=
  visit_exprs (args_defaults a)
    (visit_exprs (flat_map (fun p => opt_list (snd p)) (args_args a)) self).

(** [self.visit(s)] for a statement. *)
Fixpoint visit_stmt (s : stmt) : S -> S :=
  let visit_body := fun (l : list stmt) (self : S) =>
    fold_left (fun self s' => visit_stmt s' self) l self in
  let generic_visit : S -> S :=
    match s with
    | FunctionDef _ _ a body decos ret => fun self =>
        visit_opt_expr ret
          (visit_exprs decos (visit_body body (visit_arguments a self)))
    | Return v => visit_opt_expr v
    | Assign ts v => fun self => visit_expr v (visit_exprs ts self)
    | For _ t i body orelse => fun self =>
        visit_body orelse
          (visit_body body (visit_expr i (visit_expr t self)))
    | While _ t body orelse => fun self =>
        visit_body orelse (visit_body body (visit_expr t self))
    | If t body orelse => fun self =>
        visit_body orelse (visit_body body (visit_expr t self))
    | Raise e c => fun self => visit_opt_expr c (visit_opt_expr e self)
    | Try body handlers orelse finalbody => fun self =>
        visit_body finalbody
          (visit_body orelse
             (fold_left
                (fun self h =>
                   visit_body (h_body h) (visit_opt_expr (h_type h) self))
                handlers (visit_body body self)))
    | Expr _ v => visit_expr v
    | Pass | Break | Continue => fun self => self
    end in
  match s with
  | FunctionDef _ _ _ _ _ _ => visit_FunctionDef V s generic_visit
  | For _ _ _ _ _ => visit_For V s generic_visit
  | While _ _ _ _ => visit_While V s generic_visit
  | Try _ _ _ _ => visit_Try V s generic_visit
  | Expr _ _ => visit_Expr V s generic_visit
  | _ => generic_visit
  end.

Definition visit_body (l : list stmt) (self : S) : S :=
  fold_left (fun self s => visit_stmt s self) l self.

Definition visit_handler (h : excepthandler) (self : S) : S :=
  visit_body (h_body h) (visit_opt_expr (h_type h) self).

(** [self.generic_visit(s)]: the children of [s], field by field. *)
Definition generic_visit (s : stmt) (self : S) : S :=
  match s with
  | FunctionDef _ _ a body decos ret =>
      visit_opt_expr ret
        (visit_exprs decos (visit_body body (visit_arguments a self)))
  | Return v => visit_opt_expr v self
  | Assign ts v => visit_expr v (visit_exprs ts self)
  | For _ t i body orelse =>
      visit_body orelse (visit_body body (visit_expr i (visit_expr t self)))
  | While _ t body orelse =>
      visit_body orelse (visit_body body (visit_expr t self))
  | If t body orelse =>
      visit_body orelse (visit_body body (visit_expr t self))
  | Raise e c => visit_opt_expr c (visit_opt_expr e self)
  | Try body handlers orelse finalbody =>
      visit_body finalbody
        (visit_body orelse
           (fold_left (fun self h => visit_handler h self) handlers
              (visit_body body self)))
  | Expr _ v => visit_expr v self
  | Pass | Break | Continue => self
  end.

(** [self.visit(tree)] on the module: no [visit_Module] is defined, so
    the statements of the body are visited in order. *)
Definition visit (tree : module_) (self : S) : S :=
  visit_body (m_body tree) self.

End NodeVisitor.
Arguments NodeVisitor S : clear implicits.

End Ast.

(* ================================================================== *)
(** ** phantom_loops.py *)

Module PhantomLoops.
Import Py Ast.

Inductive PhantomType :=
| WHILE_TRUE_BREAK
| WHILE_TRUE_RETURN
| WHILE_TRUE_RAISE
| INFINITE_ITERATOR_EXIT.

(** The [value] of an enum member. *)
Definition PhantomType_value (t : PhantomType) : string :=
  match t with
  | WHILE_TRUE_BREAK => "while_true_break"
  | WHILE_TRUE_RETURN => "while_true_return"
  | WHILE_TRUE_RAISE => "while_true_raise"
  | INFINITE_ITERATOR_EXIT => "infinite_iterator_exit"
  end.

Record PhantomLoop := {
  line : Z;
  phantom_type : PhantomType;
  code_snippet : string;
  severity : string;
  description : string;
  exit_mechanism : string;
  context : string
}.

(** The detector object. *)
Record PhantomLoopDetector := {
  source_lines : list string;
  phantoms : list PhantomLoop;
  current_context : string
}.

(** [PhantomLoopDetector(source_lines)]. *)
Definition init (lines : list string) : PhantomLoopDetector :=
  {| source_lines := lines; phantoms := []; current_context := "module" |}.

Definition set_current_context (c : string) (self : PhantomLoopDetector) :=
  {| source_lines := source_lines self;
     phantoms := phantoms self;
     current_context := c |}.

(** [self.phantoms.append(p)]. *)
Definition phantoms_append (p : PhantomLoop) (self : PhantomLoopDetector) :=
  {| source_lines := source_lines self;
     phantoms := phantoms self ++ [p];
     current_context := current_context self |}.

Definition _is_infinite_condition (test : expr) : bool :=
  match test with
  | Constant (CBool true) => true
  | _ => false
  end.

Definition _check_immediate_exit (body : list stmt)
  : option (PhantomType * string) :=
  match body with
  | [] => None
  | first_stmt :: _ =>
      match first_stmt with
      | Break => Some (WHILE_TRUE_BREAK, "breaks")
      | Return _ => Some (WHILE_TRUE_RETURN, "returns")
      | Raise _ _ => Some (WHILE_TRUE_RAISE, "raises")
      | _ => None
      end
  end.

Definition _calculate_severity (t : PhantomType) : string :=
  match t with
  | WHILE_TRUE_BREAK => "HIGH"
  | _ => "MEDIUM"
  end.

Definition _get_code_snippet (self : PhantomLoopDetector) (line : Z)
  : string :=
  let start := Z.max 0 (line - 2) in
  let end_ := Z.min (len (source_lines self)) (line + 2) in
  join nl (slice (source_lines self) start end_).

Definition visit_FunctionDef (node : stmt)
  (generic_visit : PhantomLoopDetector -> PhantomLoopDetector)
  (self : PhantomLoopDetector) : PhantomLoopDetector :=
  match node with
  | FunctionDef _ name _ _ _ _ =>
      let old_context := current_context self in
      let self := set_current_context ("function:" ++ name) self in
      let self := generic_visit self in
      set_current_context old_context self
  | _ => generic_visit self
  end.

Definition visit_While (node : stmt)
  (generic_visit : PhantomLoopDetector -> PhantomLoopDetector)
  (self : PhantomLoopDetector) : PhantomLoopDetector :=
  match node with
  | While lineno test body _ =>
      let self :=
        if _is_infinite_condition test then
          match _check_immediate_exit body with
          | Some (phantom_type, exit_mechanism) =>
              let severity := _calculate_severity phantom_type in
              phantoms_append
                {| line := lineno;
                   phantom_type := phantom_type;
                   code_snippet := _get_code_snippet self lineno;
                   severity := severity;
                   description :=
                     "Loop claims infinity but " ++ exit_mechanism
                       ++ " immediately";
                   exit_mechanism := exit_mechanism;
                   context := current_context self |} self
          | None => self
          end
        else self in
      generic_visit self
  | _ => generic_visit self
  end.

Definition visitor : NodeVisitor PhantomLoopDetector :=
  {| Ast.visit_FunctionDef := visit_FunctionDef;
     Ast.visit_For := default_visit;
     Ast.visit_While := visit_While;
     Ast.visit_Try := default_visit;
     Ast.visit_Expr := default_visit;
     Ast.visit_Call := default_visit |}.

Section Detect.
(** [ast.parse], the parser of the Python standard library. *)
Variable ast_parse : string -> result module_.

Definition detect_phantom_loops (source_code : string)
  : result (list PhantomLoop) :=
  match ast_parse source_code with
  | Returns tree =>
      let source_lines := split_nl source_code in
      let detector := init source_lines in
      let detector := visit visitor tree detector in
      Returns (phantoms detector)
  | Raises SyntaxError => Returns []
  | Raises e => Raises e
  end.
End Detect.

(** [weights.get(severity, 1.0)]. *)
Definition weights_get (severity : string) : Z :=
  if String.eqb severity "HIGH" then 3
  else if String.eqb severity "MEDIUM" then 2
  else if String.eqb severity "LOW" then 1
  else 1.

(** [sum(...)] of a list of numbers, from 0 and left to right. *)
Definition sum (l : list Z) : Z := fold_left Z.add l 0.

Definition calculate_phantom_score (phantoms : list PhantomLoop) : Z :=
  match phantoms with
  | [] => 0
  | _ =>
      let total := sum (map (fun p => weights_get (severity p)) phantoms) in
      Z.min 10 total
  end.

End PhantomLoops.


(* ================================================================== *)
(** ** zombie_orbits.py *)

Module ZombieOrbits.
Import Py Ast.

Inductive ZombieType :=
| DISCARDED_CALL
| UNUSED_COMPUTATION
| EMPTY_LOOP
| NO_RETURN_FUNCTION
| WRITE_ONLY_VARIABLE.

Definition ZombieType_value (t : ZombieType) : string :=
  match t with
  | DISCARDED_CALL => "discarded_call"
  | UNUSED_COMPUTATION => "unused_computation"
  | EMPTY_LOOP => "empty_loop"
  | NO_RETURN_FUNCTION => "no_return_function"
  | WRITE_ONLY_VARIABLE => "write_only_variable"
  end.

Record ZombieOrbit := {
  line : Z;
  zombie_type : ZombieType;
  code_snippet : string;
  severity : string;
  description : string;
  context : string
}.

(** The detector object; the two sets are created empty and never
    touched again. *)
Record ZombieOrbitDetector := {
  source_lines : list string;
  zombies : list ZombieOrbit;
  current_context : string;
  assigned_vars : list string;
  used_vars : list string
}.

Definition init (lines : list string) : ZombieOrbitDetector :=
  {| source_lines := lines; zombies := []; current_context := "module";
     assigned_vars := []; used_vars := [] |}.

Definition set_current_context (c : string) (self : ZombieOrbitDetector) :=
  {| source_lines := source_lines self;
     zombies := zombies self;
     current_context := c;
     assigned_vars := assigned_vars self;
     used_vars := used_vars self |}.

(** [self.zombies.append(z)]. *)
Definition zombies_append (z : ZombieOrbit) (self : ZombieOrbitDetector) :=
  {| source_lines := source_lines self;
     zombies := zombies self ++ [z];
     current_context := current_context self;
     assigned_vars := assigned_vars self;
     used_vars := used_vars self |}.

Definition _get_call_name (call : expr) : option string :=
  match call with
  | Call _ (Name id _) _ _ => Some id
  | Call _ (Attribute _ attr _) _ _ => Some attr
  | _ => None
  end.

Definition _has_meaningful_return (func_node : stmt) : bool :=
  existsb (fun n => match n with
                    | NStmt (Return (Some _)) => true
                    | _ => false
                    end) (walk_stmt func_node).

Definition _has_side_effects (func_node : stmt) : bool :=
  existsb (fun n => match n with
                    | NExpr (Call _ _ _ _ as call) =>
                        opt_in (_get_call_name call)
                          ["print"; "log"; "write"; "append"; "update";
                           "delete"]
                    | NExpr (Attribute _ _ Store) => true
                    | _ => false
                    end) (walk_stmt func_node).

Definition _is_side_effect_function (name : string) : bool :=
  let side_effect_funcs :=
    ["print"; "log"; "write"; "send"; "publish";
     "append"; "update"; "delete"; "remove"; "save";
     "close"; "flush"; "commit"; "rollback"] in
  str_in (lower name) side_effect_funcs.

Definition is_pass_or_continue (s : stmt) : bool :=
  match s with
  | Pass | Continue => true
  | _ => false
  end.

Definition _is_empty_loop (body : list stmt) : bool :=
  match body with
  | [] => true
  | _ => forallb is_pass_or_continue body
  end.

Definition _get_code_snippet (self : ZombieOrbitDetector) (line : Z)
  : string :=
  let start := Z.max 0 (line - 2) in
  let end_ := Z.min (len (source_lines self)) (line + 2) in
  join nl (slice (source_lines self) start end_).

Definition visit_FunctionDef (node : stmt)
  (generic_visit : ZombieOrbitDetector -> ZombieOrbitDetector)
  (self : ZombieOrbitDetector) : ZombieOrbitDetector :=
  match node with
  | FunctionDef lineno name _ _ _ _ =>
      let old_context := current_context self in
      let self := set_current_context ("function:" ++ name) self in
      let has_return := _has_meaningful_return node in
      let has_side_effects := _has_side_effects node in
      let self :=
        if negb has_return && negb has_side_effects then
          zombies_append
            {| line := lineno;
               zombie_type := NO_RETURN_FUNCTION;
               code_snippet := _get_code_snippet self lineno;
               severity := "MEDIUM";
               description :=
                 "Function '" ++ name
                   ++ "' runs but produces no output or side effects";
               context := current_context self |} self
        else self in
      let self := generic_visit self in
      set_current_context old_context self
  | _ => generic_visit self
  end.

(** The truth value of an [Optional[str]]. *)
Definition truthy (name : option string) : bool :=
  match name with
  | Some EmptyString | None => false
  | Some _ => true
  end.

Definition visit_Expr (node : stmt)
  (generic_visit : ZombieOrbitDetector -> ZombieOrbitDetector)
  (self : ZombieOrbitDetector) : ZombieOrbitDetector :=
  match node with
  | Expr lineno value =>
      let self :=
        match value with
        | Call _ _ _ _ =>
            let func_name := _get_call_name value in
            match func_name with
            | Some name =>
                if truthy func_name && negb (_is_side_effect_function name)
                then
                  zombies_append
                    {| line := lineno;
                       zombie_type := DISCARDED_CALL;
                       code_snippet := _get_code_snippet self lineno;
                       severity := "HIGH";
                       description :=
                         "Function call '" ++ name ++ "()' result discarded";
                       context := current_context self |} self
                else self
            | None => self
            end
        | _ => self
        end in
      let self :=
        match value with
        | BinOp _ _ _ =>
            zombies_append
              {| line := lineno;
                 zombie_type := UNUSED_COMPUTATION;
                 code_snippet := _get_code_snippet self lineno;
                 severity := "MEDIUM";
                 description :=
                   "Computation result discarded (not assigned or returned)";
                 context := current_context self |} self
        | _ => self
        end in
      generic_visit self
  | _ => generic_visit self
  end.

(** The body shared by [visit_For] and [visit_While]. *)
Definition visit_loop (lineno : Z) (body : list stmt)
  (generic_visit : ZombieOrbitDetector -> ZombieOrbitDetector)
  (self : ZombieOrbitDetector) : ZombieOrbitDetector :=
  let self :=
    if _is_empty_loop body then
      zombies_append
        {| line := lineno;
           zombie_type := EMPTY_LOOP;
           code_snippet := _get_code_snippet self lineno;
           severity := "HIGH";
           description := "Loop executes but body is empty or no-op";
           context := current_context self |} self
    else self in
  generic_visit self.

Definition visit_For (node : stmt)
  (generic_visit : ZombieOrbitDetector -> ZombieOrbitDetector)
  (self : ZombieOrbitDetector) : ZombieOrbitDetector :=
  match node with
  | For lineno _ _ body _ => visit_loop lineno body generic_visit self
  | _ => generic_visit self
  end.

Definition visit_While (node : stmt)
  (generic_visit : ZombieOrbitDetector -> ZombieOrbitDetector)
  (self : ZombieOrbitDetector) : ZombieOrbitDetector :=
  match node with
  | While lineno _ body _ => visit_loop lineno body generic_visit self
  | _ => generic_visit self
  end.

Definition visitor : NodeVisitor ZombieOrbitDetector :=
  {| Ast.visit_FunctionDef := visit_FunctionDef;
     Ast.visit_For := visit_For;
     Ast.visit_While := visit_While;
     Ast.visit_Try := default_visit;
     Ast.visit_Expr := visit_Expr;
     Ast.visit_Call := default_visit |}.

Section Detect.
Variable ast_parse : string -> result module_.

Definition detect_zombie_orbits (source_code : string)
  : result (list ZombieOrbit) :=
  match ast_parse source_code with
  | Returns tree =>
      let source_lines := split_nl source_code in
      let detector := init source_lines in
      let detector := visit visitor tree detector in
      Returns (zombies detector)
  | Raises SyntaxError => Returns []
  | Raises e => Raises e
  end.
End Detect.

(** [weights.get(severity, 1.0)]. *)
Definition weights_get (severity : string) : Z :=
  if String.eqb severity "HIGH" then 3
  else if String.eqb severity "MEDIUM" then 2
  else if String.eqb severity "LOW" then 1
  else 1.

Definition sum (l : list Z) : Z := fold_left Z.add l 0.

Definition calculate_zombie_score (zombies : list ZombieOrbit) : Z :=
  match zombies with
  | [] => 0
  | _ =>
      let total := sum (map (fun z => weights_get (severity z)) zombies) in
      Z.min 10 total
  end.

End ZombieOrbits.

(* ================================================================== *)
(** ** evidence_voids.py *)

Module EvidenceVoids.
Import Py Ast.

Inductive VoidType :=
| SWALLOWED_EXCEPTION
| BARE_EXCEPT
| IGNORED_RETURN
| NO_LOGGING_IN_EXCEPT
| SILENT_FAILURE.

Definition VoidType_value (t : VoidType) : string :=
  match t with
  | SWALLOWED_EXCEPTION => "swallowed_exception"
  | BARE_EXCEPT => "bare_except"
  | IGNORED_RETURN => "ignored_return"
  | NO_LOGGING_IN_EXCEPT => "no_logging_in_except"
  | SILENT_FAILURE => "silent_failure"
  end.

Record EvidenceVoid := {
  line : Z;
  void_type : VoidType;
  code_snippet : string;
  severity : string;
  description : string;
  context : string
}.

Record EvidenceVoidDetector := {
  source_lines : list string;
  voids : list EvidenceVoid;
  current_context : string
}.

Definition init (lines : list string) : EvidenceVoidDetector :=
  {| source_lines := lines; voids := []; current_context := "module" |}.

Definition set_current_context (c : string) (self : EvidenceVoidDetector) :=
  {| source_lines := source_lines self;
     voids := voids self;
     current_context := c |}.

(** [self.voids.append(v)]. *)
Definition voids_append (v : EvidenceVoid) (self : EvidenceVoidDetector) :=
  {| source_lines := source_lines self;
     voids := voids self ++ [v];
     current_context := current_context self |}.

Definition _get_call_name (call : expr) : option string :=
  match call with
  | Call _ (Name id _) _ _ => Some id
  | Call _ (Attribute _ attr _) _ _ => Some attr
  | _ => None
  end.

Definition _is_swallowed (body : list stmt) : bool :=
  match body with
  | [] => true
  | [Pass] => true
  | [Continue] | [Break] => true
  | _ => false
  end.

Definition _has_logging (body : list stmt) : bool :=
  existsb (fun n => match n with
                    | NExpr (Call _ _ _ _ as call) =>
                        opt_in (_get_call_name call)
                          ["log"; "debug"; "info"; "warning"; "error";
                           "critical"; "exception"; "print"]
                    | _ => false
                    end) (walk_body body).

Definition _is_error_checked (call_node : expr) : bool := false.

Definition _get_code_snippet (self : EvidenceVoidDetector) (line : Z)
  : string :=
  let start := Z.max 0 (line - 2) in
  let end_ := Z.min (len (source_lines self)) (line + 2) in
  join nl (slice (source_lines self) start end_).

Definition visit_FunctionDef (node : stmt)
  (generic_visit : EvidenceVoidDetector -> EvidenceVoidDetector)
  (self : EvidenceVoidDetector) : EvidenceVoidDetector :=
  match node with
  | FunctionDef _ name _ _ _ _ =>
      let old_context := current_context self in
      let self := set_current_context ("function:" ++ name) self in
      let self := generic_visit self in
      set_current_context old_context self
  | _ => generic_visit self
  end.

(** One turn of the loop [for handler in node.handlers] of [visit_Try]. *)
Definition visit_Try_handler (self : EvidenceVoidDetector)
  (handler : excepthandler) : EvidenceVoidDetector :=
  let self :=
    match h_type handler with
    | None =>
        voids_append
          {| line := h_lineno handler;
             void_type := BARE_EXCEPT;
             code_snippet := _get_code_snippet self (h_lineno handler);
             severity := "HIGH";
             description :=
               "Bare except clause catches all exceptions indiscriminately";
             context := current_context self |} self
    | Some _ => self
    end in
  let self :=
    if _is_swallowed (h_body handler) then
      voids_append
        {| line := h_lineno handler;
           void_type := SWALLOWED_EXCEPTION;
           code_snippet := _get_code_snippet self (h_lineno handler);
           severity := "HIGH";
           description :=
             "Exception caught but ignored (no logging, no re-raise)";
           context := current_context self |} self
    else self in
  let self :=
    if negb (_has_logging (h_body handler)) then
      voids_append
        {| line := h_lineno handler;
           void_type := NO_LOGGING_IN_EXCEPT;
           code_snippet := _get_code_snippet self (h_lineno handler);
           severity := "MEDIUM";
           description := "Exception handler lacks logging (error invisible)";
           context := current_context self |} self
    else self in
  self.

Definition visit_Try (node : stmt)
  (generic_visit : EvidenceVoidDetector -> EvidenceVoidDetector)
  (self : EvidenceVoidDetector) : EvidenceVoidDetector :=
  match node with
  | Try _ handlers _ _ =>
      let self := fold_left visit_Try_handler handlers self in
      generic_visit self
  | _ => generic_visit self
  end.

Definition fallible : list string :=
  ["open"; "urlopen"; "connect"; "request"; "load"; "parse"].

Definition visit_Call (node : expr)
  (generic_visit : EvidenceVoidDetector -> EvidenceVoidDetector)
  (self : EvidenceVoidDetector) : EvidenceVoidDetector :=
  match node with
  | Call lineno _ _ _ =>
      let func_name := _get_call_name node in
      let self :=
        match func_name with
        | Some name =>
            if str_in name fallible then
              if negb (_is_error_checked node) then
                voids_append
                  {| line := lineno;
                     void_type := SILENT_FAILURE;
                     code_snippet := _get_code_snippet self lineno;
                     severity := "MEDIUM";
                     description :=
                       "Fallible operation '" ++ name
                         ++ "()' lacks error handling";
                     context := current_context self |} self
              else self
            else self
        | None => self
        end in
      generic_visit self
  | _ => generic_visit self
  end.

Definition visitor : NodeVisitor EvidenceVoidDetector :=
  {| Ast.visit_FunctionDef := visit_FunctionDef;
     Ast.visit_For := default_visit;
     Ast.visit_While := default_visit;
     Ast.visit_Try := visit_Try;
     Ast.visit_Expr := default_visit;
     Ast.visit_Call := visit_Call |}.

Section Detect.
Variable ast_parse : string -> result module_.

Definition detect_evidence_voids (source_code : string)
  : result (list EvidenceVoid) :=
  match ast_parse source_code with
  | Returns tree =>
      let source_lines := split_nl source_code in
      let detector := init source_lines in
      let detector := visit visitor tree detector in
      Returns (voids detector)
  | Raises SyntaxError => Returns []
  | Raises e => Raises e
  end.
End Detect.

(** [weights.get(severity, 1.0)]. *)
Definition weights_get (severity : string) : Z :=
  if String.eqb severity "HIGH" then 3
  else if String.eqb severity "MEDIUM" then 2
  else if String.eqb severity "LOW" then 1
  else 1.

Definition sum (l : list Z) : Z := fold_left Z.add l 0.

Definition calculate_void_score (voids : list EvidenceVoid) : Z :=
  match voids with
  | [] => 0
  | _ =>
      let total := sum (map (fun v => weights_get (severity v)) voids) in
      Z.min 10 total
  end.

End EvidenceVoids.

(* ================================================================== *)
(** ** dark_matter_scanner.py *)

Module Scanner.
Import Py Ast.

Section DarkMatterScanner.

(** [ast.parse], used by each of the detectors. *)
Variable ast_parse : string -> result module_.

(** Modelled from the spec: magic_gravity.py is not among the sources.
    The scanner reads the fields [line], [value], [gravity_type.value],
    [severity] and [context] of a [MagicConstant]; the type of [value], the
    enumeration of gravity types and the detection rule itself are left
    open. *)
Variable MagicValue : Type.
Variable str_value : MagicValue -> string.
Variable GravityType : Type.
Variable GravityType_value : GravityType -> string.

Record MagicConstant := {
  line : Z;
  value : MagicValue;
  gravity_type : GravityType;
  severity : string;
  context : string
}.

Variable detect_magic_gravity : string -> result (list MagicConstant).

(** Modelled from the spec: [calculate_dark_mass_score] of the missing
    magic_gravity.py, the score function every detector shares: 0.0 for an
    empty list, otherwise the sum of the severity weights capped at 10.0. *)
Definition calculate_dark_mass_score (constants : list MagicConstant) : Z :=
  match constants with
  | [] => 0
  | _ =>
      Z.min 10
        (PhantomLoops.sum
           (map (fun c => PhantomLoops.weights_get (severity c)) constants))
  end.

(** What [json.dumps] is given: ints, floats, strings, the value of a
    magic constant, lists, and dicts in insertion order. *)
Inductive json :=
| JInt (n : Z)
| JFloat (x : Z)
| JStr (s : string)
| JValue (v : MagicValue)
| JList (l : list json)
| JDict (items : list (string * json)).

(** [json.dumps(_, indent=2)] of the Python standard library. *)
Variable json_dumps : json -> string.

(** The entry [self.results[detector]]. *)
Record DetectorResult (F : Type) := {
  findings : list F;
  score : Z;
  count : Z
}.
Arguments findings {F}.
Arguments score {F}.
Arguments count {F}.

(** The entry [self.results['summary']]. *)
Record Summary := {
  total_score : Z;
  total_findings : Z;
  summary_filepath : string
}.

(** The dict [self.results]: each of its five keys is present or not. *)
Record Results := {
  magic_gravity : option (DetectorResult MagicConstant);
  phantom_loops : option (DetectorResult PhantomLoops.PhantomLoop);
  zombie_orbits : option (DetectorResult ZombieOrbits.ZombieOrbit);
  evidence_voids : option (DetectorResult EvidenceVoids.EvidenceVoid);
  summary : option Summary
}.

Definition empty_results : Results :=
  {| magic_gravity := None; phantom_loops := None; zombie_orbits := None;
     evidence_voids := None; summary := None |}.

Record DarkMatterScanner := {
  source_code : string;
  filepath : string;
  results : Results
}.

(** [DarkMatterScanner(source_code, filepath)]. *)
Definition init (source_code filepath : string) : DarkMatterScanner :=
  {| source_code := source_code; filepath := filepath;
     results := empty_results |}.

(** The scanner object and what has been printed so far, one entry for
    each call of [print]. *)
Record World := {
  self_ : DarkMatterScanner;
  stdout : list string
}.

(** Computations that read and update the scanner, print, and may raise. *)
Definition M (A : Type) : Type := World -> result A * World.

Definition ret {A} (a : A) : M A := fun w => (Returns a, w).

Definition bind {A B} (m : M A) (f : A -> M B) : M B :=
  fun w =>
    match m w with
    | (Returns a, w') => f a w'
    | (Raises e, w') => (Raises e, w')
    end.

Notation "x <- m ;; k" := (bind m (fun x => k))
  (at level 61, m at next level, right associativity).
Notation "m ;;; k" := (bind m (fun _ => k))
  (at level 61, right associativity).

Definition print (s : string) : M unit :=
  fun w => (Returns tt, {| self_ := self_ w; stdout := stdout w ++ [s] |}).

Definition call {A} (r : result A) : M A := fun w => (r, w).

Definition get_self : M DarkMatterScanner := fun w => (Returns (self_ w), w).

Definition set_results (f : Results -> Results) : M unit :=
  fun w =>
    (Returns tt,
     {| self_ := {| source_code := source_code (self_ w);
                    filepath := filepath (self_ w);
                    results := f (results (self_ w)) |};
        stdout := stdout w |}).

Definition set_magic_gravity v (r : Results) : Results :=
  {| magic_gravity := Some v; phantom_loops := phantom_loops r;
     zombie_orbits := zombie_orbits r; evidence_voids := evidence_voids r;
     summary := summary r |}.

Definition set_phantom_loops v (r : Results) : Results :=
  {| magic_gravity := magic_gravity r; phantom_loops := Some v;
     zombie_orbits := zombie_orbits r; evidence_voids := evidence_voids r;
     summary := summary r |}.

Definition set_zombie_orbits v (r : Results) : Results :=
  {| magic_gravity := magic_gravity r; phantom_loops := phantom_loops r;
     zombie_orbits := Some v; evidence_voids := evidence_voids r;
     summary := summary r |}.

Definition set_evidence_voids v (r : Results) : Results :=
  {| magic_gravity := magic_gravity r; phantom_loops := phantom_loops r;
     zombie_orbits := zombie_orbits r; evidence_voids := Some v;
     summary := summary r |}.

Definition set_summary v (r : Results) : Results :=
  {| magic_gravity := magic_gravity r; phantom_loops := phantom_loops r;
     zombie_orbits := zombie_orbits r; evidence_voids := evidence_voids r;
     summary := Some v |}.

(** ["=" * 70] and ["-" * 70]. *)
Definition rule (c : ascii) : string := repeat_char c 70.

Definition found (n : Z) (what : string) (score : Z) : string :=
  "   Found " ++ str_int n ++ " " ++ what ++ " (score: "
    ++ format_1f score ++ ")".

Definition scan_all : M Results :=
  self <- get_self ;;
  print (nl ++ "🌌 Scanning " ++ filepath self ++ " for dark matter...") ;;;
  print (rule "=") ;;;
  (* Magic Gravity *)
  print (nl ++ "🌑 Running Magic Gravity detector...") ;;;
  magic_constants <- call (detect_magic_gravity (source_code self)) ;;
  let magic_score := calculate_dark_mass_score magic_constants in
  set_results (set_magic_gravity
    {| findings := magic_constants; score := magic_score;
       count := len magic_constants |}) ;;;
  print (found (len magic_constants) "magic constants" magic_score) ;;;
  (* Phantom Loops *)
  print (nl ++ "♾️  Running Phantom Loops detector...") ;;;
  phantoms <- call (PhantomLoops.detect_phantom_loops ast_parse
                      (source_code self)) ;;
  let phantom_score := PhantomLoops.calculate_phantom_score phantoms in
  set_results (set_phantom_loops
    {| findings := phantoms; score := phantom_score;
       count := len phantoms |}) ;;;
  print (found (len phantoms) "phantom loops" phantom_score) ;;;
  (* Zombie Orbits *)
  print (nl ++ "🧟 Running Zombie Orbits detector...") ;;;
  zombies <- call (ZombieOrbits.detect_zombie_orbits ast_parse
                     (source_code self)) ;;
  let zombie_score := ZombieOrbits.calculate_zombie_score zombies in
  set_results (set_zombie_orbits
    {| findings := zombies; score := zombie_score;
       count := len zombies |}) ;;;
  print (found (len zombies) "zombie orbits" zombie_score) ;;;
  (* Evidence Voids *)
  print (nl ++ "📊 Running Evidence Voids detector...") ;;;
  voids <- call (EvidenceVoids.detect_evidence_voids ast_parse
                   (source_code self)) ;;
  let void_score := EvidenceVoids.calculate_void_score voids in
  set_results (set_evidence_voids
    {| findings := voids; score := void_score; count := len voids |}) ;;;
  print (found (len voids) "evidence voids" void_score) ;;;
  (* Overall dark matter score *)
  let total_score := magic_score + phantom_score + zombie_score + void_score in
  let total_findings :=
    len magic_constants + len phantoms + len zombies + len voids in
  set_results (set_summary
    {| total_score := total_score; total_findings := total_findings;
       summary_filepath := filepath self |}) ;;;
  print (nl ++ rule "=") ;;;
  print (nl ++ "🌌 TOTAL DARK MATTER SCORE: " ++ format_1f total_score) ;;;
  print ("   Total findings: " ++ str_int total_findings) ;;;
  self <- get_self ;;
  ret (results self).

(** *** The text report *)

(** The four lines appended for one finding. *)
Definition magic_lines (const : MagicConstant) : list string :=
  [nl ++ "Line " ++ str_int (line const) ++ " | " ++ context const;
   "  Value: " ++ str_value (value const);
   "  Type: " ++ GravityType_value (gravity_type const);
   "  Severity: " ++ severity const].

Definition phantom_lines (loop : PhantomLoops.PhantomLoop) : list string :=
  [nl ++ "Line " ++ str_int (PhantomLoops.line loop) ++ " | "
      ++ PhantomLoops.context loop;
   "  Type: " ++ PhantomLoops.PhantomType_value (PhantomLoops.phantom_type loop);
   "  Issue: " ++ PhantomLoops.description loop;
   "  Severity: " ++ PhantomLoops.severity loop].

Definition zombie_lines (z : ZombieOrbits.ZombieOrbit) : list string :=
  [nl ++ "Line " ++ str_int (ZombieOrbits.line z) ++ " | "
      ++ ZombieOrbits.context z;
   "  Type: " ++ ZombieOrbits.ZombieType_value (ZombieOrbits.zombie_type z);
   "  Issue: " ++ ZombieOrbits.description z;
   "  Severity: " ++ ZombieOrbits.severity z].

Definition void_lines (v : EvidenceVoids.EvidenceVoid) : list string :=
  [nl ++ "Line " ++ str_int (EvidenceVoids.line v) ++ " | "
      ++ EvidenceVoids.context v;
   "  Type: " ++ EvidenceVoids.VoidType_value (EvidenceVoids.void_type v);
   "  Issue: " ++ EvidenceVoids.description v;
   "  Severity: " ++ EvidenceVoids.severity v].

(** One section of the text report: nothing when the detector's entry is
    missing or its count is 0, otherwise a heading followed by the lines
    of [findings[:5]]. *)
Definition text_section {F} (title : string) (lines_of : F -> list string)
  (entry : option (DetectorResult F)) : list string :=
  match entry with
  | Some d =>
      if count d >? 0 then
        [nl ++ rule "-";
         title ++ " (" ++ str_int (count d) ++ " findings, score: "
           ++ format_1f (score d) ++ ")";
         rule "-"]
        ++ flat_map lines_of (slice (findings d) 0 5)
      else []
  | None => []
  end.

Definition text_report_lines (self : DarkMatterScanner) : list string :=
  let summary := summary (results self) in
  [nl ++ rule "=";
   "🌌 DARK MATTER DETECTION REPORT";
   rule "=";
   nl ++ "File: "
     ++ match summary with Some s => summary_filepath s | None => "unknown" end;
   "Total Dark Matter Score: "
     ++ format_1f (match summary with Some s => total_score s | None => 0 end);
   "Total Findings: "
     ++ str_int (match summary with Some s => total_findings s | None => 0 end)]
  ++ text_section "🌑 MAGIC GRAVITY" magic_lines (magic_gravity (results self))
  ++ text_section "♾️  PHANTOM LOOPS" phantom_lines
       (phantom_loops (results self))
  ++ text_section "🧟 ZOMBIE ORBITS" zombie_lines
       (zombie_orbits (results self))
  ++ text_section "📊 EVIDENCE VOIDS" void_lines
       (evidence_voids (results self))
  ++ [nl ++ rule "=";
      nl ++ "💡 RECOMMENDATIONS:";
      "  • Document or remove magic constants";
      "  • Fix phantom loops claiming false infinity";
      "  • Eliminate zombie code running without purpose";
      "  • Add logging/monitoring to evidence voids";
      nl ++ "  Dark matter isn't always bad - but it should be intentional.";
      "  Make invisible forces visible through documentation and design."].

Definition _generate_text_report (self : DarkMatterScanner) : string :=
  join nl (text_report_lines self).

(** *** The structured report *)

Definition magic_json (c : MagicConstant) : json :=
  JDict [("line", JInt (line c));
         ("value", JValue (value c));
         ("type", JStr (GravityType_value (gravity_type c)));
         ("severity", JStr (severity c));
         ("context", JStr (context c))].

Definition phantom_json (p : PhantomLoops.PhantomLoop) : json :=
  JDict [("line", JInt (PhantomLoops.line p));
         ("type", JStr (PhantomLoops.PhantomType_value
                          (PhantomLoops.phantom_type p)));
         ("description", JStr (PhantomLoops.description p));
         ("severity", JStr (PhantomLoops.severity p));
         ("context", JStr (PhantomLoops.context p))].

Definition zombie_json (z : ZombieOrbits.ZombieOrbit) : json :=
  JDict [("line", JInt (ZombieOrbits.line z));
         ("type", JStr (ZombieOrbits.ZombieType_value
                          (ZombieOrbits.zombie_type z)));
         ("description", JStr (ZombieOrbits.description z));
         ("severity", JStr (ZombieOrbits.severity z));
         ("context", JStr (ZombieOrbits.context z))].

Definition void_json (v : EvidenceVoids.EvidenceVoid) : json :=
  JDict [("line", JInt (EvidenceVoids.line v));
         ("type", JStr (EvidenceVoids.VoidType_value
                          (EvidenceVoids.void_type v)));
         ("description", JStr (EvidenceVoids.description v));
         ("severity", JStr (EvidenceVoids.severity v));
         ("context", JStr (EvidenceVoids.context v))].

Definition detector_json {F} (finding_json : F -> json) (d : DetectorResult F)
  : json :=
  JDict [("score", JFloat (score d));
         ("count", JInt (count d));
         ("findings", JList (map finding_json (findings d)))].

Definition summary_json (s : option Summary) : json :=
  match s with
  | Some s =>
      JDict [("total_score", JFloat (total_score s));
             ("total_findings", JInt (total_findings s));
             ("filepath", JStr (summary_filepath s))]
  | None => JDict []
  end.

(** [self.results[key]], which raises [KeyError] on a missing key. *)
Definition getitem {A} (entry : option A) : result A :=
  match entry with
  | Some a => Returns a
  | None => Raises KeyError
  end.

(** The dict [json_results] handed to [json.dumps]. *)
Definition json_results (self : DarkMatterScanner) : result json :=
  let r := results self in
  match getitem (magic_gravity r), getitem (phantom_loops r),
        getitem (zombie_orbits r), getitem (evidence_voids r) with
  | Returns m, Returns p, Returns z, Returns v =>
      Returns (JDict [("summary", summary_json (summary r));
                      ("magic_gravity", detector_json magic_json m);
                      ("phantom_loops", detector_json phantom_json p);
                      ("zombie_orbits", detector_json zombie_json z);
                      ("evidence_voids", detector_json void_json v)])
  | Raises e, _, _, _ => Raises e
  | _, Raises e, _, _ => Raises e
  | _, _, Raises e, _ => Raises e
  | _, _, _, Raises e => Raises e
  end.

Definition _generate_json_report (self : DarkMatterScanner) : result string :=
  match json_results self with
  | Returns j => Returns (json_dumps j)
  | Raises e => Raises e
  end.

Definition generate_report (self : DarkMatterScanner) (format : string)
  : result string :=
  if String.eqb format "json" then _generate_json_report self
  else Returns (_generate_text_report self).

(** Reading a rendered structure back: the value under a key of a dict. *)
Definition json_get (key : string) (j : json) : option json :=
  match j with
  | JDict items =>
      option_map snd (find (fun kv => String.eqb (fst kv) key) items)
  | _ => None
  end.

(** The keys of a dict, in order. *)
Definition json_keys (j : json) : list string :=
  match j with
  | JDict items => map fst items
  | _ => []
  end.

(** The lines of a text report that open a finding. *)
Definition is_finding_line (s : string) : bool :=
  String.prefix (nl ++ "Line ") s.

Definition findings_shown (lines : list string) : Z :=
  len (filter is_finding_line lines).

End DarkMatterScanner.

Arguments findings {F}.
Arguments score {F}.
Arguments count {F}.
Arguments line {MagicValue GravityType}.
Arguments value {MagicValue GravityType}.
Arguments gravity_type {MagicValue GravityType}.
Arguments severity {MagicValue GravityType}.
Arguments context {MagicValue GravityType}.
Arguments magic_gravity {MagicValue GravityType}.
Arguments phantom_loops {MagicValue GravityType}.
Arguments zombie_orbits {MagicValue GravityType}.
Arguments evidence_voids {MagicValue GravityType}.
Arguments summary {MagicValue GravityType}.
Arguments source_code {MagicValue GravityType}.
Arguments filepath {MagicValue GravityType}.
Arguments results {MagicValue GravityType}.
Arguments self_ {MagicValue GravityType}.
Arguments stdout {MagicValue GravityType}.
Arguments json_get {MagicValue}.
Arguments json_keys {MagicValue}.
Arguments JInt {MagicValue}.
Arguments JFloat {MagicValue}.
Arguments JStr {MagicValue}.
Arguments JValue {MagicValue}.
Arguments JList {MagicValue}.
Arguments JDict {MagicValue}.

End Scanner.

(* ================================================================== *)
(** * Properties *)

#[local] Open Scope list_scope.

(** ** The visitor: what every traversal preserves *)

Module VisitorFacts.
Import Py Ast.

Lemma list_all_Forall {A} (P : A -> Prop) (l : list A) :
  list_all A P l -> Forall P l.
Proof. induction 1; constructor; assumption. Qed.

Section Rel.
Context {S : Type} (V : NodeVisitor S).

(** [visit_stmt] is the dispatch on the node's class, applied to the
    generic visit of the node. *)
Lemma visit_stmt_unfold (s : stmt) :
  visit_stmt V s =
  match s with
  | FunctionDef _ _ _ _ _ _ => visit_FunctionDef V s (generic_visit V s)
  | For _ _ _ _ _ => visit_For V s (generic_visit V s)
  | While _ _ _ _ => visit_While V s (generic_visit V s)
  | Try _ _ _ _ => visit_Try V s (generic_visit V s)
  | Expr _ _ => visit_Expr V s (generic_visit V s)
  | _ => generic_visit V s
  end.
Proof. destruct s; reflexivity. Qed.

Lemma visit_body_cons (s : stmt) (l : list stmt) (self : S) :
  visit_body V (s :: l) self = visit_body V l (visit_stmt V s self).
Proof. reflexivity. Qed.

(** A relation between the detector before and after a visit: reflexive,
    transitive, and respected by each [visit_X] method whenever the
    generic visit it is handed respects it. *)
Variable R : S -> S -> Prop.
Hypothesis R_refl : forall s, R s s.
Hypothesis R_trans : forall s1 s2 s3, R s1 s2 -> R s2 s3 -> R s1 s3.

Definition extends (f : S -> S) : Prop := forall s0 s, R s0 s -> R s0 (f s).

Lemma extends_intro (f : S -> S) : (forall s, R s (f s)) -> extends f.
Proof. intros H s0 s Hs. eapply R_trans; [exact Hs | apply H]. Qed.

Lemma extends_elim (f : S -> S) : extends f -> forall s, R s (f s).
Proof. intros H s. apply H, R_refl. Qed.

Lemma fold_left_rel {A} (f : S -> A -> S) (l : list A) :
  Forall (fun a => extends (fun s => f s a)) l ->
  extends (fold_left f l).
Proof.
  induction 1 as [|a l Ha _ IH]; intros s0 s Hs; simpl.
  - exact Hs.
  - apply IH, Ha, Hs.
Qed.

Hypothesis Call_ok : forall e k,
  (forall s, R s (k s)) -> forall s, R s (visit_Call V e k s).

Lemma visit_expr_rel (e : expr) : extends (visit_expr V e).
Proof.
  induction e as [c | id ctx | v IHv attr ctx | l f IHf args IHargs kws IHkws
                 | a IHa op b IHb | a IHa ops cs IHcs]; simpl.
  - intros s0 s Hs. exact Hs.
  - intros s0 s Hs. exact Hs.
  - exact IHv.
  - apply extends_intro, Call_ok. intros s.
    apply fold_left_rel.
    { induction IHkws as [|kw H kws' _ IH]; constructor; [|exact IH].
      destruct H as [k _ v Hv]. exact Hv. }
    apply fold_left_rel.
    { apply list_all_Forall in IHargs. exact IHargs. }
    apply IHf, R_refl.
  - intros s0 s Hs. apply IHb, IHa, Hs.
  - intros s0 s Hs. apply fold_left_rel.
    { apply list_all_Forall in IHcs. exact IHcs. }
    apply IHa, Hs.
Qed.

Lemma visit_exprs_rel (l : list expr) : extends (visit_exprs V l).
Proof.
  apply fold_left_rel. apply Forall_forall. intros e _.
  apply visit_expr_rel.
Qed.

Lemma visit_opt_expr_rel (o : option expr) : extends (visit_opt_expr V o).
Proof. apply visit_exprs_rel. Qed.

Lemma visit_arguments_rel (a : arguments) : extends (visit_arguments V a).
Proof.
  intros s0 s Hs. unfold visit_arguments.
  apply visit_exprs_rel, visit_exprs_rel, Hs.
Qed.

(** The statement methods need only respect [R] on the nodes of the tree
    being visited, which [N] singles out. *)
Variable N : stmt -> Prop.
Hypothesis FunctionDef_ok : forall node k, N node ->
  (forall s, R s (k s)) -> forall s, R s (visit_FunctionDef V node k s).
Hypothesis For_ok : forall node k, N node ->
  (forall s, R s (k s)) -> forall s, R s (visit_For V node k s).
Hypothesis While_ok : forall node k, N node ->
  (forall s, R s (k s)) -> forall s, R s (visit_While V node k s).
Hypothesis Try_ok : forall node k, N node ->
  (forall s, R s (k s)) -> forall s, R s (visit_Try V node k s).
Hypothesis Expr_ok : forall node k, N node ->
  (forall s, R s (k s)) -> forall s, R s (visit_Expr V node k s).

Definition all_in (nodes : list node) : Prop :=
  forall n, In (NStmt n) nodes -> N n.

Definition respects (st : stmt) : Prop :=
  all_in (walk_stmt st) -> extends (visit_stmt V st).

Lemma all_in_app (l1 l2 : list node) :
  all_in (l1 ++ l2) <-> all_in l1 /\ all_in l2.
Proof.
  unfold all_in. split.
  - intros H. split; intros n Hn; apply H, in_or_app; auto.
  - intros [H1 H2] n Hn. apply in_app_or in Hn. destruct Hn; auto.
Qed.

Lemma all_in_cons (n : node) (l : list node) :
  all_in (n :: l) -> all_in l.
Proof. intros H m Hm. apply H. now right. Qed.

Lemma visit_body_rel (l : list stmt) :
  list_all stmt respects l ->
  all_in (walk_body l) -> extends (visit_body V l).
Proof.
  induction 1 as [|st Hst l _ IH]; intros Hin s0 s Hs.
  - exact Hs.
  - change (walk_body (st :: l)) with (walk_stmt st ++ walk_body l) in Hin.
    apply all_in_app in Hin. destruct Hin as [H1 H2].
    rewrite visit_body_cons.
    apply IH; [exact H2|]. apply Hst; assumption.
Qed.

Lemma visit_handlers_rel (hs : list excepthandler) :
  list_all excepthandler (excepthandler__all stmt respects) hs ->
  all_in (flat_map (fun h => NHandler h :: walk_exprs (opt_list (h_type h))
                               ++ walk_body (h_body h)) hs) ->
  extends (fold_left (fun self h => visit_handler V h self) hs).
Proof.
  induction 1 as [|h Hh hs _ IH]; intros Hin s0 s Hs.
  - exact Hs.
  - simpl in Hin. apply all_in_cons in Hin.
    rewrite <- app_assoc in Hin.
    apply all_in_app in Hin. destruct Hin as [_ Hin].
    apply all_in_app in Hin. destruct Hin as [Hb Hrest].
    simpl. apply IH; [exact Hrest|].
    unfold visit_handler. destruct Hh as [l t n b Hb'].
    apply visit_body_rel; [assumption | assumption |].
    apply visit_opt_expr_rel, Hs.
Qed.

Lemma generic_visit_rel (st : stmt) :
  (match st with
   | FunctionDef _ _ _ body _ _ => list_all stmt respects body
   | For _ _ _ body orelse | While _ _ body orelse | If _ body orelse =>
       list_all stmt respects body * list_all stmt respects orelse
   | Try body hs orelse finalbody =>
       list_all stmt respects body
       * list_all excepthandler (excepthandler__all stmt respects) hs
       * list_all stmt respects orelse * list_all stmt respects finalbody
   | _ => True
   end)%type ->
  all_in (tl (walk_stmt st)) -> extends (generic_visit V st).
Proof.
  intros IH Hin s0 s Hs.
  destruct st; cbn [walk_stmt tl] in Hin; cbn [generic_visit].
  - apply all_in_app in Hin. destruct Hin as [_ Hin].
    apply all_in_app in Hin. destruct Hin as [Hb _].
    apply visit_opt_expr_rel, visit_exprs_rel.
    apply visit_body_rel; [assumption | assumption |].
    apply visit_arguments_rel, Hs.
  - apply visit_opt_expr_rel, Hs.
  - apply visit_expr_rel, visit_exprs_rel, Hs.
  - destruct IH as [IHb IHo].
    apply (all_in_app (walk_exprs [target; iter])) in Hin.
    destruct Hin as [_ Hin].
    apply all_in_app in Hin. destruct Hin as [Hb Ho].
    apply visit_body_rel; [assumption | assumption |].
    apply visit_body_rel; [assumption | assumption |].
    apply visit_expr_rel, visit_expr_rel, Hs.
  - destruct IH as [IHb IHo].
    apply (all_in_app (walk_exprs [test])) in Hin.
    destruct Hin as [_ Hin].
    apply all_in_app in Hin. destruct Hin as [Hb Ho].
    apply visit_body_rel; [assumption | assumption |].
    apply visit_body_rel; [assumption | assumption |].
    apply visit_expr_rel, Hs.
  - destruct IH as [IHb IHo].
    apply (all_in_app (walk_exprs [test])) in Hin.
    destruct Hin as [_ Hin].
    apply all_in_app in Hin. destruct Hin as [Hb Ho].
    apply visit_body_rel; [assumption | assumption |].
    apply visit_body_rel; [assumption | assumption |].
    apply visit_expr_rel, Hs.
  - apply visit_opt_expr_rel, visit_opt_expr_rel, Hs.
  - destruct IH as [[[IHb IHh] IHo] IHf].
    apply all_in_app in Hin. destruct Hin as [Hb Hin].
    apply all_in_app in Hin. destruct Hin as [Hh Hin].
    apply all_in_app in Hin. destruct Hin as [Ho Hf].
    apply visit_body_rel; [assumption | assumption |].
    apply visit_body_rel; [assumption | assumption |].
    apply visit_handlers_rel; [assumption | assumption |].
    apply visit_body_rel; [assumption | assumption |].
    exact Hs.
  - apply visit_expr_rel, Hs.
  - exact Hs.
  - exact Hs.
  - exact Hs.
Qed.

Lemma visit_stmt_rel (st : stmt) : respects st.
Proof.
  induction st; intros Hin; rewrite visit_stmt_unfold;
    lazymatch type of Hin with
    | all_in (walk_stmt ?node) =>
        assert (G : extends (generic_visit V node))
          by (apply generic_visit_rel;
              [cbn; repeat split; assumption
              | exact (all_in_cons _ _ Hin)])
    end;
    try exact G;
    apply extends_intro;
    first [ apply FunctionDef_ok | apply For_ok | apply While_ok
          | apply Try_ok | apply Expr_ok ];
    solve [ apply Hin; now left | apply extends_elim, G ].
Qed.

Lemma all_respect (l : list stmt) : list_all stmt respects l.
Proof.
  induction l; constructor; [apply visit_stmt_rel | assumption].
Qed.

Lemma all_handlers_respect (hs : list excepthandler) :
  list_all excepthandler (excepthandler__all stmt respects) hs.
Proof.
  induction hs as [|[l t n b] hs IH]; constructor; [|exact IH].
  constructor. apply all_respect.
Qed.

(** The generic visit of a node respects [R] as soon as the methods do
    on the nodes strictly below it. *)
Lemma generic_visit_below (st : stmt) :
  all_in (tl (walk_stmt st)) -> forall s, R s (generic_visit V st s).
Proof.
  intros Hin. apply extends_elim, generic_visit_rel; [|exact Hin].
  destruct st; cbn; repeat split;
    first [apply all_respect | apply all_handlers_respect].
Qed.

Lemma visit_stmt_below (st : stmt) :
  all_in (walk_stmt st) -> forall s, R s (visit_stmt V st s).
Proof. intros Hin. apply extends_elim, visit_stmt_rel, Hin. Qed.

Lemma visit_rel (tree : module_) :
  all_in (walk tree) -> forall s, R s (visit V tree s).
Proof.
  intros Hin. apply extends_elim, visit_body_rel; [|exact Hin].
  apply all_respect.
Qed.

End Rel.

End VisitorFacts.

(** ** Scores *)

Module ScoreFacts.

(** The sum of the weights of a finding list, as a sum over the list. *)
Definition weight_sum {A} (weight : A -> Z) (F : list A) : Z :=
  fold_right (fun x acc => weight x + acc) 0 F.

(** The severity weights: 3.0, 2.0, 1.0, and 1.0 for any other string. *)
Definition severity_weight (severity : string) : Z :=
  if String.eqb severity "HIGH" then 3
  else if String.eqb severity "MEDIUM" then 2
  else 1.

Lemma severity_weight_bounds (s : string) : 1 <= severity_weight s <= 3.
Proof.
  unfold severity_weight.
  destruct (String.eqb s "HIGH"); [lia|].
  destruct (String.eqb s "MEDIUM"); lia.
Qed.

Lemma fold_add_shift (l : list Z) (a : Z) :
  fold_left Z.add l a = a + fold_left Z.add l 0.
Proof.
  revert a. induction l as [|x l IH]; intros a; simpl.
  - lia.
  - rewrite IH, (IH x). lia.
Qed.

Lemma fold_add_weight_sum {A} (weight : A -> Z) (F : list A) :
  fold_left Z.add (map weight F) 0 = weight_sum weight F.
Proof.
  induction F as [|x F IH]; simpl.
  - reflexivity.
  - rewrite fold_add_shift, IH. reflexivity.
Qed.

Lemma weight_sum_app {A} (weight : A -> Z) (F G : list A) :
  weight_sum weight (F ++ G) = weight_sum weight F + weight_sum weight G.
Proof.
  induction F as [|x F IH]; simpl; [reflexivity | rewrite IH; lia].
Qed.

Lemma weight_sum_nonneg {A} (weight : A -> Z) (F : list A) :
  (forall x, 0 <= weight x) -> 0 <= weight_sum weight F.
Proof.
  intros H. induction F as [|x F IH]; simpl; [lia | specialize (H x); lia].
Qed.

(** What the three score functions have in common. *)
Record capped_score {A} (severity : A -> string) (score : list A -> Z)
  : Prop := {
  score_range : forall F, 0 <= score F <= 10;
  score_empty : score [] = 0;
  score_sum : forall F,
    score F = Z.min 10 (weight_sum (fun x => severity_weight (severity x)) F);
  score_mono : forall F x, score F <= score (F ++ [x])
}.

Lemma capped_score_intro {A} (severity : A -> string) (score : list A -> Z) :
  (forall F,
     score F = match F with
               | [] => 0
               | _ => Z.min 10 (fold_left Z.add
                                  (map (fun x => severity_weight (severity x)) F)
                                  0)
               end) ->
  capped_score severity score.
Proof.
  intros Hdef.
  assert (Hsum : forall F,
    score F = Z.min 10 (weight_sum (fun x => severity_weight (severity x)) F)).
  { intros F. rewrite Hdef. destruct F as [|x F]; [reflexivity|].
    now rewrite fold_add_weight_sum. }
  assert (Hpos : forall F,
    0 <= weight_sum (fun x => severity_weight (severity x)) F).
  { intros F. apply weight_sum_nonneg. intros x.
    pose proof (severity_weight_bounds (severity x)). lia. }
  constructor.
  - intros F. rewrite Hsum. specialize (Hpos F). lia.
  - now rewrite Hdef.
  - exact Hsum.
  - intros F x. rewrite !Hsum, weight_sum_app. simpl.
    pose proof (severity_weight_bounds (severity x)). lia.
Qed.

End ScoreFacts.

(** C1. Each of [calculate_phantom_score], [calculate_zombie_score] and
    [calculate_void_score] takes its values in [0.0, 10.0], is 0.0 on the
    empty list, is the sum of the severity weights (HIGH 3.0, MEDIUM 2.0,
    LOW 1.0) capped at 10.0, and does not decrease when a finding of any
    severity is appended. *)
Theorem score_capped_sum_monotone :
  ScoreFacts.capped_score PhantomLoops.severity
    PhantomLoops.calculate_phantom_score
  /\ ScoreFacts.capped_score ZombieOrbits.severity
       ZombieOrbits.calculate_zombie_score
  /\ ScoreFacts.capped_score EvidenceVoids.severity
       EvidenceVoids.calculate_void_score
  /\ (PhantomLoops.weights_get "HIGH" = 3
      /\ PhantomLoops.weights_get "MEDIUM" = 2
      /\ PhantomLoops.weights_get "LOW" = 1)
  /\ (forall s, ZombieOrbits.weights_get s = PhantomLoops.weights_get s)
  /\ (forall s, EvidenceVoids.weights_get s = PhantomLoops.weights_get s)
  /\ (forall s, ScoreFacts.severity_weight s = PhantomLoops.weights_get s).
Proof.
  assert (W : forall s, ScoreFacts.severity_weight s
                        = PhantomLoops.weights_get s).
  { intros s. unfold ScoreFacts.severity_weight, PhantomLoops.weights_get.
    destruct (String.eqb s "HIGH"); [reflexivity|].
    destruct (String.eqb s "MEDIUM"); [reflexivity|].
    destruct (String.eqb s "LOW"); reflexivity. }
  split; [|split; [|split; [|split; [|split; [|split]]]]];
    try exact W; try (intros s; reflexivity);
    try (split; [|split]; reflexivity).
  - apply ScoreFacts.capped_score_intro. intros F.
    destruct F as [|x F]; [reflexivity|].
    unfold PhantomLoops.calculate_phantom_score, PhantomLoops.sum.
    f_equal. f_equal. apply map_ext. intros a. symmetry. apply W.
  - apply ScoreFacts.capped_score_intro. intros F.
    destruct F as [|x F]; [reflexivity|].
    unfold ZombieOrbits.calculate_zombie_score, ZombieOrbits.sum.
    f_equal. f_equal. apply map_ext. intros a. symmetry. apply W.
  - apply ScoreFacts.capped_score_intro. intros F.
    destruct F as [|x F]; [reflexivity|].
    unfold EvidenceVoids.calculate_void_score, EvidenceVoids.sum.
    f_equal. f_equal. apply map_ext. intros a. symmetry. apply W.
Qed.

(** ** Parse failures *)

(** C2. When [ast.parse] raises [SyntaxError] on the source text, each of
    [detect_phantom_loops], [detect_zombie_orbits] and
    [detect_evidence_voids] returns the empty list: it returns, and raises
    nothing. *)
Theorem syntax_error_gives_no_findings
  (ast_parse : string -> Py.result Ast.module_) (source_code : string) :
  ast_parse source_code = Py.Raises Py.SyntaxError ->
  PhantomLoops.detect_phantom_loops ast_parse source_code = Py.Returns []
  /\ ZombieOrbits.detect_zombie_orbits ast_parse source_code = Py.Returns []
  /\ EvidenceVoids.detect_evidence_voids ast_parse source_code = Py.Returns [].
Proof.
  intros H.
  unfold PhantomLoops.detect_phantom_loops, ZombieOrbits.detect_zombie_orbits,
    EvidenceVoids.detect_evidence_voids.
  rewrite H. repeat split.
Qed.

(** A parser that rejects every text, and a text it is given. *)
Lemma syntax_error_gives_no_findings_witness :
  let ast_parse := fun _ : string => Py.Raises (A:=Ast.module_) Py.SyntaxError in
  let source_code := "while True print("%string in
  PhantomLoops.detect_phantom_loops ast_parse source_code = Py.Returns []
  /\ ZombieOrbits.detect_zombie_orbits ast_parse source_code = Py.Returns []
  /\ EvidenceVoids.detect_evidence_voids ast_parse source_code = Py.Returns [].
Proof.
  apply (syntax_error_gives_no_findings
           (fun _ => Py.Raises Py.SyntaxError) "while True print(").
  reflexivity.
Defined.

(** Any other exception of the parser is not caught. *)
Lemma other_parse_errors_propagate
  (ast_parse : string -> Py.result Ast.module_) (source_code : string)
  (e : Py.exception) :
  e <> Py.SyntaxError ->
  ast_parse source_code = Py.Raises e ->
  PhantomLoops.detect_phantom_loops ast_parse source_code = Py.Raises e.
Proof.
  intros Hne H. unfold PhantomLoops.detect_phantom_loops. rewrite H.
  destruct e; congruence.
Qed.

(** ** Code snippets *)

Module SnippetFacts.
Import Py.

(** The lines of a file with their 1-based numbers, from number [k]. *)
Fixpoint number_from (k : Z) (lines : list string) : list (Z * string) :=
  match lines with
  | [] => []
  | x :: rest => (k, x) :: number_from (k + 1) rest
  end.

(** The lines whose 1-based number lies in [lo, hi], in order. *)
Definition lines_between (lines : list string) (lo hi : Z) : list string :=
  map snd (filter (fun p => (lo <=? fst p) && (fst p <=? hi))
             (number_from 1 lines)).

Lemma lines_between_from (lines : list string) (lo hi k : Z) :
  map snd (filter (fun p => (lo <=? fst p) && (fst p <=? hi))
             (number_from k lines))
  = firstn (Z.to_nat (hi + 1 - Z.max lo k)) (skipn (Z.to_nat (lo - k)) lines).
Proof.
  revert k. induction lines as [|x rest IH]; intros k.
  - simpl. now rewrite skipn_nil, firstn_nil.
  - cbn [number_from filter fst].
    destruct (Z.leb_spec lo k) as [Hlo|Hlo];
      [destruct (Z.leb_spec k hi) as [Hhi|Hhi]|];
      cbn [andb map snd]; rewrite IH.
    + replace (Z.to_nat (lo - k)) with 0%nat by lia.
      replace (Z.to_nat (hi + 1 - Z.max lo k))
        with (S (Z.to_nat (hi - k))) by lia.
      replace (Z.to_nat (lo - (k + 1))) with 0%nat by lia.
      replace (Z.to_nat (hi + 1 - Z.max lo (k + 1)))
        with (Z.to_nat (hi - k)) by lia.
      reflexivity.
    + replace (Z.to_nat (hi + 1 - Z.max lo k)) with 0%nat by lia.
      replace (Z.to_nat (hi + 1 - Z.max lo (k + 1))) with 0%nat by lia.
      reflexivity.
    + replace (Z.to_nat (lo - k)) with (S (Z.to_nat (lo - (k + 1)))) by lia.
      replace (Z.max lo (k + 1)) with (Z.max lo k) by lia.
      reflexivity.
Qed.

Lemma slice_nonneg {A} (l : list A) (a b : Z) :
  0 <= a -> 0 <= b ->
  slice l a b = firstn (Z.to_nat b - Z.to_nat a) (skipn (Z.to_nat a) l).
Proof.
  intros Ha Hb. unfold slice, slice_bound, len.
  destruct (Z.ltb_spec a 0) as [?|_]; [lia|].
  destruct (Z.ltb_spec b 0) as [?|_]; [lia|].
  destruct (Z_le_gt_dec a (Z.of_nat (length l))) as [Hal|Hal].
  - rewrite (Z.min_l a) by lia.
    destruct (Z_le_gt_dec b (Z.of_nat (length l))) as [Hbl|Hbl].
    + rewrite (Z.min_l b) by lia. f_equal. lia.
    + rewrite (Z.min_r b) by lia.
      rewrite !firstn_all2; try reflexivity; rewrite length_skipn; lia.
  - rewrite (Z.min_r a) by lia.
    rewrite !(skipn_all2 l) by lia. now rewrite !firstn_nil.
Qed.

(** For a 1-based line number [L], the slice taken by [_get_code_snippet]
    holds the lines numbered [L-1] to [L+2] that exist. *)
Lemma snippet_slice (lines : list string) (L : Z) :
  1 <= L ->
  slice lines (Z.max 0 (L - 2)) (Z.min (len lines) (L + 2))
  = lines_between lines (L - 1) (L + 2).
Proof.
  intros HL. unfold lines_between. rewrite lines_between_from.
  rewrite slice_nonneg by (unfold len; lia).
  unfold len.
  replace (Z.to_nat (L - 1 - 1)) with (Z.to_nat (Z.max 0 (L - 2))) by lia.
  set (a := Z.to_nat (Z.max 0 (L - 2))).
  destruct (Z_le_gt_dec (L + 2) (Z.of_nat (length lines))) as [Hn|Hn].
  - f_equal. lia.
  - rewrite (Z.min_l (Z.of_nat (length lines))) by lia.
    rewrite !firstn_all2; try reflexivity; rewrite length_skipn; lia.
Qed.

End SnippetFacts.

(** The snippet attached to a finding at line [L]: the lines [L-1] to
    [L+2] of the file, where they exist. *)
Lemma snippet_is_lines_from_L_minus_1_to_L_plus_2
  (lines : list string) (L : Z) :
  1 <= L ->
  PhantomLoops._get_code_snippet (PhantomLoops.init lines) L
    = Py.join Py.nl (SnippetFacts.lines_between lines (L - 1) (L + 2))
  /\ ZombieOrbits._get_code_snippet (ZombieOrbits.init lines) L
     = Py.join Py.nl (SnippetFacts.lines_between lines (L - 1) (L + 2))
  /\ EvidenceVoids._get_code_snippet (EvidenceVoids.init lines) L
     = Py.join Py.nl (SnippetFacts.lines_between lines (L - 1) (L + 2)).
Proof.
  intros HL.
  unfold PhantomLoops._get_code_snippet, ZombieOrbits._get_code_snippet,
    EvidenceVoids._get_code_snippet. cbn [PhantomLoops.source_lines
    PhantomLoops.init ZombieOrbits.source_lines ZombieOrbits.init
    EvidenceVoids.source_lines EvidenceVoids.init].
  rewrite SnippetFacts.snippet_slice by exact HL. repeat split.
Qed.

(** C3. In a file of seven lines, the snippet of a finding at line 4 is
    made of lines 3, 4, 5 and 6: one line before the triggering line, not
    two, so it is not the window of lines 2 to 6. *)
Theorem snippet_at_line_4_of_7 :
  let lines := ["l1"; "l2"; "l3"; "l4"; "l5"; "l6"; "l7"]%string in
  PhantomLoops._get_code_snippet (PhantomLoops.init lines) 4
    = Py.join Py.nl ["l3"; "l4"; "l5"; "l6"]%string
  /\ ZombieOrbits._get_code_snippet (ZombieOrbits.init lines) 4
     = Py.join Py.nl ["l3"; "l4"; "l5"; "l6"]%string
  /\ EvidenceVoids._get_code_snippet (EvidenceVoids.init lines) 4
     = Py.join Py.nl ["l3"; "l4"; "l5"; "l6"]%string
  /\ SnippetFacts.lines_between lines (4 - 2) (4 + 2)
     = ["l2"; "l3"; "l4"; "l5"; "l6"]%string
  /\ PhantomLoops._get_code_snippet (PhantomLoops.init lines) 4
     <> Py.join Py.nl (SnippetFacts.lines_between lines (4 - 2) (4 + 2)).
Proof.
  cbv zeta. repeat split; try reflexivity.
  vm_compute. discriminate.
Qed.

(** ** The phantom-loop detector *)

Module PhantomFacts.
Import Py Ast PhantomLoops.

(** The finding [visit_While] builds for a loop at [lineno]. *)
Definition finding_for (self : PhantomLoopDetector) (lineno : Z)
  (t : PhantomType) (mechanism : string) (severity : string) : PhantomLoop :=
  {| line := lineno;
     phantom_type := t;
     code_snippet := _get_code_snippet self lineno;
     severity := severity;
     description :=
       ("Loop claims infinity but " ++ mechanism ++ " immediately")%string;
     exit_mechanism := mechanism;
     context := current_context self |}.

(** The while statement with test [True]. *)
Definition while_true (lineno : Z) (body orelse : list stmt) : stmt :=
  While lineno (Constant (CBool true)) body orelse.

(** [f] was emitted for a [while True] loop among [nodes] whose first body
    statement exits. *)
Definition from_loop (nodes : list node) (f : PhantomLoop) : Prop :=
  exists lineno body orelse,
    In (NStmt (while_true lineno body orelse)) nodes
    /\ line f = lineno
    /\ _check_immediate_exit body = Some (phantom_type f, exit_mechanism f)
    /\ severity f = _calculate_severity (phantom_type f).

(** The detector after a visit: same lines, same context, and new
    findings that all come from loops among [nodes]. *)
Definition grows (nodes : list node) (s s' : PhantomLoopDetector) : Prop :=
  source_lines s' = source_lines s
  /\ current_context s' = current_context s
  /\ exists new, phantoms s' = phantoms s ++ new
                 /\ Forall (from_loop nodes) new.

Lemma grows_refl nodes s : grows nodes s s.
Proof.
  repeat split. exists []. split; [now rewrite app_nil_r | constructor].
Qed.

Lemma grows_trans nodes s1 s2 s3 :
  grows nodes s1 s2 -> grows nodes s2 s3 -> grows nodes s1 s3.
Proof.
  intros (L1 & C1 & n1 & P1 & F1) (L2 & C2 & n2 & P2 & F2).
  repeat split; try congruence.
  exists (n1 ++ n2). split.
  - rewrite P2, P1. now rewrite app_assoc.
  - apply Forall_app. now split.
Qed.

Lemma grows_context nodes c s s' :
  grows nodes (set_current_context c s) s' ->
  grows nodes s (set_current_context (current_context s) s').
Proof.
  intros (L & C & n & P & F). repeat split; try assumption.
  exists n. split; assumption.
Qed.

Lemma visit_FunctionDef_grows nodes node k :
  (forall s, grows nodes s (k s)) ->
  forall s, grows nodes s (visit_FunctionDef node k s).
Proof.
  intros Hk s. destruct node; try apply Hk.
  cbn. eapply grows_context, Hk.
Qed.

Lemma visit_While_grows nodes node k :
  In (NStmt node) nodes ->
  (forall s, grows nodes s (k s)) ->
  forall s, grows nodes s (visit_While node k s).
Proof.
  intros Hin Hk s. destruct node; try apply Hk.
  cbn [visit_While].
  eapply grows_trans; [|apply Hk].
  destruct (_is_infinite_condition test) eqn:Htest; [|apply grows_refl].
  destruct (_check_immediate_exit body) as [[t m]|] eqn:Hexit;
    [|apply grows_refl].
  repeat split. eexists. split; [reflexivity|].
  constructor; [|constructor].
  assert (test = Constant (CBool true)) as ->.
  { destruct test as [[| [|] | | |] | | | | |]; try discriminate.
    reflexivity. }
  exists lineno, body, orelse. cbn. auto.
Qed.

(** Visiting a statement adds only findings of loops of that statement. *)
Lemma visit_stmt_grows (nodes : list node) (st : stmt) :
  (forall n, In (NStmt n) (walk_stmt st) -> In (NStmt n) nodes) ->
  forall s, grows nodes s (visit_stmt visitor st s).
Proof.
  intros Hin.
  apply (VisitorFacts.visit_stmt_below visitor (grows nodes)
           (grows_refl nodes) (grows_trans nodes)
           (fun e k H => H)
           (fun n => In (NStmt n) nodes)
           (fun node k _ => visit_FunctionDef_grows nodes node k)
           (fun node k _ H => H)
           (visit_While_grows nodes)
           (fun node k _ H => H)
           (fun node k _ H => H)); assumption.
Qed.

Lemma generic_visit_grows (st : stmt) :
  forall s, grows (tl (walk_stmt st)) s (generic_visit visitor st s).
Proof.
  apply (VisitorFacts.generic_visit_below visitor (grows _)
           (grows_refl _) (grows_trans _)
           (fun e k H => H)
           (fun n => In (NStmt n) (tl (walk_stmt st)))
           (fun node k _ => visit_FunctionDef_grows _ node k)
           (fun node k _ H => H)
           (visit_While_grows _)
           (fun node k _ H => H)
           (fun node k _ H => H)).
  intros n Hn. exact Hn.
Qed.

Lemma visit_grows (tree : module_) :
  forall s, grows (walk tree) s (visit visitor tree s).
Proof.
  apply (VisitorFacts.visit_rel visitor (grows _)
           (grows_refl _) (grows_trans _)
           (fun e k H => H)
           (fun n => In (NStmt n) (walk tree))
           (fun node k _ => visit_FunctionDef_grows _ node k)
           (fun node k _ H => H)
           (visit_While_grows _)
           (fun node k _ H => H)
           (fun node k _ H => H)).
  intros n Hn. exact Hn.
Qed.

(** The findings [visit_While] adds for the loop itself. *)
Definition own_findings (self : PhantomLoopDetector) (lineno : Z)
  (body : list stmt) : list PhantomLoop :=
  match body with
  | Break :: _ => [finding_for self lineno WHILE_TRUE_BREAK "breaks" "HIGH"]
  | Return _ :: _ =>
      [finding_for self lineno WHILE_TRUE_RETURN "returns" "MEDIUM"]
  | Raise _ _ :: _ =>
      [finding_for self lineno WHILE_TRUE_RAISE "raises" "MEDIUM"]
  | _ => []
  end.

(** A statement that leaves the loop. *)
Definition is_exit (s : stmt) : bool :=
  match s with
  | Break | Return _ | Raise _ _ => true
  | _ => false
  end.

Lemma visit_while_true (self : PhantomLoopDetector) (lineno : Z)
  (body orelse : list stmt) :
  visit_stmt visitor (while_true lineno body orelse) self
  = generic_visit visitor (while_true lineno body orelse)
      (fold_left (fun s f => phantoms_append f s)
         (own_findings self lineno body) self).
Proof.
  rewrite VisitorFacts.visit_stmt_unfold. cbn.
  destruct body as [|[] rest]; reflexivity.
Qed.

Lemma visit_while_other (self : PhantomLoopDetector) (lineno : Z)
  (test : expr) (body orelse : list stmt) :
  test <> Constant (CBool true) ->
  visit_stmt visitor (While lineno test body orelse) self
  = generic_visit visitor (While lineno test body orelse) self.
Proof.
  intros Hne. rewrite VisitorFacts.visit_stmt_unfold. cbn.
  destruct test as [[| [|] | | |] | | | | |]; try reflexivity.
  congruence.
Qed.

End PhantomFacts.

(** C4. A [while True] loop whose first body statement is [break] gets
    exactly one finding of its own, of type WHILE_TRUE_BREAK (value
    "while_true_break") and severity HIGH; with [return] or [raise] first the
    finding has severity MEDIUM; with any other first statement, or an empty
    body, the loop gets no finding, whatever follows in the body. Every other
    finding of the visit belongs to a loop nested strictly inside. *)
Theorem while_true_first_statement_decides
  (self : PhantomLoops.PhantomLoopDetector) (lineno : Z)
  (value exc cause : option Ast.expr) (first : Ast.stmt)
  (rest orelse : list Ast.stmt) :
  PhantomFacts.is_exit first = false ->
  let emitted body :=
    PhantomLoops.phantoms
      (Ast.visit_stmt PhantomLoops.visitor
         (PhantomFacts.while_true lineno body orelse) self) in
  let below body :=
    tl (Ast.walk_stmt (PhantomFacts.while_true lineno body orelse)) in
  (exists nested,
     emitted (Ast.Break :: rest)
     = PhantomLoops.phantoms self
         ++ [PhantomFacts.finding_for self lineno
               PhantomLoops.WHILE_TRUE_BREAK "breaks" "HIGH"]
         ++ nested
     /\ Forall (PhantomFacts.from_loop (below (Ast.Break :: rest))) nested)
  /\ (exists nested,
        emitted (Ast.Return value :: rest)
        = PhantomLoops.phantoms self
            ++ [PhantomFacts.finding_for self lineno
                  PhantomLoops.WHILE_TRUE_RETURN "returns" "MEDIUM"]
            ++ nested
        /\ Forall (PhantomFacts.from_loop (below (Ast.Return value :: rest)))
             nested)
  /\ (exists nested,
        emitted (Ast.Raise exc cause :: rest)
        = PhantomLoops.phantoms self
            ++ [PhantomFacts.finding_for self lineno
                  PhantomLoops.WHILE_TRUE_RAISE "raises" "MEDIUM"]
            ++ nested
        /\ Forall (PhantomFacts.from_loop (below (Ast.Raise exc cause :: rest)))
             nested)
  /\ (exists nested,
        emitted (first :: rest) = PhantomLoops.phantoms self ++ nested
        /\ Forall (PhantomFacts.from_loop (below (first :: rest))) nested)
  /\ (exists nested,
        emitted [] = PhantomLoops.phantoms self ++ nested
        /\ Forall (PhantomFacts.from_loop (below [])) nested)
  /\ PhantomLoops.phantoms
       (Ast.visit_stmt PhantomLoops.visitor
          (PhantomFacts.while_true lineno [Ast.Break] []) self)
     = PhantomLoops.phantoms self
         ++ [PhantomFacts.finding_for self lineno
               PhantomLoops.WHILE_TRUE_BREAK "breaks" "HIGH"]
  /\ PhantomLoops.PhantomType_value PhantomLoops.WHILE_TRUE_BREAK
     = "while_true_break"%string.
Proof.
  intros Hfirst emitted below.
  assert (G : forall body,
    exists nested,
      emitted body
      = PhantomLoops.phantoms self
          ++ PhantomFacts.own_findings self lineno body ++ nested
      /\ Forall (PhantomFacts.from_loop (below body)) nested).
  { intros body. unfold emitted, below.
    rewrite PhantomFacts.visit_while_true.
    destruct (PhantomFacts.generic_visit_grows
                (PhantomFacts.while_true lineno body orelse)
                (fold_left (fun s f => PhantomLoops.phantoms_append f s)
                   (PhantomFacts.own_findings self lineno body) self))
      as (_ & _ & nested & P & F).
    exists nested. split; [|exact F]. rewrite P.
    rewrite app_assoc. f_equal.
    destruct body as [|[] ?]; cbn; try reflexivity;
      now rewrite app_nil_r. }
  split; [exact (G (Ast.Break :: rest))|].
  split; [exact (G (Ast.Return value :: rest))|].
  split; [exact (G (Ast.Raise exc cause :: rest))|].
  split.
  { destruct (G (first :: rest)) as (nested & P & F).
    exists nested. split; [|exact F]. rewrite P.
    destruct first; try discriminate; reflexivity. }
  split; [exact (G [])|].
  split; reflexivity.
Qed.

(** A loop that works before it breaks: [pass] first, [break] second. *)
Lemma while_true_first_statement_decides_witness :
  let self := PhantomLoops.init
                ["while True:"; "    pass"; "    break"]%string in
  let node := PhantomFacts.while_true 1 [Ast.Pass; Ast.Break] [] in
  PhantomFacts.is_exit Ast.Pass = false
  /\ exists nested,
       PhantomLoops.phantoms (Ast.visit_stmt PhantomLoops.visitor node self)
       = PhantomLoops.phantoms self ++ nested
       /\ Forall (PhantomFacts.from_loop (tl (Ast.walk_stmt node))) nested.
Proof.
  intros self node. split; [reflexivity|].
  pose proof (while_true_first_statement_decides self 1 None None None
                Ast.Pass [Ast.Break] [] eq_refl) as H.
  cbv zeta in H. destruct H as (_ & _ & _ & H & _). exact H.
Defined.

(** C10. Every finding of [detect_phantom_loops] was emitted for a while
    statement of the parsed tree whose test is the constant [True], and
    its type is one of WHILE_TRUE_BREAK, WHILE_TRUE_RETURN and
    WHILE_TRUE_RAISE, never INFINITE_ITERATOR_EXIT; a while statement with
    any other test, such as [while 1], gets no finding of its own. *)
Theorem phantom_findings_only_from_while_true
  (ast_parse : string -> Py.result Ast.module_) (source_code : string)
  (findings : list PhantomLoops.PhantomLoop)
  (self : PhantomLoops.PhantomLoopDetector) (lineno : Z) (test : Ast.expr)
  (body orelse : list Ast.stmt) :
  PhantomLoops.detect_phantom_loops ast_parse source_code
    = Py.Returns findings ->
  test <> Ast.Constant (Ast.CBool true) ->
  Forall (fun f =>
            (exists tree, ast_parse source_code = Py.Returns tree
                          /\ PhantomFacts.from_loop (Ast.walk tree) f)
            /\ In (PhantomLoops.phantom_type f)
                 [PhantomLoops.WHILE_TRUE_BREAK;
                  PhantomLoops.WHILE_TRUE_RETURN;
                  PhantomLoops.WHILE_TRUE_RAISE]
            /\ PhantomLoops.phantom_type f
               <> PhantomLoops.INFINITE_ITERATOR_EXIT) findings
  /\ Ast.visit_stmt PhantomLoops.visitor
       (Ast.While lineno test body orelse) self
     = Ast.generic_visit PhantomLoops.visitor
         (Ast.While lineno test body orelse) self
  /\ Ast.visit_stmt PhantomLoops.visitor
       (Ast.While lineno (Ast.Constant (Ast.CInt 1)) body orelse) self
     = Ast.generic_visit PhantomLoops.visitor
         (Ast.While lineno (Ast.Constant (Ast.CInt 1)) body orelse) self.
Proof.
  intros Hdetect Htest. split; [|split].
  - unfold PhantomLoops.detect_phantom_loops in Hdetect.
    destruct (ast_parse source_code) as [tree|e] eqn:Hparse.
    + injection Hdetect as <-.
      destruct (PhantomFacts.visit_grows tree
                  (PhantomLoops.init (Py.split_nl source_code)))
        as (_ & _ & new & P & F).
      rewrite P. cbn [PhantomLoops.phantoms PhantomLoops.init app].
      revert F. apply Forall_impl. intros f Hf.
      split; [exists tree; split; [reflexivity | exact Hf]|].
      destruct Hf as (l & b & o & _ & _ & Hexit & _).
      destruct b as [|[] b']; cbn in Hexit; try discriminate;
        injection Hexit as <- _; cbn; split; auto; discriminate.
    + destruct e; try discriminate.
      injection Hdetect as <-. constructor.
  - apply PhantomFacts.visit_while_other, Htest.
  - apply PhantomFacts.visit_while_other. discriminate.
Qed.

(** A file with a [while True: break] and a [while 1: break]. *)
Lemma phantom_findings_only_from_while_true_witness :
  let tree :=
    Ast.Module_ [PhantomFacts.while_true 1 [Ast.Break] [];
                 Ast.While 3 (Ast.Constant (Ast.CInt 1)) [Ast.Break] []] in
  let ast_parse := fun _ : string => Py.Returns tree in
  let source_code :=
    ("while True:" ++ Py.nl ++ "    break" ++ Py.nl
       ++ "while 1:" ++ Py.nl ++ "    break")%string in
  exists findings,
    PhantomLoops.detect_phantom_loops ast_parse source_code
      = Py.Returns findings
    /\ length findings = 1%nat
    /\ Forall (fun f =>
                 (exists tree', ast_parse source_code = Py.Returns tree'
                                /\ PhantomFacts.from_loop (Ast.walk tree') f)
                 /\ In (PhantomLoops.phantom_type f)
                      [PhantomLoops.WHILE_TRUE_BREAK;
                       PhantomLoops.WHILE_TRUE_RETURN;
                       PhantomLoops.WHILE_TRUE_RAISE]
                 /\ PhantomLoops.phantom_type f
                    <> PhantomLoops.INFINITE_ITERATOR_EXIT) findings.
Proof.
  intros tree ast_parse source_code.
  eexists. split; [reflexivity|]. split; [reflexivity|].
  refine (proj1 (phantom_findings_only_from_while_true ast_parse source_code
                   _ (PhantomLoops.init []) 3 (Ast.Constant (Ast.CInt 1))
                   [Ast.Break] [] eq_refl _)).
  discriminate.
Defined.

(** ** The evidence-void detector *)

Module VoidFacts.
Import Py Ast EvidenceVoids.

(** The finding built by the detector [self] for a handler or call at
    [lineno]. *)
Definition finding_for (self : EvidenceVoidDetector) (lineno : Z)
  (t : VoidType) (severity description : string) : EvidenceVoid :=
  {| line := lineno;
     void_type := t;
     code_snippet := _get_code_snippet self lineno;
     severity := severity;
     description := description;
     context := current_context self |}.

Definition bare_except (self : EvidenceVoidDetector) (lineno : Z) :=
  finding_for self lineno BARE_EXCEPT "HIGH"
    "Bare except clause catches all exceptions indiscriminately".

Definition swallowed (self : EvidenceVoidDetector) (lineno : Z) :=
  finding_for self lineno SWALLOWED_EXCEPTION "HIGH"
    "Exception caught but ignored (no logging, no re-raise)".

Definition no_logging (self : EvidenceVoidDetector) (lineno : Z) :=
  finding_for self lineno NO_LOGGING_IN_EXCEPT "MEDIUM"
    "Exception handler lacks logging (error invisible)".

Definition silent_failure (self : EvidenceVoidDetector) (lineno : Z)
  (name : string) :=
  finding_for self lineno SILENT_FAILURE "MEDIUM"
    ("Fallible operation '" ++ name ++ "()' lacks error handling")%string.

(** A statement that does nothing or only steers the enclosing loop. *)
Definition is_noop (s : stmt) : bool :=
  match s with
  | Pass | Continue | Break => true
  | _ => false
  end.

(** The detector after a visit: same lines, same context, and the
    findings it had, followed by new ones. *)
Definition grows (s s' : EvidenceVoidDetector) : Prop :=
  source_lines s' = source_lines s
  /\ current_context s' = current_context s
  /\ exists new, voids s' = voids s ++ new.

Lemma voids_grow_refl s : grows s s.
Proof. repeat split. exists []. now rewrite app_nil_r. Qed.

Lemma voids_grow_trans s1 s2 s3 : grows s1 s2 -> grows s2 s3 -> grows s1 s3.
Proof.
  intros (L1 & C1 & n1 & P1) (L2 & C2 & n2 & P2).
  repeat split; try congruence.
  exists (n1 ++ n2). rewrite P2, P1. now rewrite app_assoc.
Qed.

Lemma grows_append v s : grows s (voids_append v s).
Proof. repeat split. now exists [v]. Qed.

Lemma grows_In s s' v : grows s s' -> In v (voids s) -> In v (voids s').
Proof.
  intros (_ & _ & new & P) Hin. rewrite P. apply in_or_app. now left.
Qed.

Lemma grows_finding_for s s' lineno t sev descr :
  grows s s' ->
  finding_for s' lineno t sev descr = finding_for s lineno t sev descr.
Proof.
  intros (L & C & _). unfold finding_for, _get_code_snippet.
  now rewrite L, C.
Qed.

Lemma visit_Try_handler_grows s h : grows s (visit_Try_handler s h).
Proof.
  unfold visit_Try_handler. cbv zeta.
  destruct (h_type h), (_is_swallowed (h_body h)),
    (negb (_has_logging (h_body h)));
    repeat first [apply voids_grow_refl
                 | eapply voids_grow_trans; [|apply grows_append]].
Qed.

Lemma handlers_grow hs : forall s, grows s (fold_left visit_Try_handler hs s).
Proof.
  induction hs as [|h hs IH]; intros s; simpl.
  - apply voids_grow_refl.
  - eapply voids_grow_trans; [apply visit_Try_handler_grows | apply IH].
Qed.

Lemma voids_grow_FunctionDef node k :
  (forall s, grows s (k s)) -> forall s, grows s (visit_FunctionDef node k s).
Proof.
  intros Hk s. destruct node; try apply Hk. cbn.
  destruct (Hk (set_current_context ("function:" ++ name)%string s))
    as (L & C & new & P).
  repeat split; try assumption. now exists new.
Qed.

Lemma visit_Try_grows node k :
  (forall s, grows s (k s)) -> forall s, grows s (visit_Try node k s).
Proof.
  intros Hk s. destruct node; try apply Hk. cbn.
  eapply voids_grow_trans; [apply handlers_grow | apply Hk].
Qed.

Lemma visit_Call_grows node k :
  (forall s, grows s (k s)) -> forall s, grows s (visit_Call node k s).
Proof.
  intros Hk s. destruct node; try apply Hk. cbn [visit_Call].
  eapply voids_grow_trans; [|apply Hk].
  destruct (_get_call_name _); [|apply voids_grow_refl].
  destruct (str_in _ _); [|apply voids_grow_refl].
  cbn. apply grows_append.
Qed.

(** No visit removes or reorders a finding. *)
Lemma voids_grow_generic_visit (st : stmt) :
  forall s, grows s (generic_visit visitor st s).
Proof.
  apply (VisitorFacts.generic_visit_below visitor grows
           voids_grow_refl voids_grow_trans visit_Call_grows
           (fun _ => True)
           (fun node k _ => voids_grow_FunctionDef node k)
           (fun node k _ H => H)
           (fun node k _ H => H)
           (fun node k _ => visit_Try_grows node k)
           (fun node k _ H => H)).
  intros n _. exact I.
Qed.

(** The swallowed-exception finding of a handler, once the loop over the
    handlers is done. *)
Lemma swallowed_in_handlers (hs : list excepthandler) (h : excepthandler)
  (s : EvidenceVoidDetector) :
  In h hs -> _is_swallowed (h_body h) = true ->
  In (swallowed s (h_lineno h)) (voids (fold_left visit_Try_handler hs s)).
Proof.
  intros Hin Hsw. apply in_split in Hin. destruct Hin as (hs1 & hs2 & ->).
  rewrite fold_left_app. cbn [fold_left].
  set (s1 := fold_left visit_Try_handler hs1 s).
  assert (G1 : grows s s1) by apply handlers_grow.
  eapply grows_In; [apply handlers_grow|].
  unfold swallowed. rewrite <- (grows_finding_for s s1) by exact G1.
  unfold visit_Try_handler. rewrite Hsw.
  set (s2 := match h_type h with
             | Some _ => s1
             | None => _
             end).
  assert (G2 : grows s1 s2).
  { unfold s2. destruct (h_type h); [apply voids_grow_refl | apply grows_append]. }
  rewrite <- (grows_finding_for s1 s2) by exact G2.
  destruct (negb (_has_logging (h_body h)));
    cbn [voids voids_append]; rewrite ?in_app_iff; cbn; auto.
Qed.

(** The bodies [_is_swallowed] accepts: no statement, or exactly one
    statement that is [pass], [continue] or [break]. *)
Definition single_noop (body : list stmt) : Prop :=
  body = [] \/ exists s, body = [s] /\ is_noop s = true.

(** What one turn of the loop of [visit_Try] appends for the handler [h],
    in the order of the three tests. *)
Definition handler_findings (self : EvidenceVoidDetector)
  (h : excepthandler) : list EvidenceVoid :=
  match h_type h with
  | None => [bare_except self (h_lineno h)]
  | Some _ => []
  end
  ++ (if _is_swallowed (h_body h) then [swallowed self (h_lineno h)] else [])
  ++ (if _has_logging (h_body h) then [] else [no_logging self (h_lineno h)]).

(** The handler [h] is not reported as swallowing: [_is_swallowed] fails
    on its body, its turn of the loop appends the bare-except and the
    no-logging findings at most, and every swallowed-exception finding
    the detector holds afterwards was there before. *)
Definition not_swallowed (self : EvidenceVoidDetector) (h : excepthandler)
  : Prop :=
  _is_swallowed (h_body h) = false
  /\ voids (visit_Try_handler self h)
     = voids self
       ++ match h_type h with
          | None => [bare_except self (h_lineno h)]
          | Some _ => []
          end
       ++ (if _has_logging (h_body h) then []
           else [no_logging self (h_lineno h)])
  /\ forall g, In g (voids (visit_Try_handler self h)) ->
               void_type g = SWALLOWED_EXCEPTION -> In g (voids self).

Lemma is_swallowed_iff (body : list stmt) :
  _is_swallowed body = true <-> single_noop body.
Proof.
  unfold single_noop. split.
  - destruct body as [|s [|s' rest]].
    + intros _. now left.
    + intros H. right. exists s. split; [reflexivity|].
      destruct s; try discriminate; reflexivity.
    + intros H. destruct s; discriminate.
  - intros [->|(s & -> & Hs)]; [reflexivity|].
    destruct s; try discriminate; reflexivity.
Qed.

Lemma long_body_not_single_noop (body : list stmt) :
  (2 <= length body)%nat -> ~ single_noop body.
Proof.
  intros Hlen [->|(s & -> & _)]; cbn in Hlen; lia.
Qed.

Lemma handler_turn_voids (self : EvidenceVoidDetector) (h : excepthandler) :
  voids (visit_Try_handler self h) = voids self ++ handler_findings self h.
Proof.
  unfold visit_Try_handler, handler_findings.
  destruct (h_type h), (_is_swallowed (h_body h)),
    (_has_logging (h_body h));
    cbn; rewrite <- ?app_assoc, ?app_nil_r; reflexivity.
Qed.

Lemma handler_findings_grows s s' h :
  grows s s' -> handler_findings s' h = handler_findings s h.
Proof.
  intros G. unfold handler_findings, bare_except, swallowed, no_logging.
  now rewrite !(grows_finding_for s s') by exact G.
Qed.

(** The findings of the whole loop of [visit_Try], handler by handler. *)
Lemma handler_loop_voids (hs : list excepthandler) (s : EvidenceVoidDetector) :
  voids (fold_left visit_Try_handler hs s)
  = voids s ++ flat_map (handler_findings s) hs.
Proof.
  revert s. induction hs as [|h hs IH]; intros s.
  - cbn. now rewrite app_nil_r.
  - cbn [fold_left flat_map]. rewrite IH, handler_turn_voids, <- app_assoc.
    do 2 f_equal. apply flat_map_ext. intros h'.
    apply handler_findings_grows, visit_Try_handler_grows.
Qed.

Lemma not_single_noop_not_swallowed (self : EvidenceVoidDetector)
  (h : excepthandler) :
  ~ single_noop (h_body h) -> not_swallowed self h.
Proof.
  intros Hn.
  assert (Hsw : _is_swallowed (h_body h) = false).
  { destruct (_is_swallowed (h_body h)) eqn:E; [|reflexivity].
    destruct Hn. now apply is_swallowed_iff. }
  assert (Hv := handler_turn_voids self h).
  unfold handler_findings in Hv. rewrite Hsw in Hv. cbn [app] in Hv.
  split; [exact Hsw|]. split; [exact Hv|].
  intros g Hg Ht. rewrite Hv in Hg.
  apply in_app_or in Hg. destruct Hg as [Hg|Hg]; [exact Hg|].
  apply in_app_or in Hg. destruct Hg as [Hg|Hg].
  - destruct (h_type h); [destruct Hg|].
    destruct Hg as [<-|[]]. discriminate.
  - destruct (_has_logging (h_body h)); [destruct Hg|].
    destruct Hg as [<-|[]]. discriminate.
Qed.

End VoidFacts.

(** C5 (as amended). A handler whose body is empty, or is exactly one
    [pass], [continue] or [break], gets a swallowed-exception finding of
    severity HIGH on its line, whether or not it declares an exception
    type, and the finding is among those of the visit of the [try]
    statement. Every other body is not swallowed, and so every body of
    two or more statements, whatever they are: [_is_swallowed] is false
    on it and the handler's turn of the loop of [visit_Try] appends the
    bare-except finding (when the handler has no type) and the no-logging
    finding (when the body holds no logging call) and nothing else. When
    no handler of the [try] statement has such a body, the loop over the
    handlers adds no swallowed-exception finding at all. *)
Theorem single_noop_handler_is_swallowed
  (self : EvidenceVoids.EvidenceVoidDetector)
  (body orelse finalbody : list Ast.stmt)
  (handlers : list Ast.excepthandler) (h : Ast.excepthandler) :
  In h handlers ->
  let f := VoidFacts.swallowed self (Ast.h_lineno h) in
  (VoidFacts.single_noop (Ast.h_body h) ->
   In f (EvidenceVoids.voids (EvidenceVoids.visit_Try_handler self h))
   /\ In f (EvidenceVoids.voids
              (Ast.visit_stmt EvidenceVoids.visitor
                 (Ast.Try body handlers orelse finalbody) self))
   /\ EvidenceVoids.line f = Ast.h_lineno h
   /\ EvidenceVoids.void_type f = EvidenceVoids.SWALLOWED_EXCEPTION
   /\ EvidenceVoids.severity f = "HIGH"%string)
  /\ (~ VoidFacts.single_noop (Ast.h_body h) -> VoidFacts.not_swallowed self h)
  /\ ((2 <= length (Ast.h_body h))%nat -> VoidFacts.not_swallowed self h)
  /\ ((forall h', In h' handlers -> ~ VoidFacts.single_noop (Ast.h_body h')) ->
      forall g,
        In g (EvidenceVoids.voids
                (fold_left EvidenceVoids.visit_Try_handler handlers self)) ->
        EvidenceVoids.void_type g = EvidenceVoids.SWALLOWED_EXCEPTION ->
        In g (EvidenceVoids.voids self)).
Proof.
  intros Hin f. split; [|split; [|split]].
  - intros Hbody.
    assert (Hsw : EvidenceVoids._is_swallowed (Ast.h_body h) = true)
      by (apply VoidFacts.is_swallowed_iff, Hbody).
    split; [|split; [|repeat split]].
    + apply (VoidFacts.swallowed_in_handlers [h] h self);
        [now left | exact Hsw].
    + rewrite VisitorFacts.visit_stmt_unfold.
      cbn [Ast.visit_Try EvidenceVoids.visitor EvidenceVoids.visit_Try].
      eapply VoidFacts.grows_In; [apply VoidFacts.voids_grow_generic_visit|].
      apply VoidFacts.swallowed_in_handlers; assumption.
  - apply VoidFacts.not_single_noop_not_swallowed.
  - intros Hlen. apply VoidFacts.not_single_noop_not_swallowed.
    apply VoidFacts.long_body_not_single_noop, Hlen.
  - intros Hall g Hg Ht. rewrite VoidFacts.handler_loop_voids in Hg.
    apply in_app_or in Hg. destruct Hg as [Hg|Hg]; [exact Hg|].
    apply in_flat_map in Hg. destruct Hg as (h' & Hh' & Hg).
    destruct (VoidFacts.not_single_noop_not_swallowed self h' (Hall h' Hh'))
      as (Hsw & _ & _).
    unfold VoidFacts.handler_findings in Hg. rewrite Hsw in Hg.
    cbn [app] in Hg.
    apply in_app_or in Hg. destruct Hg as [Hg|Hg].
    + destruct (Ast.h_type h'); [destruct Hg|].
      destruct Hg as [<-|[]]. discriminate.
    + destruct (EvidenceVoids._has_logging (Ast.h_body h')); [destruct Hg|].
      destruct Hg as [<-|[]]. discriminate.
Qed.

(** A handler [except ValueError: continue] is reported; in its place a
    handler with the body [pass; break; continue] gets the no-logging
    finding alone. *)
Lemma single_noop_handler_is_swallowed_witness :
  let self := EvidenceVoids.init [] in
  let h := Ast.ExceptHandler 3
             (Some (Ast.Name "ValueError" Ast.Load)) None [Ast.Continue] in
  let h3 := Ast.ExceptHandler 3
              (Some (Ast.Name "ValueError" Ast.Load)) None
              [Ast.Pass; Ast.Break; Ast.Continue] in
  In (VoidFacts.swallowed self 3)
    (EvidenceVoids.voids
       (Ast.visit_stmt EvidenceVoids.visitor
          (Ast.Try [Ast.Pass] [h] [] []) self))
  /\ EvidenceVoids.voids (EvidenceVoids.visit_Try_handler self h3)
     = [VoidFacts.no_logging self 3].
Proof.
  intros self h h3. split.
  - refine (proj1 (proj2 (proj1 (single_noop_handler_is_swallowed self
                                   [Ast.Pass] [] [] [h] h _) _))).
    + left. reflexivity.
    + right. exists Ast.Continue. split; reflexivity.
  - refine (proj1 (proj2 (proj1 (proj2 (proj2
              (single_noop_handler_is_swallowed self
                 [Ast.Pass] [] [] [h3] h3 _))) _))).
    + left. reflexivity.
    + cbn. lia.
Defined.

(** A handler [except ValueError:] with the body [pass; pass] holds only
    no-op statements, and no swallowed-exception finding is emitted. *)
Lemma two_noops_not_swallowed :
  let self := EvidenceVoids.init [] in
  let h := Ast.ExceptHandler 3
             (Some (Ast.Name "ValueError" Ast.Load)) None
             [Ast.Pass; Ast.Pass] in
  forallb VoidFacts.is_noop (Ast.h_body h) = true
  /\ EvidenceVoids.voids
       (Ast.visit_stmt EvidenceVoids.visitor
          (Ast.Try [Ast.Pass] [h] [] []) self)
     = [VoidFacts.no_logging self 3]
  /\ ~ (forall (self' : EvidenceVoids.EvidenceVoidDetector)
               (h' : Ast.excepthandler),
          forallb VoidFacts.is_noop (Ast.h_body h') = true ->
          exists f,
            In f (EvidenceVoids.voids
                    (EvidenceVoids.visit_Try_handler self' h'))
            /\ EvidenceVoids.void_type f = EvidenceVoids.SWALLOWED_EXCEPTION).
Proof.
  intros self h. split; [reflexivity|]. split; [reflexivity|].
  intros claim. destruct (claim self h eq_refl) as (f & Hin & Ht).
  cbn in Hin. destruct Hin as [<-|[]]. discriminate.
Qed.

(** C6. For the handler [except: pass] the loop of [visit_Try] appends
    exactly three findings, all on the handler's line and in this order:
    bare-except (HIGH), swallowed-exception (HIGH), no-logging-in-except
    (MEDIUM); visiting the handler itself adds nothing. *)
Theorem bare_except_pass_three_findings
  (self : EvidenceVoids.EvidenceVoidDetector) (lineno : Z)
  (name : option string) (body orelse finalbody : list Ast.stmt) :
  let h := Ast.ExceptHandler lineno None name [Ast.Pass] in
  let three := [VoidFacts.bare_except self lineno;
                VoidFacts.swallowed self lineno;
                VoidFacts.no_logging self lineno] in
  EvidenceVoids.voids (EvidenceVoids.visit_Try_handler self h)
    = EvidenceVoids.voids self ++ three
  /\ (forall s, Ast.visit_handler EvidenceVoids.visitor h s = s)
  /\ EvidenceVoids.voids
       (Ast.visit_stmt EvidenceVoids.visitor
          (Ast.Try [Ast.Pass] [h] [] []) self)
     = EvidenceVoids.voids self ++ three
  /\ Ast.visit_stmt EvidenceVoids.visitor
       (Ast.Try body [h] orelse finalbody) self
     = Ast.generic_visit EvidenceVoids.visitor
         (Ast.Try body [h] orelse finalbody)
         (EvidenceVoids.visit_Try_handler self h)
  /\ map EvidenceVoids.line three = [lineno; lineno; lineno]
  /\ map EvidenceVoids.void_type three
     = [EvidenceVoids.BARE_EXCEPT; EvidenceVoids.SWALLOWED_EXCEPTION;
        EvidenceVoids.NO_LOGGING_IN_EXCEPT]
  /\ map EvidenceVoids.severity three = ["HIGH"; "HIGH"; "MEDIUM"]%string.
Proof.
  intros h three.
  assert (H3 : EvidenceVoids.voids (EvidenceVoids.visit_Try_handler self h)
               = EvidenceVoids.voids self ++ three).
  { cbn. now rewrite <- !app_assoc. }
  split; [exact H3|]. split; [reflexivity|].
  split; [exact H3|]. split; [|repeat split].
  now rewrite VisitorFacts.visit_stmt_unfold.
Qed.

(** C7. A call of [open] in the body of a [try] statement, whose handler
    names the exception and prints it, is reported as a silent failure:
    [_is_error_checked] answers [False] for every call. The file is
<<
try:
    open('f')
except OSError:
    print('failed')
>> *)
Theorem fallible_call_inside_try_is_flagged :
  let tree :=
    Ast.Module_
      [Ast.Try
         [Ast.Expr 2 (Ast.Call 2 (Ast.Name "open" Ast.Load)
                        [Ast.Constant (Ast.CStr "f")] [])]
         [Ast.ExceptHandler 3 (Some (Ast.Name "OSError" Ast.Load)) None
            [Ast.Expr 4 (Ast.Call 4 (Ast.Name "print" Ast.Load)
                           [Ast.Constant (Ast.CStr "failed")] [])]]
         [] []] in
  let source_code :=
    ("try:" ++ Py.nl ++ "    open('f')" ++ Py.nl
       ++ "except OSError:" ++ Py.nl ++ "    print('failed')")%string in
  EvidenceVoids.detect_evidence_voids (fun _ => Py.Returns tree) source_code
  = Py.Returns
      [VoidFacts.silent_failure
         (EvidenceVoids.init (Py.split_nl source_code)) 2 "open"]
  /\ EvidenceVoids.void_type
       (VoidFacts.silent_failure
          (EvidenceVoids.init (Py.split_nl source_code)) 2 "open")
     = EvidenceVoids.SILENT_FAILURE
  /\ (forall call, EvidenceVoids._is_error_checked call = false).
Proof.
  cbv zeta. split; [reflexivity|]. split; reflexivity.
Qed.

(** Every call of a name of the allow-list is reported, wherever it
    stands. *)
Lemma fallible_call_always_flagged
  (self : EvidenceVoids.EvidenceVoidDetector) (lineno : Z) (func : Ast.expr)
  (args : list Ast.expr) (keywords : list (option string * Ast.expr))
  (name : string)
  (k : EvidenceVoids.EvidenceVoidDetector -> EvidenceVoids.EvidenceVoidDetector) :
  EvidenceVoids._get_call_name (Ast.Call lineno func args keywords)
    = Some name ->
  Py.str_in name EvidenceVoids.fallible = true ->
  EvidenceVoids.visit_Call (Ast.Call lineno func args keywords) k self
  = k (EvidenceVoids.voids_append
         (VoidFacts.silent_failure self lineno name) self).
Proof.
  intros Hname Hin. unfold EvidenceVoids.visit_Call.
  rewrite Hname, Hin. reflexivity.
Qed.

(** ** The scanner and its reports *)

Module ScannerFacts.
Import Py Ast Scanner.

Lemma len_slice_first_five {A} (l : list A) :
  len (slice l 0 5) = Z.min 5 (len l).
Proof.
  rewrite SnippetFacts.slice_nonneg by lia. cbn [Z.to_nat skipn].
  unfold len. rewrite length_firstn. lia.
Qed.

Lemma prefix_empty (s : string) : String.prefix "" s = true.
Proof. destruct s; reflexivity. Qed.

(** A line made of a newline, "Line " and anything opens a finding. *)
Lemma is_finding_line_Line (rest : string) :
  is_finding_line (nl ++ "Line " ++ rest)%string = true.
Proof. unfold is_finding_line. cbn. apply prefix_empty. Qed.

Section Facts.
Variable ast_parse : string -> result module_.
Variable MagicValue : Type.
Variable str_value : MagicValue -> string.
Variable GravityType : Type.
Variable GravityType_value : GravityType -> string.
Variable detect_magic_gravity :
  string -> result (list (MagicConstant MagicValue GravityType)).
Variable json_dumps : json MagicValue -> string.

#[local] Abbreviation MagicConstant := (MagicConstant MagicValue GravityType).
#[local] Abbreviation Results := (Results MagicValue GravityType).
#[local] Abbreviation World := (World MagicValue GravityType).
#[local] Abbreviation json := (json MagicValue).
#[local] Abbreviation scan_all :=
  (scan_all ast_parse MagicValue GravityType detect_magic_gravity).
#[local] Abbreviation magic_lines :=
  (magic_lines MagicValue str_value GravityType GravityType_value).
#[local] Abbreviation magic_json :=
  (magic_json MagicValue GravityType GravityType_value).
#[local] Abbreviation json_results :=
  (json_results MagicValue GravityType GravityType_value).
#[local] Abbreviation text_report_lines :=
  (text_report_lines MagicValue str_value GravityType GravityType_value).
#[local] Abbreviation generate_report :=
  (generate_report MagicValue str_value GravityType GravityType_value
     json_dumps).

(** The dict [self.results] once [scan_all] has run to its end. *)
Definition scan_results (m : list MagicConstant)
  (p : list PhantomLoops.PhantomLoop) (z : list ZombieOrbits.ZombieOrbit)
  (v : list EvidenceVoids.EvidenceVoid) (fp : string) : Results :=
  {| magic_gravity :=
       Some {| findings := m;
               score := calculate_dark_mass_score MagicValue GravityType m;
               count := len m |};
     phantom_loops :=
       Some {| findings := p;
               score := PhantomLoops.calculate_phantom_score p;
               count := len p |};
     zombie_orbits :=
       Some {| findings := z;
               score := ZombieOrbits.calculate_zombie_score z;
               count := len z |};
     evidence_voids :=
       Some {| findings := v;
               score := EvidenceVoids.calculate_void_score v;
               count := len v |};
     summary :=
       Some {| total_score :=
                 calculate_dark_mass_score MagicValue GravityType m
                 + PhantomLoops.calculate_phantom_score p
                 + ZombieOrbits.calculate_zombie_score z
                 + EvidenceVoids.calculate_void_score v;
               total_findings := len m + len p + len z + len v;
               summary_filepath := fp |} |}.

(** A scan that returns ran its four detectors, and left their findings,
    scores and counts in [self.results]. *)
Lemma scan_all_returns (w w' : World) (res : Results) :
  scan_all w = (Returns res, w') ->
  exists m p z v,
    detect_magic_gravity (source_code (self_ w)) = Returns m
    /\ PhantomLoops.detect_phantom_loops ast_parse
         (source_code (self_ w)) = Returns p
    /\ ZombieOrbits.detect_zombie_orbits ast_parse
         (source_code (self_ w)) = Returns z
    /\ EvidenceVoids.detect_evidence_voids ast_parse
         (source_code (self_ w)) = Returns v
    /\ res = scan_results m p z v (filepath (self_ w))
    /\ self_ w'
       = {| source_code := source_code (self_ w);
            filepath := filepath (self_ w);
            results := res |}.
Proof.
  destruct w as [[src fp r] out].
  unfold Scanner.scan_all.
  cbv [bind get_self print call set_results ret self_ stdout source_code
       filepath results].
  destruct (detect_magic_gravity src) as [m|e]; [|discriminate].
  destruct (PhantomLoops.detect_phantom_loops ast_parse src) as [p|e];
    [|discriminate].
  destruct (ZombieOrbits.detect_zombie_orbits ast_parse src) as [z|e];
    [|discriminate].
  destruct (EvidenceVoids.detect_evidence_voids ast_parse src) as [v|e];
    [|discriminate].
  intros H. injection H as <- <-.
  exists m, p, z, v. repeat split.
Qed.

(** Neither the outcome of a scan nor what it prints depends on the
    results the scanner held before, and a scan that returns leaves
    the same scanner whatever those were. *)
Lemma scan_all_forgets (src fp : string) (r1 r2 : Results)
  (out : list string) :
  let run r0 :=
    scan_all {| self_ := {| source_code := src; filepath := fp;
                            results := r0 |};
                stdout := out |} in
  fst (run r1) = fst (run r2)
  /\ stdout (snd (run r1)) = stdout (snd (run r2))
  /\ (forall res, fst (run r1) = Returns res -> run r1 = run r2).
Proof.
  unfold Scanner.scan_all.
  cbv [bind get_self print call set_results ret self_ stdout source_code
       filepath results].
  destruct (detect_magic_gravity src) as [m|e];
    [|repeat split; discriminate].
  destruct (PhantomLoops.detect_phantom_loops ast_parse src) as [p|e];
    [|repeat split; discriminate].
  destruct (ZombieOrbits.detect_zombie_orbits ast_parse src) as [z|e];
    [|repeat split; discriminate].
  destruct (EvidenceVoids.detect_evidence_voids ast_parse src) as [v|e];
    [|repeat split; discriminate].
  repeat split.
Qed.

(** *** Findings shown by the text report *)

Lemma findings_shown_app (a b : list string) :
  findings_shown (a ++ b) = findings_shown a + findings_shown b.
Proof.
  unfold findings_shown, len. rewrite filter_app, length_app. lia.
Qed.

Lemma findings_shown_flat_map {F} (lines_of : F -> list string)
  (l : list F) :
  (forall f, findings_shown (lines_of f) = 1) ->
  findings_shown (flat_map lines_of l) = len l.
Proof.
  intros H. induction l as [|f l IH]; [reflexivity|].
  cbn [flat_map]. rewrite findings_shown_app, H, IH. unfold len.
  cbn [length]. lia.
Qed.

(** A section shows the first five findings of its detector. *)
Lemma text_section_shows {F} (title : string) (lines_of : F -> list string)
  (d : DetectorResult F) :
  (forall rest, is_finding_line (title ++ rest)%string = false) ->
  (forall f, findings_shown (lines_of f) = 1) ->
  count d = len (findings d) ->
  findings_shown (text_section title lines_of (Some d)) = Z.min 5 (count d).
Proof.
  intros Htitle Hlines Hcount. unfold text_section.
  destruct (Z.gtb_spec (count d) 0) as [Hpos|Hzero].
  - rewrite findings_shown_app, findings_shown_flat_map by exact Hlines.
    rewrite len_slice_first_five, <- Hcount.
    unfold findings_shown. cbn [filter]. rewrite Htitle.
    reflexivity.
  - unfold len in Hcount. cbn. lia.
Qed.

Lemma magic_lines_one (c : MagicConstant) :
  findings_shown (magic_lines c) = 1.
Proof.
  unfold findings_shown. cbn [filter Scanner.magic_lines].
  rewrite is_finding_line_Line. reflexivity.
Qed.

Lemma phantom_lines_one (p : PhantomLoops.PhantomLoop) :
  findings_shown (phantom_lines p) = 1.
Proof.
  unfold findings_shown. cbn [filter Scanner.phantom_lines].
  rewrite is_finding_line_Line. reflexivity.
Qed.

Lemma zombie_lines_one (z : ZombieOrbits.ZombieOrbit) :
  findings_shown (zombie_lines z) = 1.
Proof.
  unfold findings_shown. cbn [filter Scanner.zombie_lines].
  rewrite is_finding_line_Line. reflexivity.
Qed.

Lemma void_lines_one (v : EvidenceVoids.EvidenceVoid) :
  findings_shown (void_lines v) = 1.
Proof.
  unfold findings_shown. cbn [filter Scanner.void_lines].
  rewrite is_finding_line_Line. reflexivity.
Qed.

(** What the two reports hold for one detector: the structured report
    [j] has, under [key], the detector's count and all of its findings, each
    a dict with the keys [keys]; the section of the text report shows
    [min(5, count)] findings. *)
Definition reports_ok {F} (key : string) (keys : list string)
  (section_lines : list string) (entry : option (DetectorResult F))
  (j : json) : Prop :=
  exists d jd fs,
    entry = Some d
    /\ json_get key j = Some jd
    /\ json_get "count" jd = Some (JInt (count d))
    /\ json_get "findings" jd = Some (JList fs)
    /\ len fs = count d
    /\ count d = len (findings d)
    /\ Forall (fun f => json_keys f = keys) fs
    /\ findings_shown section_lines = Z.min 5 (count d).

Definition shown_of {F} (entry : option (DetectorResult F)) : Z :=
  match entry with
  | Some d => Z.min 5 (count d)
  | None => 0
  end.

Lemma reports_ok_intro {F} (key title : string) (keys : list string)
  (lines_of : F -> list string) (finding_json : F -> json)
  (l : list F) (sc : Z) (j : json) :
  let d := {| findings := l; score := sc; count := len l |} in
  json_get key j = Some (detector_json MagicValue finding_json d) ->
  (forall f, json_keys (finding_json f) = keys) ->
  (forall rest, is_finding_line (title ++ rest)%string = false) ->
  (forall f, findings_shown (lines_of f) = 1) ->
  reports_ok key keys (text_section title lines_of (Some d)) (Some d) j.
Proof.
  intros d Hj Hkeys Htitle Hlines.
  exists d, (detector_json MagicValue finding_json d),
    (map finding_json l).
  repeat split; try reflexivity.
  - exact Hj.
  - unfold len. cbn. now rewrite length_map.
  - apply Forall_forall. intros x Hx. apply in_map_iff in Hx.
    destruct Hx as (f & <- & _). apply Hkeys.
  - apply text_section_shows; [exact Htitle | exact Hlines | reflexivity].
Qed.


(** C9. A scan of the same source text under the same identifier returns
    the same results, prints the same output and leaves the same scanner
    whatever results the scanner held before, in particular when it runs
    a second time on the scanner left by the first run; the reports
    rendered afterwards are equal in both formats. The parser, the detector
    of magic constants and [json.dumps] are functions of their argument. *)
Theorem scan_is_deterministic (src fp : string) (r1 r2 : Results)
  (out : list string) :
  let run r0 :=
    scan_all {| self_ := {| source_code := src; filepath := fp;
                            results := r0 |};
                stdout := out |} in
  fst (run r1) = fst (run r2)
  /\ stdout (snd (run r1)) = stdout (snd (run r2))
  /\ (forall res, fst (run r1) = Returns res ->
      run r2 = run r1
      /\ run (results (self_ (snd (run r1)))) = run r1
      /\ res = results (self_ (snd (run r1)))
      /\ forall format,
           generate_report (self_ (snd (run r2))) format
           = generate_report (self_ (snd (run r1))) format).
Proof.
  intros run.
  destruct (scan_all_forgets src fp r1 r2 out) as (H1 & H2 & H3).
  fold run in H1, H2, H3.
  split; [exact H1|]. split; [exact H2|].
  intros res Hres.
  assert (E : run r2 = run r1) by (symmetry; eapply H3, Hres).
  split; [exact E|].
  destruct (scan_all_forgets src fp r1 (results (self_ (snd (run r1)))) out)
    as (_ & _ & H4).
  fold run in H4.
  split; [symmetry; eapply H4, Hres|].
  split; [|intros format; now rewrite E].
  destruct (run r1) as [o w1] eqn:Hrun. cbn [fst snd] in *. subst o.
  apply scan_all_returns in Hrun.
  destruct Hrun as (m & p & z & v & _ & _ & _ & _ & -> & Hself).
  rewrite Hself. reflexivity.
Qed.

End Facts.
(** A scanner over the one-loop file [while True: break], with a detector
    of magic constants that finds none. *)
Definition example_parse : string -> result module_ :=
  fun _ => Returns (Module_ [While 1 (Constant (CBool true)) [Break] []]).

Definition example_magic : string -> result (list (MagicConstant Z unit)) :=
  fun _ => Returns [].

Definition example_source : string :=
  ("while True:" ++ nl ++ "    break")%string.

Definition example_world : World Z unit :=
  {| self_ := {| source_code := example_source;
                 filepath := "example.py";
                 results := empty_results Z unit |};
     stdout := [] |}.

(** The scanner and the output after the scan. *)
Definition example_world' : World Z unit :=
  Eval vm_compute in
    snd (Scanner.scan_all example_parse Z unit example_magic example_world).

Definition example_results : Results Z unit := results (self_ example_world').

Lemma example_scan_returns :
  Scanner.scan_all example_parse Z unit example_magic example_world
  = (Returns example_results, example_world').
Proof. vm_compute. reflexivity. Qed.


Lemma scan_is_deterministic_witness :
  Scanner.scan_all example_parse Z unit example_magic
    {| self_ := {| source_code := example_source;
                   filepath := "example.py";
                   results := example_results |};
       stdout := [] |}
  = Scanner.scan_all example_parse Z unit example_magic example_world.
Proof.
  exact (proj1 (proj2 (proj2
           (scan_is_deterministic example_parse Z str_int unit
              (fun _ => "numeric"%string) example_magic
              (fun _ => "{}"%string)
              example_source "example.py"
              (empty_results Z unit) example_results []))
           example_results (f_equal fst example_scan_returns))).
Defined.

End ScannerFacts.

(* ================================================================== *)
(** * Further properties *)

(** ** The visitor: two traversals side by side *)

Module SimFacts.
Import Py Ast.

Section Sim.
Context {S : Type} (V : NodeVisitor S).

(** A relation between two detectors that every [visit_X] method carries
    from before the visit to after it, when the generic visit it is
    handed does. *)
Variable Q : S -> S -> Prop.

Definition sim (f : S -> S) : Prop :=
  forall s1 s2, Q s1 s2 -> Q (f s1) (f s2).

Lemma fold_left_sim {A} (f : S -> A -> S) (l : list A) :
  Forall (fun a => sim (fun s => f s a)) l -> sim (fold_left f l).
Proof.
  induction 1 as [|a l Ha _ IH]; intros s1 s2 Hs; simpl.
  - exact Hs.
  - apply IH, Ha, Hs.
Qed.

Hypothesis Call_sim : forall e k, sim k -> sim (visit_Call V e k).

Lemma visit_expr_sim (e : expr) : sim (visit_expr V e).
Proof.
  induction e as [c | id ctx | v IHv attr ctx | l f IHf args IHargs kws IHkws
                 | a IHa op b IHb | a IHa ops cs IHcs]; simpl.
  - intros s1 s2 Hs. exact Hs.
  - intros s1 s2 Hs. exact Hs.
  - exact IHv.
  - apply Call_sim. intros s1 s2 Hs.
    apply fold_left_sim.
    { induction IHkws as [|kw H kws' _ IH]; constructor; [|exact IH].
      destruct H as [k _ v Hv]. exact Hv. }
    apply fold_left_sim.
    { apply VisitorFacts.list_all_Forall in IHargs. exact IHargs. }
    apply IHf, Hs.
  - intros s1 s2 Hs. apply IHb, IHa, Hs.
  - intros s1 s2 Hs. apply fold_left_sim.
    { apply VisitorFacts.list_all_Forall in IHcs. exact IHcs. }
    apply IHa, Hs.
Qed.

Lemma visit_exprs_sim (l : list expr) : sim (visit_exprs V l).
Proof.
  apply fold_left_sim. apply Forall_forall. intros e _.
  apply visit_expr_sim.
Qed.

Lemma visit_opt_expr_sim (o : option expr) : sim (visit_opt_expr V o).
Proof. apply visit_exprs_sim. Qed.

Lemma visit_arguments_sim (a : arguments) : sim (visit_arguments V a).
Proof.
  intros s1 s2 Hs. unfold visit_arguments.
  apply visit_exprs_sim, visit_exprs_sim, Hs.
Qed.

Hypothesis FunctionDef_sim : forall node k,
  sim k -> sim (visit_FunctionDef V node k).
Hypothesis For_sim : forall node k, sim k -> sim (visit_For V node k).
Hypothesis While_sim : forall node k, sim k -> sim (visit_While V node k).
Hypothesis Try_sim : forall node k, sim k -> sim (visit_Try V node k).
Hypothesis Expr_sim : forall node k, sim k -> sim (visit_Expr V node k).

Definition simulates (st : stmt) : Prop := sim (visit_stmt V st).

Lemma visit_body_sim_from (l : list stmt) :
  list_all stmt simulates l -> sim (visit_body V l).
Proof.
  induction 1 as [|st Hst l _ IH]; intros s1 s2 Hs.
  - exact Hs.
  - rewrite !VisitorFacts.visit_body_cons. apply IH, Hst, Hs.
Qed.

Lemma visit_handlers_sim_from (hs : list excepthandler) :
  list_all excepthandler (excepthandler__all stmt simulates) hs ->
  sim (fold_left (fun self h => visit_handler V h self) hs).
Proof.
  induction 1 as [|h Hh hs _ IH]; intros s1 s2 Hs.
  - exact Hs.
  - simpl. apply IH. unfold visit_handler. destruct Hh as [l t n b Hb].
    apply visit_body_sim_from; [assumption|].
    apply visit_opt_expr_sim, Hs.
Qed.

Lemma generic_visit_sim_from (st : stmt) :
  (match st with
   | FunctionDef _ _ _ body _ _ => list_all stmt simulates body
   | For _ _ _ body orelse | While _ _ body orelse | If _ body orelse =>
       list_all stmt simulates body * list_all stmt simulates orelse
   | Try body hs orelse finalbody =>
       list_all stmt simulates body
       * list_all excepthandler (excepthandler__all stmt simulates) hs
       * list_all stmt simulates orelse * list_all stmt simulates finalbody
   | _ => True
   end)%type ->
  sim (generic_visit V st).
Proof.
  intros IH s1 s2 Hs. destruct st; cbn [generic_visit].
  - apply visit_opt_expr_sim, visit_exprs_sim.
    apply visit_body_sim_from; [assumption|].
    apply visit_arguments_sim, Hs.
  - apply visit_opt_expr_sim, Hs.
  - apply visit_expr_sim, visit_exprs_sim, Hs.
  - destruct IH as [IHb IHo].
    apply visit_body_sim_from; [assumption|].
    apply visit_body_sim_from; [assumption|].
    apply visit_expr_sim, visit_expr_sim, Hs.
  - destruct IH as [IHb IHo].
    apply visit_body_sim_from; [assumption|].
    apply visit_body_sim_from; [assumption|].
    apply visit_expr_sim, Hs.
  - destruct IH as [IHb IHo].
    apply visit_body_sim_from; [assumption|].
    apply visit_body_sim_from; [assumption|].
    apply visit_expr_sim, Hs.
  - apply visit_opt_expr_sim, visit_opt_expr_sim, Hs.
  - destruct IH as [[[IHb IHh] IHo] IHf].
    apply visit_body_sim_from; [assumption|].
    apply visit_body_sim_from; [assumption|].
    apply visit_handlers_sim_from; [assumption|].
    apply visit_body_sim_from; [assumption|].
    exact Hs.
  - apply visit_expr_sim, Hs.
  - exact Hs.
  - exact Hs.
  - exact Hs.
Qed.

Lemma visit_stmt_sim (st : stmt) : simulates st.
Proof.
  induction st; unfold simulates; rewrite VisitorFacts.visit_stmt_unfold;
    lazymatch goal with
    | |- context [generic_visit V ?node] =>
        assert (G : sim (generic_visit V node))
          by (apply generic_visit_sim_from; cbn; repeat split; assumption)
    end;
    try exact G;
    first [ apply FunctionDef_sim | apply For_sim | apply While_sim
          | apply Try_sim | apply Expr_sim ];
    exact G.
Qed.

Lemma visit_body_sim (l : list stmt) : sim (visit_body V l).
Proof.
  apply visit_body_sim_from.
  induction l; constructor; [apply visit_stmt_sim | assumption].
Qed.

Lemma visit_handlers_sim (hs : list excepthandler) :
  sim (fold_left (fun self h => visit_handler V h self) hs).
Proof.
  apply visit_handlers_sim_from.
  induction hs as [|[l t n b] hs IH]; constructor; [|exact IH].
  constructor.
  induction b; constructor; [apply visit_stmt_sim | assumption].
Qed.

Lemma generic_visit_sim (st : stmt) : sim (generic_visit V st).
Proof.
  destruct st; cbn [generic_visit]; intros s1 s2 Hs;
    repeat first [ exact Hs
                 | apply visit_opt_expr_sim | apply visit_exprs_sim
                 | apply visit_expr_sim | apply visit_arguments_sim
                 | apply visit_body_sim | apply visit_handlers_sim ].
Qed.

End Sim.

End SimFacts.

(** ** Scores, continued *)

Module ScoreMore.
Import ScoreFacts.

(** A property of a score function, for the three of them. *)
Definition for_each_score
  (P : forall A : Type, (A -> string) -> (list A -> Z) -> Prop) : Prop :=
  P _ PhantomLoops.severity PhantomLoops.calculate_phantom_score
  /\ P _ ZombieOrbits.severity ZombieOrbits.calculate_zombie_score
  /\ P _ EvidenceVoids.severity EvidenceVoids.calculate_void_score.

Lemma severity_weight_is_weights_get (s : string) :
  severity_weight s = PhantomLoops.weights_get s.
Proof.
  unfold severity_weight, PhantomLoops.weights_get.
  destruct (String.eqb s "HIGH"); [reflexivity|].
  destruct (String.eqb s "MEDIUM"); [reflexivity|].
  destruct (String.eqb s "LOW"); reflexivity.
Qed.

Lemma for_each_capped_score
  (P : forall A : Type, (A -> string) -> (list A -> Z) -> Prop) :
  (forall A severity score, @capped_score A severity score ->
                            P A severity score) ->
  for_each_score P.
Proof.
  intros H. repeat split; apply H, capped_score_intro; intros F;
    (destruct F as [|x F]; [reflexivity|]).
  - unfold PhantomLoops.calculate_phantom_score, PhantomLoops.sum.
    f_equal. f_equal. apply map_ext. intros a. symmetry.
    apply severity_weight_is_weights_get.
  - unfold ZombieOrbits.calculate_zombie_score, ZombieOrbits.sum.
    f_equal. f_equal. apply map_ext. intros a. symmetry.
    apply severity_weight_is_weights_get.
  - unfold EvidenceVoids.calculate_void_score, EvidenceVoids.sum.
    f_equal. f_equal. apply map_ext. intros a. symmetry.
    apply severity_weight_is_weights_get.
Qed.

Lemma weight_sum_at_least_length {A} (severity : A -> string) (F : list A) :
  Z.of_nat (length F)
  <= weight_sum (fun x => severity_weight (severity x)) F.
Proof.
  induction F as [|x F IH]; [simpl; lia|].
  cbn [weight_sum fold_right length].
  pose proof (severity_weight_bounds (severity x)).
  unfold weight_sum in IH. lia.
Qed.

Lemma weight_sum_perm {A} (weight : A -> Z) (F G : list A) :
  Permutation.Permutation F G -> weight_sum weight F = weight_sum weight G.
Proof.
  induction 1; simpl; unfold weight_sum in *; lia.
Qed.

End ScoreMore.

(** X1. A score is 0.0 exactly for the empty finding list: one finding
    of any severity already scores at least 1.0. *)
Theorem score_zero_iff_no_findings :
  ScoreMore.for_each_score
    (fun A severity score =>
       forall (x : A) (F : list A),
         (score F = 0 <-> F = []) /\ 1 <= score (x :: F)).
Proof.
  apply ScoreMore.for_each_capped_score. intros A severity score H x F.
  rewrite !(ScoreFacts.score_sum _ _ H).
  pose proof (ScoreMore.weight_sum_at_least_length severity F) as Hlen.
  pose proof (ScoreMore.weight_sum_at_least_length severity (x :: F)) as Hx.
  cbn [length] in Hx. split; [|lia].
  destruct F as [|y F]; [split; reflexivity|].
  cbn [length] in Hlen. split; [lia | discriminate].
Qed.

(** X2. Scores add with saturation: the score of two finding lists put
    together is the sum of their scores, capped at 10.0. *)
Theorem score_of_concatenation :
  ScoreMore.for_each_score
    (fun A severity score =>
       forall F G : list A, score (F ++ G) = Z.min 10 (score F + score G)).
Proof.
  apply ScoreMore.for_each_capped_score. intros A severity score H F G.
  rewrite !(ScoreFacts.score_sum _ _ H), ScoreFacts.weight_sum_app.
  pose proof (ScoreMore.weight_sum_at_least_length severity F).
  pose proof (ScoreMore.weight_sum_at_least_length severity G).
  lia.
Qed.

(** X3. A score does not depend on the order of the findings. *)
Theorem score_ignores_order :
  ScoreMore.for_each_score
    (fun A severity score =>
       forall F G : list A, Permutation.Permutation F G -> score F = score G).
Proof.
  apply ScoreMore.for_each_capped_score. intros A severity score H F G HP.
  rewrite !(ScoreFacts.score_sum _ _ H).
  now rewrite (ScoreMore.weight_sum_perm _ F G HP).
Qed.

Lemma score_ignores_order_witness :
  PhantomLoops.calculate_phantom_score
    [PhantomFacts.finding_for (PhantomLoops.init []) 1
       PhantomLoops.WHILE_TRUE_BREAK "breaks" "HIGH";
     PhantomFacts.finding_for (PhantomLoops.init []) 5
       PhantomLoops.WHILE_TRUE_RAISE "raises" "MEDIUM"]
  = PhantomLoops.calculate_phantom_score
      [PhantomFacts.finding_for (PhantomLoops.init []) 5
         PhantomLoops.WHILE_TRUE_RAISE "raises" "MEDIUM";
       PhantomFacts.finding_for (PhantomLoops.init []) 1
         PhantomLoops.WHILE_TRUE_BREAK "breaks" "HIGH"].
Proof.
  apply (proj1 score_ignores_order). apply Permutation.perm_swap.
Defined.

(** X4. Ten findings or more score exactly 10.0, whatever their
    severities. *)
Theorem ten_findings_saturate :
  ScoreMore.for_each_score
    (fun A severity score =>
       forall F : list A, (10 <= length F)%nat -> score F = 10).
Proof.
  apply ScoreMore.for_each_capped_score. intros A severity score H F Hlen.
  rewrite (ScoreFacts.score_sum _ _ H).
  pose proof (ScoreMore.weight_sum_at_least_length severity F). lia.
Qed.

Lemma ten_findings_saturate_witness :
  PhantomLoops.calculate_phantom_score
    (repeat (PhantomFacts.finding_for (PhantomLoops.init []) 1
               PhantomLoops.WHILE_TRUE_BREAK "breaks" "LOW") 10) = 10.
Proof.
  apply (proj1 ten_findings_saturate). cbn [length repeat]. lia.
Defined.

(** ** What every finding of a detector looks like *)

Module WfFacts.
Import Py Ast.

(** The snippet every detector computes for a line of the file. *)
Definition snippet_of (lines : list string) (line : Z) : string :=
  join nl (slice lines (Z.max 0 (line - 2)) (Z.min (len lines) (line + 2))).

(** A context the traversal of [nodes] can be in: the module, or one of
    its function definitions. *)
Definition ok_context (nodes : list node) (c : string) : Prop :=
  c = "module"%string
  \/ exists lineno name args body decorator_list returns,
       In (NStmt (FunctionDef lineno name args body decorator_list returns))
         nodes
       /\ c = ("function:" ++ name)%string.

Section Grow.
Context {S F : Type}.
Variable lines : S -> list string.
Variable ctx : S -> string.
Variable found : S -> list F.
Variable okc : string -> Prop.
Variable wf : list string -> F -> Prop.

(** The detector after a visit: same lines, same context, and new
    findings that are well formed if the context it started in was one
    of the tree. *)
Definition grows_wf (s s' : S) : Prop :=
  lines s' = lines s
  /\ ctx s' = ctx s
  /\ exists new, found s' = found s ++ new
                 /\ (okc (ctx s) -> Forall (wf (lines s)) new).

Lemma grows_wf_refl s : grows_wf s s.
Proof.
  repeat split. exists []. split; [now rewrite app_nil_r | constructor].
Qed.

Lemma grows_wf_trans s1 s2 s3 :
  grows_wf s1 s2 -> grows_wf s2 s3 -> grows_wf s1 s3.
Proof.
  intros (L1 & C1 & n1 & P1 & F1) (L2 & C2 & n2 & P2 & F2).
  repeat split; try congruence.
  exists (n1 ++ n2). split.
  - rewrite P2, P1. now rewrite app_assoc.
  - intros Hok. apply Forall_app. split; [apply F1, Hok|].
    rewrite <- L1. apply F2. now rewrite C1.
Qed.

(** Appending one finding. *)
Lemma grows_wf_append (append : F -> S -> S) (f : F) (s : S) :
  (forall f s, lines (append f s) = lines s
               /\ ctx (append f s) = ctx s
               /\ found (append f s) = found s ++ [f]) ->
  (okc (ctx s) -> wf (lines s) f) ->
  grows_wf s (append f s).
Proof.
  intros Happ Hf. destruct (Happ f s) as (L & C & P).
  repeat split; try assumption. exists [f]. split; [exact P|].
  intros Hok. constructor; [apply Hf, Hok | constructor].
Qed.

(** Entering a function, doing something there, and leaving it. *)
Lemma grows_wf_scope (set : string -> S -> S) (c : string) (s s1 : S) :
  (forall c s, lines (set c s) = lines s
               /\ ctx (set c s) = c
               /\ found (set c s) = found s) ->
  okc c ->
  grows_wf (set c s) s1 ->
  grows_wf s (set (ctx s) s1).
Proof.
  intros Hset Hc (L & C & new & P & Hnew).
  destruct (Hset c s) as (L1 & C1 & P1).
  destruct (Hset (ctx s) s1) as (L2 & C2 & P2).
  repeat split; try congruence.
  exists new. split; [congruence|].
  intros _. rewrite <- L1. apply Hnew. now rewrite C1.
Qed.

End Grow.

(** *** Zombie orbits *)

Import ZombieOrbits.

(** Where a finding of a given type comes from. *)
Definition zombie_origin (nodes : list node) (f : ZombieOrbit) : Prop :=
  match zombie_type f with
  | DISCARDED_CALL =>
      severity f = "HIGH"%string
      /\ exists value name,
           In (NStmt (Expr (line f) value)) nodes
           /\ _get_call_name value = Some name
           /\ _is_side_effect_function name = false
  | UNUSED_COMPUTATION =>
      severity f = "MEDIUM"%string
      /\ exists left op right,
           In (NStmt (Expr (line f) (BinOp left op right))) nodes
  | EMPTY_LOOP =>
      severity f = "HIGH"%string
      /\ exists body,
           Forall (fun s => s = Pass \/ s = Continue) body
           /\ ((exists target iter orelse,
                  In (NStmt (For (line f) target iter body orelse)) nodes)
               \/ (exists test orelse,
                     In (NStmt (While (line f) test body orelse)) nodes))
  | NO_RETURN_FUNCTION =>
      severity f = "MEDIUM"%string
      /\ exists name args body decorator_list returns,
           In (NStmt (FunctionDef (line f) name args body decorator_list
                        returns)) nodes
           /\ context f = ("function:" ++ name)%string
  | WRITE_ONLY_VARIABLE => False
  end.

Definition zombie_wf (nodes : list node) (lines : list string)
  (f : ZombieOrbit) : Prop :=
  zombie_origin nodes f
  /\ ok_context nodes (context f)
  /\ code_snippet f = snippet_of lines (line f).

Definition zombie_grows (nodes : list node) :=
  grows_wf source_lines current_context zombies
    (ok_context nodes) (zombie_wf nodes).

Lemma zombies_append_spec f s :
  source_lines (zombies_append f s) = source_lines s
  /\ current_context (zombies_append f s) = current_context s
  /\ zombies (zombies_append f s) = zombies s ++ [f].
Proof. repeat split. Qed.

Lemma zombie_set_context_spec c s :
  source_lines (set_current_context c s) = source_lines s
  /\ current_context (set_current_context c s) = c
  /\ zombies (set_current_context c s) = zombies s.
Proof. repeat split. Qed.

Lemma is_empty_loop_all body :
  _is_empty_loop body = true ->
  Forall (fun s => s = Pass \/ s = Continue) body.
Proof.
  intros H. assert (H' : forallb is_pass_or_continue body = true).
  { destruct body; [reflexivity | exact H]. }
  apply Forall_forall. intros s Hs.
  rewrite forallb_forall in H'. specialize (H' s Hs).
  destruct s; try discriminate; auto.
Qed.

Lemma zombie_FunctionDef_grows nodes node k :
  In (NStmt node) nodes ->
  (forall s, zombie_grows nodes s (k s)) ->
  forall s, zombie_grows nodes s (visit_FunctionDef node k s).
Proof.
  intros Hin Hk s. destruct node; try apply Hk.
  cbn [visit_FunctionDef].
  assert (Hc : ok_context nodes ("function:" ++ name)%string).
  { right. repeat eexists. exact Hin. }
  set (s0 := set_current_context ("function:" ++ name)%string s).
  match goal with
  | |- zombie_grows _ _ (set_current_context _ (k ?mid)) =>
      assert (G : zombie_grows nodes s0 (k mid))
  end.
  { eapply grows_wf_trans; [|apply Hk].
    destruct (_ && _); [|apply grows_wf_refl].
    apply (grows_wf_append _ _ _ _ _ zombies_append);
      [apply zombies_append_spec|].
    intros _. split; [|split].
    - split; [reflexivity|]. repeat eexists. exact Hin.
    - exact Hc.
    - reflexivity. }
  exact (grows_wf_scope _ _ _ _ _ set_current_context _ s _
           zombie_set_context_spec Hc G).
Qed.

Lemma zombie_loop_grows nodes lineno body k s :
  ((exists target iter orelse,
      In (NStmt (For lineno target iter body orelse)) nodes)
   \/ (exists test orelse,
         In (NStmt (While lineno test body orelse)) nodes)) ->
  (forall s, zombie_grows nodes s (k s)) ->
  zombie_grows nodes s (visit_loop lineno body k s).
Proof.
  intros Hin Hk. unfold visit_loop.
  eapply grows_wf_trans; [|apply Hk].
  destruct (_is_empty_loop body) eqn:Hempty; [|apply grows_wf_refl].
  apply (grows_wf_append _ _ _ _ _ zombies_append);
    [apply zombies_append_spec|].
  intros Hok. split; [|split; [exact Hok | reflexivity]].
  split; [reflexivity|]. exists body.
  split; [apply is_empty_loop_all, Hempty | exact Hin].
Qed.

Lemma zombie_For_grows nodes node k :
  In (NStmt node) nodes ->
  (forall s, zombie_grows nodes s (k s)) ->
  forall s, zombie_grows nodes s (visit_For node k s).
Proof.
  intros Hin Hk s. destruct node; try apply Hk.
  apply zombie_loop_grows; [|exact Hk]. left. eauto.
Qed.

Lemma zombie_While_grows nodes node k :
  In (NStmt node) nodes ->
  (forall s, zombie_grows nodes s (k s)) ->
  forall s, zombie_grows nodes s (visit_While node k s).
Proof.
  intros Hin Hk s. destruct node; try apply Hk.
  apply zombie_loop_grows; [|exact Hk]. right. eauto.
Qed.

Lemma zombie_Expr_grows nodes node k :
  In (NStmt node) nodes ->
  (forall s, zombie_grows nodes s (k s)) ->
  forall s, zombie_grows nodes s (visit_Expr node k s).
Proof.
  intros Hin Hk s. destruct node; try apply Hk.
  cbn [visit_Expr].
  destruct value; try apply Hk.
  - eapply grows_wf_trans; [|apply Hk].
    destruct (_get_call_name _) as [name|] eqn:Hname;
      [|apply grows_wf_refl].
    destruct (truthy (Some name) && negb (_is_side_effect_function name))
      eqn:Hcond; [|apply grows_wf_refl].
    apply (grows_wf_append _ _ _ _ _ zombies_append);
      [apply zombies_append_spec|].
    intros Hok. split; [|split; [exact Hok | reflexivity]].
    split; [reflexivity|]. cbn [line].
    eexists. exists name. split; [exact Hin|]. split; [exact Hname|].
    apply andb_prop in Hcond. destruct Hcond as [_ Hcond].
    now apply negb_true_iff in Hcond.
  - eapply grows_wf_trans; [|apply Hk].
    apply (grows_wf_append _ _ _ _ _ zombies_append);
      [apply zombies_append_spec|].
    intros Hok. split; [|split; [exact Hok | reflexivity]].
    split; [reflexivity|]. cbn [line]. repeat eexists. exact Hin.
Qed.

(** Every finding the zombie visit of a tree adds is well formed. *)
Lemma zombie_visit_grows (tree : module_) :
  forall s, zombie_grows (walk tree) s (visit visitor tree s).
Proof.
  apply (VisitorFacts.visit_rel visitor (zombie_grows _)
           (grows_wf_refl _ _ _ _ _) (grows_wf_trans _ _ _ _ _)
           (fun e k H => H)
           (fun n => In (NStmt n) (walk tree))
           (zombie_FunctionDef_grows _)
           (zombie_For_grows _)
           (zombie_While_grows _)
           (fun node k _ H => H)
           (zombie_Expr_grows _)).
  intros n Hn. exact Hn.
Qed.


(** *** Evidence voids *)

Definition void_handler_origin (nodes : list node) (lineno : Z)
  (P : excepthandler -> Prop) : Prop :=
  exists body handlers orelse finalbody h,
    In (NStmt (Try body handlers orelse finalbody)) nodes
    /\ In h handlers
    /\ lineno = h_lineno h
    /\ P h.

Definition void_origin (nodes : list node) (f : EvidenceVoids.EvidenceVoid)
  : Prop :=
  match EvidenceVoids.void_type f with
  | EvidenceVoids.BARE_EXCEPT =>
      EvidenceVoids.severity f = "HIGH"%string
      /\ void_handler_origin nodes (EvidenceVoids.line f)
           (fun h => h_type h = None)
  | EvidenceVoids.SWALLOWED_EXCEPTION =>
      EvidenceVoids.severity f = "HIGH"%string
      /\ void_handler_origin nodes (EvidenceVoids.line f)
           (fun h => EvidenceVoids._is_swallowed (h_body h) = true)
  | EvidenceVoids.NO_LOGGING_IN_EXCEPT =>
      EvidenceVoids.severity f = "MEDIUM"%string
      /\ void_handler_origin nodes (EvidenceVoids.line f)
           (fun h => EvidenceVoids._has_logging (h_body h) = false)
  | EvidenceVoids.SILENT_FAILURE =>
      EvidenceVoids.severity f = "MEDIUM"%string
      /\ exists name,
           str_in name EvidenceVoids.fallible = true
           /\ EvidenceVoids.description f
              = ("Fallible operation '" ++ name
                   ++ "()' lacks error handling")%string
  | EvidenceVoids.IGNORED_RETURN => False
  end.

Definition void_wf (nodes : list node) (lines : list string)
  (f : EvidenceVoids.EvidenceVoid) : Prop :=
  void_origin nodes f
  /\ ok_context nodes (EvidenceVoids.context f)
  /\ EvidenceVoids.code_snippet f = snippet_of lines (EvidenceVoids.line f).

Definition void_grows (nodes : list node) :=
  grows_wf EvidenceVoids.source_lines EvidenceVoids.current_context
    EvidenceVoids.voids (ok_context nodes) (void_wf nodes).

Lemma voids_append_spec f s :
  EvidenceVoids.source_lines (EvidenceVoids.voids_append f s)
    = EvidenceVoids.source_lines s
  /\ EvidenceVoids.current_context (EvidenceVoids.voids_append f s)
     = EvidenceVoids.current_context s
  /\ EvidenceVoids.voids (EvidenceVoids.voids_append f s)
     = EvidenceVoids.voids s ++ [f].
Proof. repeat split. Qed.

Lemma void_set_context_spec c s :
  EvidenceVoids.source_lines (EvidenceVoids.set_current_context c s)
    = EvidenceVoids.source_lines s
  /\ EvidenceVoids.current_context (EvidenceVoids.set_current_context c s) = c
  /\ EvidenceVoids.voids (EvidenceVoids.set_current_context c s)
     = EvidenceVoids.voids s.
Proof. repeat split. Qed.

Lemma void_handler_grows nodes body handlers orelse finalbody h s :
  In (NStmt (Try body handlers orelse finalbody)) nodes ->
  In h handlers ->
  void_grows nodes s (EvidenceVoids.visit_Try_handler s h).
Proof.
  intros Hin Hh. unfold EvidenceVoids.visit_Try_handler. cbv zeta.
  destruct (h_type h) eqn:Htype,
    (EvidenceVoids._is_swallowed (h_body h)) eqn:Hsw,
    (EvidenceVoids._has_logging (h_body h)) eqn:Hlog; cbn [negb];
    repeat first
      [ apply grows_wf_refl
      | eapply grows_wf_trans;
        [|apply (grows_wf_append _ _ _ _ _ EvidenceVoids.voids_append);
          [apply voids_append_spec
          |intros Hok; split; [|split; [exact Hok | reflexivity]];
           split; [reflexivity|];
           exists body, handlers, orelse, finalbody, h; auto]] ].
Qed.

Lemma void_handlers_grow nodes body handlers orelse finalbody :
  In (NStmt (Try body handlers orelse finalbody)) nodes ->
  forall hs, incl hs handlers ->
  forall s, void_grows nodes s
              (fold_left EvidenceVoids.visit_Try_handler hs s).
Proof.
  intros Hin hs. induction hs as [|h hs IH]; intros Hincl s; simpl.
  - apply grows_wf_refl.
  - eapply grows_wf_trans.
    + eapply void_handler_grows; [exact Hin|]. apply Hincl. now left.
    + apply IH. intros x Hx. apply Hincl. now right.
Qed.

Lemma void_Try_grows nodes node k :
  In (NStmt node) nodes ->
  (forall s, void_grows nodes s (k s)) ->
  forall s, void_grows nodes s (EvidenceVoids.visit_Try node k s).
Proof.
  intros Hin Hk s. destruct node; try apply Hk.
  cbn [EvidenceVoids.visit_Try].
  eapply grows_wf_trans; [|apply Hk].
  eapply void_handlers_grow; [exact Hin | apply incl_refl].
Qed.

Lemma void_FunctionDef_grows nodes node k :
  In (NStmt node) nodes ->
  (forall s, void_grows nodes s (k s)) ->
  forall s, void_grows nodes s (EvidenceVoids.visit_FunctionDef node k s).
Proof.
  intros Hin Hk s. destruct node; try apply Hk.
  cbn [EvidenceVoids.visit_FunctionDef].
  apply (grows_wf_scope _ _ _ _ _ EvidenceVoids.set_current_context
           ("function:" ++ name)%string s _ void_set_context_spec);
    [|apply Hk].
  right. repeat eexists. exact Hin.
Qed.

Lemma void_Call_grows nodes node k :
  (forall s, void_grows nodes s (k s)) ->
  forall s, void_grows nodes s (EvidenceVoids.visit_Call node k s).
Proof.
  intros Hk s. destruct node; try apply Hk.
  cbn [EvidenceVoids.visit_Call].
  eapply grows_wf_trans; [|apply Hk].
  destruct (EvidenceVoids._get_call_name _) as [name|];
    [|apply grows_wf_refl].
  destruct (str_in name EvidenceVoids.fallible) eqn:Hname;
    [|apply grows_wf_refl].
  cbn.
  apply (grows_wf_append _ _ _ _ _ EvidenceVoids.voids_append);
    [apply voids_append_spec|].
  intros Hok. split; [|split; [exact Hok | reflexivity]].
  split; [reflexivity|]. exists name. split; [exact Hname | reflexivity].
Qed.

(** Every finding the evidence-void visit of a tree adds is well formed. *)
Lemma void_visit_grows (tree : module_) :
  forall s, void_grows (walk tree) s (visit EvidenceVoids.visitor tree s).
Proof.
  apply (VisitorFacts.visit_rel EvidenceVoids.visitor (void_grows _)
           (grows_wf_refl _ _ _ _ _) (grows_wf_trans _ _ _ _ _)
           (void_Call_grows _)
           (fun n => In (NStmt n) (walk tree))
           (void_FunctionDef_grows _)
           (fun node k _ H => H)
           (fun node k _ H => H)
           (void_Try_grows _)
           (fun node k _ H => H)).
  intros n Hn. exact Hn.
Qed.

(** *** Phantom loops *)

Definition phantom_wf (nodes : list node) (lines : list string)
  (f : PhantomLoops.PhantomLoop) : Prop :=
  PhantomFacts.from_loop nodes f
  /\ ok_context nodes (PhantomLoops.context f)
  /\ PhantomLoops.code_snippet f = snippet_of lines (PhantomLoops.line f)
  /\ PhantomLoops.description f
     = ("Loop claims infinity but " ++ PhantomLoops.exit_mechanism f
          ++ " immediately")%string.

Definition phantom_grows (nodes : list node) :=
  grows_wf PhantomLoops.source_lines PhantomLoops.current_context
    PhantomLoops.phantoms (ok_context nodes) (phantom_wf nodes).

Lemma phantoms_append_spec f s :
  PhantomLoops.source_lines (PhantomLoops.phantoms_append f s)
    = PhantomLoops.source_lines s
  /\ PhantomLoops.current_context (PhantomLoops.phantoms_append f s)
     = PhantomLoops.current_context s
  /\ PhantomLoops.phantoms (PhantomLoops.phantoms_append f s)
     = PhantomLoops.phantoms s ++ [f].
Proof. repeat split. Qed.

Lemma phantom_set_context_spec c s :
  PhantomLoops.source_lines (PhantomLoops.set_current_context c s)
    = PhantomLoops.source_lines s
  /\ PhantomLoops.current_context (PhantomLoops.set_current_context c s) = c
  /\ PhantomLoops.phantoms (PhantomLoops.set_current_context c s)
     = PhantomLoops.phantoms s.
Proof. repeat split. Qed.

Lemma phantom_FunctionDef_grows nodes node k :
  In (NStmt node) nodes ->
  (forall s, phantom_grows nodes s (k s)) ->
  forall s, phantom_grows nodes s (PhantomLoops.visit_FunctionDef node k s).
Proof.
  intros Hin Hk s. destruct node; try apply Hk.
  cbn [PhantomLoops.visit_FunctionDef].
  apply (grows_wf_scope _ _ _ _ _ PhantomLoops.set_current_context
           ("function:" ++ name)%string s _ phantom_set_context_spec);
    [|apply Hk].
  right. repeat eexists. exact Hin.
Qed.

Lemma phantom_While_grows nodes node k :
  In (NStmt node) nodes ->
  (forall s, phantom_grows nodes s (k s)) ->
  forall s, phantom_grows nodes s (PhantomLoops.visit_While node k s).
Proof.
  intros Hin Hk s. destruct node; try apply Hk.
  cbn [PhantomLoops.visit_While].
  eapply grows_wf_trans; [|apply Hk].
  destruct (PhantomLoops._is_infinite_condition test) eqn:Htest;
    [|apply grows_wf_refl].
  destruct (PhantomLoops._check_immediate_exit body) as [[t m]|] eqn:Hexit;
    [|apply grows_wf_refl].
  apply (grows_wf_append _ _ _ _ _ PhantomLoops.phantoms_append);
    [apply phantoms_append_spec|].
  intros Hok. split; [|split; [exact Hok | split; reflexivity]].
  assert (test = Constant (CBool true)) as ->.
  { destruct test as [[| [|] | | |] | | | | |]; try discriminate.
    reflexivity. }
  exists lineno, body, orelse. cbn. auto.
Qed.

(** Every finding the phantom-loop visit of a tree adds is well formed. *)
Lemma phantom_visit_grows (tree : module_) :
  forall s, phantom_grows (walk tree) s (visit PhantomLoops.visitor tree s).
Proof.
  apply (VisitorFacts.visit_rel PhantomLoops.visitor (phantom_grows _)
           (grows_wf_refl _ _ _ _ _) (grows_wf_trans _ _ _ _ _)
           (fun e k H => H)
           (fun n => In (NStmt n) (walk tree))
           (phantom_FunctionDef_grows _)
           (fun node k _ H => H)
           (phantom_While_grows _)
           (fun node k _ H => H)
           (fun node k _ H => H)).
  intros n Hn. exact Hn.
Qed.


End WfFacts.

(** X5. Every finding of [detect_zombie_orbits] is one of: a discarded
    call (HIGH) on the line of an expression statement calling a name
    outside the side-effect list, an unused computation (MEDIUM) on the line
    of an expression statement holding a binary operation, an empty loop
    (HIGH) on the line of a for or while whose body is only pass and
    continue, or a no-return function (MEDIUM) on the line of a function
    definition and in that function's own context; never WRITE_ONLY_VARIABLE.
    Its context is the module or a function of the tree, and its snippet is
    the snippet of its line. *)
Theorem zombie_findings_well_formed
  (ast_parse : string -> Py.result Ast.module_) (source_code : string)
  (findings : list ZombieOrbits.ZombieOrbit) :
  ZombieOrbits.detect_zombie_orbits ast_parse source_code
    = Py.Returns findings ->
  Forall (fun f =>
            (exists tree,
               ast_parse source_code = Py.Returns tree
               /\ WfFacts.zombie_wf (Ast.walk tree)
                    (Py.split_nl source_code) f)
            /\ In (ZombieOrbits.zombie_type f, ZombieOrbits.severity f)
                 [(ZombieOrbits.DISCARDED_CALL, "HIGH"%string);
                  (ZombieOrbits.UNUSED_COMPUTATION, "MEDIUM"%string);
                  (ZombieOrbits.EMPTY_LOOP, "HIGH"%string);
                  (ZombieOrbits.NO_RETURN_FUNCTION, "MEDIUM"%string)])
    findings.
Proof.
  intros Hdetect. unfold ZombieOrbits.detect_zombie_orbits in Hdetect.
  destruct (ast_parse source_code) as [tree|e] eqn:Hparse.
  - injection Hdetect as <-.
    destruct (WfFacts.zombie_visit_grows tree
                (ZombieOrbits.init (Py.split_nl source_code)))
      as (_ & _ & new & P & F).
    rewrite P. cbn [ZombieOrbits.zombies ZombieOrbits.init app].
    specialize (F (or_introl eq_refl)).
    revert F. apply Forall_impl. intros f Hf.
    split; [exists tree; split; [reflexivity | exact Hf]|].
    destruct Hf as (Ho & _). unfold WfFacts.zombie_origin in Ho.
    destruct (ZombieOrbits.zombie_type f); destruct Ho as [-> _] || destruct Ho;
      cbn; auto 6.
  - destruct e; try discriminate. injection Hdetect as <-. constructor.
Qed.

(** A file with an empty for loop. *)
Lemma zombie_findings_well_formed_witness :
  let tree :=
    Ast.Module_ [Ast.For 1 (Ast.Name "i" Ast.Store) (Ast.Name "xs" Ast.Load)
                   [Ast.Pass] []] in
  let ast_parse := fun _ : string => Py.Returns tree in
  let source_code := ("for i in xs:" ++ Py.nl ++ "    pass")%string in
  exists findings,
    ZombieOrbits.detect_zombie_orbits ast_parse source_code
      = Py.Returns findings
    /\ length findings = 1%nat
    /\ Forall (fun f =>
                 In (ZombieOrbits.zombie_type f, ZombieOrbits.severity f)
                   [(ZombieOrbits.DISCARDED_CALL, "HIGH"%string);
                    (ZombieOrbits.UNUSED_COMPUTATION, "MEDIUM"%string);
                    (ZombieOrbits.EMPTY_LOOP, "HIGH"%string);
                    (ZombieOrbits.NO_RETURN_FUNCTION, "MEDIUM"%string)])
         findings.
Proof.
  intros tree ast_parse source_code.
  eexists. split; [reflexivity|]. split; [reflexivity|].
  eapply Forall_impl;
    [|exact (zombie_findings_well_formed ast_parse source_code _ eq_refl)].
  intros f [_ H]. exact H.
Defined.

(** X6. Every finding of [detect_evidence_voids] is one of: a bare except
    (HIGH), a swallowed exception (HIGH) or a missing logging (MEDIUM) on
    the line of a handler of a try statement of the tree that has no type,
    is swallowed, or holds no logging call; or a silent failure (MEDIUM)
    naming a function of the fallible list; never IGNORED_RETURN. Its context
    is the module or a function of the tree, and its snippet is the snippet
    of its line. *)
Theorem void_findings_well_formed
  (ast_parse : string -> Py.result Ast.module_) (source_code : string)
  (findings : list EvidenceVoids.EvidenceVoid) :
  EvidenceVoids.detect_evidence_voids ast_parse source_code
    = Py.Returns findings ->
  Forall (fun f =>
            (exists tree,
               ast_parse source_code = Py.Returns tree
               /\ WfFacts.void_wf (Ast.walk tree)
                    (Py.split_nl source_code) f)
            /\ In (EvidenceVoids.void_type f, EvidenceVoids.severity f)
                 [(EvidenceVoids.BARE_EXCEPT, "HIGH"%string);
                  (EvidenceVoids.SWALLOWED_EXCEPTION, "HIGH"%string);
                  (EvidenceVoids.NO_LOGGING_IN_EXCEPT, "MEDIUM"%string);
                  (EvidenceVoids.SILENT_FAILURE, "MEDIUM"%string)])
    findings.
Proof.
  intros Hdetect. unfold EvidenceVoids.detect_evidence_voids in Hdetect.
  destruct (ast_parse source_code) as [tree|e] eqn:Hparse.
  - injection Hdetect as <-.
    destruct (WfFacts.void_visit_grows tree
                (EvidenceVoids.init (Py.split_nl source_code)))
      as (_ & _ & new & P & F).
    rewrite P. cbn [EvidenceVoids.voids EvidenceVoids.init app].
    specialize (F (or_introl eq_refl)).
    revert F. apply Forall_impl. intros f Hf.
    split; [exists tree; split; [reflexivity | exact Hf]|].
    destruct Hf as (Ho & _). unfold WfFacts.void_origin in Ho.
    destruct (EvidenceVoids.void_type f); destruct Ho as [-> _] || destruct Ho;
      cbn; auto 6.
  - destruct e; try discriminate. injection Hdetect as <-. constructor.
Qed.

(** A file with a handler [except: pass]. *)
Lemma void_findings_well_formed_witness :
  let tree :=
    Ast.Module_ [Ast.Try [Ast.Pass]
                   [Ast.ExceptHandler 3 None None [Ast.Pass]] [] []] in
  let ast_parse := fun _ : string => Py.Returns tree in
  let source_code :=
    ("try:" ++ Py.nl ++ "    pass" ++ Py.nl ++ "except:" ++ Py.nl
       ++ "    pass")%string in
  exists findings,
    EvidenceVoids.detect_evidence_voids ast_parse source_code
      = Py.Returns findings
    /\ length findings = 3%nat
    /\ Forall (fun f =>
                 In (EvidenceVoids.void_type f, EvidenceVoids.severity f)
                   [(EvidenceVoids.BARE_EXCEPT, "HIGH"%string);
                    (EvidenceVoids.SWALLOWED_EXCEPTION, "HIGH"%string);
                    (EvidenceVoids.NO_LOGGING_IN_EXCEPT, "MEDIUM"%string);
                    (EvidenceVoids.SILENT_FAILURE, "MEDIUM"%string)])
         findings.
Proof.
  intros tree ast_parse source_code.
  eexists. split; [reflexivity|]. split; [reflexivity|].
  eapply Forall_impl;
    [|exact (void_findings_well_formed ast_parse source_code _ eq_refl)].
  intros f [_ H]. exact H.
Defined.

(** X7. Every finding of [detect_phantom_loops] carries as context the
    module or a function of the tree, as snippet the snippet of its line,
    and the description "Loop claims infinity but <exit mechanism>
    immediately"; its severity is HIGH for WHILE_TRUE_BREAK and MEDIUM
    otherwise. *)
Theorem phantom_findings_well_formed
  (ast_parse : string -> Py.result Ast.module_) (source_code : string)
  (findings : list PhantomLoops.PhantomLoop) :
  PhantomLoops.detect_phantom_loops ast_parse source_code
    = Py.Returns findings ->
  Forall (fun f =>
            (exists tree,
               ast_parse source_code = Py.Returns tree
               /\ WfFacts.phantom_wf (Ast.walk tree)
                    (Py.split_nl source_code) f)
            /\ In (PhantomLoops.phantom_type f, PhantomLoops.severity f)
                 [(PhantomLoops.WHILE_TRUE_BREAK, "HIGH"%string);
                  (PhantomLoops.WHILE_TRUE_RETURN, "MEDIUM"%string);
                  (PhantomLoops.WHILE_TRUE_RAISE, "MEDIUM"%string)])
    findings.
Proof.
  intros Hdetect. unfold PhantomLoops.detect_phantom_loops in Hdetect.
  destruct (ast_parse source_code) as [tree|e] eqn:Hparse.
  - injection Hdetect as <-.
    destruct (WfFacts.phantom_visit_grows tree
                (PhantomLoops.init (Py.split_nl source_code)))
      as (_ & _ & new & P & F).
    rewrite P. cbn [PhantomLoops.phantoms PhantomLoops.init app].
    specialize (F (or_introl eq_refl)).
    revert F. apply Forall_impl. intros f Hf.
    split; [exists tree; split; [reflexivity | exact Hf]|].
    destruct Hf as ((l & b & o & _ & _ & Hexit & Hsev) & _).
    rewrite Hsev.
    destruct b as [|[] b']; cbn in Hexit; try discriminate;
      injection Hexit as <- _; cbn; auto.
  - destruct e; try discriminate. injection Hdetect as <-. constructor.
Qed.

(** A function holding a [while True: return]. *)
Lemma phantom_findings_well_formed_witness :
  let tree :=
    Ast.Module_
      [Ast.FunctionDef 1 "poll" (Ast.Arguments_ [] [])
         [PhantomFacts.while_true 2 [Ast.Return None] []] [] None] in
  let ast_parse := fun _ : string => Py.Returns tree in
  let source_code :=
    ("def poll():" ++ Py.nl ++ "    while True:" ++ Py.nl
       ++ "        return")%string in
  exists findings,
    PhantomLoops.detect_phantom_loops ast_parse source_code
      = Py.Returns findings
    /\ map PhantomLoops.context findings = ["function:poll"%string]
    /\ Forall (fun f =>
                 In (PhantomLoops.phantom_type f, PhantomLoops.severity f)
                   [(PhantomLoops.WHILE_TRUE_BREAK, "HIGH"%string);
                    (PhantomLoops.WHILE_TRUE_RETURN, "MEDIUM"%string);
                    (PhantomLoops.WHILE_TRUE_RAISE, "MEDIUM"%string)])
         findings.
Proof.
  intros tree ast_parse source_code.
  eexists. split; [reflexivity|]. split; [reflexivity|].
  eapply Forall_impl;
    [|exact (phantom_findings_well_formed ast_parse source_code _ eq_refl)].
  intros f [_ H]. exact H.
Defined.

(** ** Findings do not depend on what was found before *)

Module FrameFacts.
Import Py Ast.

Section Frame.
Context {S F : Type}.
Variable lines : S -> list string.
Variable ctx : S -> string.
Variable found : S -> list F.

(** Two detectors over the same lines and in the same context, which
    have added the same findings to the lists [p1] and [p2] they started
    from. *)
Definition same_new (p1 p2 : list F) (s1 s2 : S) : Prop :=
  lines s1 = lines s2
  /\ ctx s1 = ctx s2
  /\ exists new, found s1 = p1 ++ new /\ found s2 = p2 ++ new.

Lemma same_new_start (s1 s2 : S) :
  lines s1 = lines s2 -> ctx s1 = ctx s2 ->
  same_new (found s1) (found s2) s1 s2.
Proof.
  intros L C. repeat split; try assumption.
  exists []. now rewrite !app_nil_r.
Qed.

Lemma same_new_append (append : F -> S -> S) p1 p2 f1 f2 s1 s2 :
  (forall f s, lines (append f s) = lines s
               /\ ctx (append f s) = ctx s
               /\ found (append f s) = found s ++ [f]) ->
  same_new p1 p2 s1 s2 -> f1 = f2 ->
  same_new p1 p2 (append f1 s1) (append f2 s2).
Proof.
  intros Happ (L & C & new & P1 & P2) <-.
  destruct (Happ f1 s1) as (L1 & C1 & F1).
  destruct (Happ f1 s2) as (L2 & C2 & F2).
  repeat split; try congruence.
  exists (new ++ [f1]). rewrite F1, F2, P1, P2. now rewrite !app_assoc.
Qed.

Lemma same_new_set (set : string -> S -> S) p1 p2 c1 c2 s1 s2 :
  (forall c s, lines (set c s) = lines s
               /\ ctx (set c s) = c
               /\ found (set c s) = found s) ->
  lines s1 = lines s2 -> c1 = c2 ->
  (exists new, found s1 = p1 ++ new /\ found s2 = p2 ++ new) ->
  same_new p1 p2 (set c1 s1) (set c2 s2).
Proof.
  intros Hset L <- (new & P1 & P2).
  destruct (Hset c1 s1) as (L1 & C1 & F1).
  destruct (Hset c1 s2) as (L2 & C2 & F2).
  repeat split; try congruence.
  exists new. now rewrite F1, F2.
Qed.

End Frame.

(** *** Phantom loops *)

Definition phantom_same :=
  same_new PhantomLoops.source_lines PhantomLoops.current_context
    PhantomLoops.phantoms.

Lemma phantom_FunctionDef_sim p1 p2 node k :
  SimFacts.sim (phantom_same p1 p2) k ->
  SimFacts.sim (phantom_same p1 p2) (PhantomLoops.visit_FunctionDef node k).
Proof.
  intros Hk s1 s2 HQ. destruct node; try (apply Hk, HQ).
  cbn [PhantomLoops.visit_FunctionDef].
  destruct HQ as (L & C & Hnew).
  assert (H : phantom_same p1 p2
                (k (PhantomLoops.set_current_context
                      ("function:" ++ name)%string s1))
                (k (PhantomLoops.set_current_context
                      ("function:" ++ name)%string s2))).
  { apply Hk. apply (same_new_set _ _ _ PhantomLoops.set_current_context);
      auto using WfFacts.phantom_set_context_spec. }
  destruct H as (L' & _ & Hnew').
  apply (same_new_set _ _ _ PhantomLoops.set_current_context);
    auto using WfFacts.phantom_set_context_spec.
Qed.

Lemma phantom_While_sim p1 p2 node k :
  SimFacts.sim (phantom_same p1 p2) k ->
  SimFacts.sim (phantom_same p1 p2) (PhantomLoops.visit_While node k).
Proof.
  intros Hk s1 s2 HQ. destruct node; try (apply Hk, HQ).
  cbn [PhantomLoops.visit_While]. apply Hk.
  destruct (PhantomLoops._is_infinite_condition test); [|exact HQ].
  destruct (PhantomLoops._check_immediate_exit body) as [[t m]|];
    [|exact HQ].
  apply (same_new_append _ _ _ PhantomLoops.phantoms_append);
    [apply WfFacts.phantoms_append_spec | exact HQ |].
  destruct HQ as (L & C & _).
  unfold PhantomLoops._get_code_snippet. now rewrite L, C.
Qed.

Lemma phantom_body_sim p1 p2 (l : list stmt) :
  SimFacts.sim (phantom_same p1 p2) (visit_body PhantomLoops.visitor l).
Proof.
  apply SimFacts.visit_body_sim;
    first [ exact (fun e k H => H) | exact (fun node k H => H)
          | apply phantom_FunctionDef_sim | apply phantom_While_sim ].
Qed.

Lemma phantom_generic_sim p1 p2 (st : stmt) :
  SimFacts.sim (phantom_same p1 p2) (generic_visit PhantomLoops.visitor st).
Proof.
  apply SimFacts.generic_visit_sim;
    first [ exact (fun e k H => H) | exact (fun node k H => H)
          | apply phantom_FunctionDef_sim | apply phantom_While_sim ].
Qed.

(** *** Zombie orbits *)

Definition zombie_same :=
  same_new ZombieOrbits.source_lines ZombieOrbits.current_context
    ZombieOrbits.zombies.

Lemma zombie_FunctionDef_sim p1 p2 node k :
  SimFacts.sim (zombie_same p1 p2) k ->
  SimFacts.sim (zombie_same p1 p2) (ZombieOrbits.visit_FunctionDef node k).
Proof.
  intros Hk s1 s2 HQ. destruct node; try (apply Hk, HQ).
  cbn [ZombieOrbits.visit_FunctionDef].
  destruct HQ as (L & C & Hnew).
  assert (H0 : zombie_same p1 p2
                 (ZombieOrbits.set_current_context
                    ("function:" ++ name)%string s1)
                 (ZombieOrbits.set_current_context
                    ("function:" ++ name)%string s2)).
  { apply (same_new_set _ _ _ ZombieOrbits.set_current_context);
      auto using WfFacts.zombie_set_context_spec. }
  match goal with
  | |- zombie_same _ _ (ZombieOrbits.set_current_context _ (k ?m1))
                   (ZombieOrbits.set_current_context _ (k ?m2)) =>
      assert (H : zombie_same p1 p2 (k m1) (k m2))
  end.
  { apply Hk. destruct (_ && _); [|exact H0].
    apply (same_new_append _ _ _ ZombieOrbits.zombies_append);
      [apply WfFacts.zombies_append_spec | exact H0 |].
    unfold ZombieOrbits._get_code_snippet. cbn. now rewrite L. }
  destruct H as (L' & _ & Hnew').
  apply (same_new_set _ _ _ ZombieOrbits.set_current_context);
    auto using WfFacts.zombie_set_context_spec.
Qed.

Lemma zombie_loop_sim p1 p2 lineno body k :
  SimFacts.sim (zombie_same p1 p2) k ->
  SimFacts.sim (zombie_same p1 p2) (ZombieOrbits.visit_loop lineno body k).
Proof.
  intros Hk s1 s2 HQ. unfold ZombieOrbits.visit_loop. apply Hk.
  destruct (ZombieOrbits._is_empty_loop body); [|exact HQ].
  apply (same_new_append _ _ _ ZombieOrbits.zombies_append);
    [apply WfFacts.zombies_append_spec | exact HQ |].
  destruct HQ as (L & C & _).
  unfold ZombieOrbits._get_code_snippet. now rewrite L, C.
Qed.

Lemma zombie_For_sim p1 p2 node k :
  SimFacts.sim (zombie_same p1 p2) k ->
  SimFacts.sim (zombie_same p1 p2) (ZombieOrbits.visit_For node k).
Proof.
  intros Hk. destruct node; try exact Hk. now apply zombie_loop_sim.
Qed.

Lemma zombie_While_sim p1 p2 node k :
  SimFacts.sim (zombie_same p1 p2) k ->
  SimFacts.sim (zombie_same p1 p2) (ZombieOrbits.visit_While node k).
Proof.
  intros Hk. destruct node; try exact Hk. now apply zombie_loop_sim.
Qed.

Lemma zombie_Expr_sim p1 p2 node k :
  SimFacts.sim (zombie_same p1 p2) k ->
  SimFacts.sim (zombie_same p1 p2) (ZombieOrbits.visit_Expr node k).
Proof.
  intros Hk s1 s2 HQ. destruct node; try (apply Hk, HQ).
  cbn [ZombieOrbits.visit_Expr]. apply Hk.
  assert (E : forall t sev d,
    {| ZombieOrbits.line := lineno; ZombieOrbits.zombie_type := t;
       ZombieOrbits.code_snippet := ZombieOrbits._get_code_snippet s1 lineno;
       ZombieOrbits.severity := sev; ZombieOrbits.description := d;
       ZombieOrbits.context := ZombieOrbits.current_context s1 |}
    = {| ZombieOrbits.line := lineno; ZombieOrbits.zombie_type := t;
         ZombieOrbits.code_snippet := ZombieOrbits._get_code_snippet s2 lineno;
         ZombieOrbits.severity := sev; ZombieOrbits.description := d;
         ZombieOrbits.context := ZombieOrbits.current_context s2 |}).
  { intros t sev d. destruct HQ as (L & C & _).
    unfold ZombieOrbits._get_code_snippet. now rewrite L, C. }
  destruct value; try exact HQ.
  - destruct (ZombieOrbits._get_call_name _) as [name|]; [|exact HQ].
    destruct (_ && _); [|exact HQ].
    apply (same_new_append _ _ _ ZombieOrbits.zombies_append);
      [apply WfFacts.zombies_append_spec | exact HQ | apply E].
  - apply (same_new_append _ _ _ ZombieOrbits.zombies_append);
      [apply WfFacts.zombies_append_spec | exact HQ | apply E].
Qed.

Lemma zombie_body_sim p1 p2 (l : list stmt) :
  SimFacts.sim (zombie_same p1 p2) (visit_body ZombieOrbits.visitor l).
Proof.
  apply SimFacts.visit_body_sim;
    first [ exact (fun e k H => H) | exact (fun node k H => H)
          | apply zombie_FunctionDef_sim | apply zombie_For_sim
          | apply zombie_While_sim | apply zombie_Expr_sim ].
Qed.

Lemma zombie_generic_sim p1 p2 (st : stmt) :
  SimFacts.sim (zombie_same p1 p2) (generic_visit ZombieOrbits.visitor st).
Proof.
  apply SimFacts.generic_visit_sim;
    first [ exact (fun e k H => H) | exact (fun node k H => H)
          | apply zombie_FunctionDef_sim | apply zombie_For_sim
          | apply zombie_While_sim | apply zombie_Expr_sim ].
Qed.

(** *** Evidence voids *)

Definition void_same :=
  same_new EvidenceVoids.source_lines EvidenceVoids.current_context
    EvidenceVoids.voids.

Lemma void_FunctionDef_sim p1 p2 node k :
  SimFacts.sim (void_same p1 p2) k ->
  SimFacts.sim (void_same p1 p2) (EvidenceVoids.visit_FunctionDef node k).
Proof.
  intros Hk s1 s2 HQ. destruct node; try (apply Hk, HQ).
  cbn [EvidenceVoids.visit_FunctionDef].
  destruct HQ as (L & C & Hnew).
  assert (H : void_same p1 p2
                (k (EvidenceVoids.set_current_context
                      ("function:" ++ name)%string s1))
                (k (EvidenceVoids.set_current_context
                      ("function:" ++ name)%string s2))).
  { apply Hk. apply (same_new_set _ _ _ EvidenceVoids.set_current_context);
      auto using WfFacts.void_set_context_spec. }
  destruct H as (L' & _ & Hnew').
  apply (same_new_set _ _ _ EvidenceVoids.set_current_context);
    auto using WfFacts.void_set_context_spec.
Qed.

Lemma void_handler_sim p1 p2 h s1 s2 :
  void_same p1 p2 s1 s2 ->
  void_same p1 p2 (EvidenceVoids.visit_Try_handler s1 h)
    (EvidenceVoids.visit_Try_handler s2 h).
Proof.
  intros HQ. unfold EvidenceVoids.visit_Try_handler. cbv zeta.
  destruct (h_type h), (EvidenceVoids._is_swallowed (h_body h)),
    (negb (EvidenceVoids._has_logging (h_body h)));
    repeat first
      [ exact HQ
      | apply (same_new_append _ _ _ EvidenceVoids.voids_append);
        [apply WfFacts.voids_append_spec | |
         unfold EvidenceVoids._get_code_snippet; cbn;
         destruct HQ as (L & C & _); now rewrite L, C] ].
Qed.

Lemma void_Try_sim p1 p2 node k :
  SimFacts.sim (void_same p1 p2) k ->
  SimFacts.sim (void_same p1 p2) (EvidenceVoids.visit_Try node k).
Proof.
  intros Hk s1 s2 HQ. destruct node; try (apply Hk, HQ).
  cbn [EvidenceVoids.visit_Try]. apply Hk.
  revert s1 s2 HQ. induction handlers as [|h hs IH]; intros s1 s2 HQ.
  - exact HQ.
  - cbn [fold_left]. apply IH, void_handler_sim, HQ.
Qed.

Lemma void_Call_sim p1 p2 node k :
  SimFacts.sim (void_same p1 p2) k ->
  SimFacts.sim (void_same p1 p2) (EvidenceVoids.visit_Call node k).
Proof.
  intros Hk s1 s2 HQ. destruct node; try (apply Hk, HQ).
  cbn [EvidenceVoids.visit_Call]. apply Hk.
  destruct (EvidenceVoids._get_call_name _) as [name|]; [|exact HQ].
  destruct (str_in name EvidenceVoids.fallible); [|exact HQ].
  cbn [EvidenceVoids._is_error_checked negb].
  apply (same_new_append _ _ _ EvidenceVoids.voids_append);
    [apply WfFacts.voids_append_spec | exact HQ |].
  destruct HQ as (L & C & _).
  unfold EvidenceVoids._get_code_snippet. now rewrite L, C.
Qed.

Lemma void_body_sim p1 p2 (l : list stmt) :
  SimFacts.sim (void_same p1 p2) (visit_body EvidenceVoids.visitor l).
Proof.
  apply SimFacts.visit_body_sim;
    first [ apply void_Call_sim | exact (fun node k H => H)
          | apply void_FunctionDef_sim | apply void_Try_sim ].
Qed.

Lemma void_generic_sim p1 p2 (st : stmt) :
  SimFacts.sim (void_same p1 p2) (generic_visit EvidenceVoids.visitor st).
Proof.
  apply SimFacts.generic_visit_sim;
    first [ apply void_Call_sim | exact (fun node k H => H)
          | apply void_FunctionDef_sim | apply void_Try_sim ].
Qed.

End FrameFacts.

(** X8. The findings of a module are those of its first statements
    followed by those of the remaining ones: what a detector reports for a
    statement does not depend on the statements before it. This holds for
    the three detectors. *)
Theorem findings_of_module_concatenate
  (lines : list string) (l1 l2 : list Ast.stmt) :
  (PhantomLoops.phantoms
     (Ast.visit PhantomLoops.visitor (Ast.Module_ (l1 ++ l2))
        (PhantomLoops.init lines))
   = PhantomLoops.phantoms
       (Ast.visit PhantomLoops.visitor (Ast.Module_ l1)
          (PhantomLoops.init lines))
     ++ PhantomLoops.phantoms
          (Ast.visit PhantomLoops.visitor (Ast.Module_ l2)
             (PhantomLoops.init lines)))
  /\ (ZombieOrbits.zombies
        (Ast.visit ZombieOrbits.visitor (Ast.Module_ (l1 ++ l2))
           (ZombieOrbits.init lines))
      = ZombieOrbits.zombies
          (Ast.visit ZombieOrbits.visitor (Ast.Module_ l1)
             (ZombieOrbits.init lines))
        ++ ZombieOrbits.zombies
             (Ast.visit ZombieOrbits.visitor (Ast.Module_ l2)
                (ZombieOrbits.init lines)))
  /\ (EvidenceVoids.voids
        (Ast.visit EvidenceVoids.visitor (Ast.Module_ (l1 ++ l2))
           (EvidenceVoids.init lines))
      = EvidenceVoids.voids
          (Ast.visit EvidenceVoids.visitor (Ast.Module_ l1)
             (EvidenceVoids.init lines))
        ++ EvidenceVoids.voids
             (Ast.visit EvidenceVoids.visitor (Ast.Module_ l2)
                (EvidenceVoids.init lines))).
Proof.
  unfold Ast.visit. cbn [Ast.m_body]. unfold Ast.visit_body.
  rewrite !fold_left_app.
  split; [|split].
  - destruct (WfFacts.phantom_visit_grows (Ast.Module_ l1)
                (PhantomLoops.init lines)) as (L & C & _).
    destruct (FrameFacts.phantom_body_sim _ _ l2 _ _
                (FrameFacts.same_new_start _ _ _ _ _ L C))
      as (_ & _ & new & P1 & P2).
    unfold Ast.visit, Ast.visit_body in *. cbn [Ast.m_body] in *.
    rewrite P1. cbn in P2. now rewrite P2.
  - destruct (WfFacts.zombie_visit_grows (Ast.Module_ l1)
                (ZombieOrbits.init lines)) as (L & C & _).
    destruct (FrameFacts.zombie_body_sim _ _ l2 _ _
                (FrameFacts.same_new_start _ _ _ _ _ L C))
      as (_ & _ & new & P1 & P2).
    unfold Ast.visit, Ast.visit_body in *. cbn [Ast.m_body] in *.
    rewrite P1. cbn in P2. now rewrite P2.
  - destruct (WfFacts.void_visit_grows (Ast.Module_ l1)
                (EvidenceVoids.init lines)) as (L & C & _).
    destruct (FrameFacts.void_body_sim _ _ l2 _ _
                (FrameFacts.same_new_start _ _ _ _ _ L C))
      as (_ & _ & new & P1 & P2).
    unfold Ast.visit, Ast.visit_body in *. cbn [Ast.m_body] in *.
    rewrite P1. cbn in P2. now rewrite P2.
Qed.

(** X9. What a detector reports while visiting a function definition
    does not depend on the context the definition is visited in, nor on
    the findings made before: from any two detectors over the same lines,
    the visit adds the same findings, and each detector is back in its own
    context afterwards. *)
Theorem function_findings_ignore_outer_context
  (lineno : Z) (name : string) (args : Ast.arguments)
  (body : list Ast.stmt) (decorator_list : list Ast.expr)
  (returns : option Ast.expr) (lines : list string) :
  let node :=
    Ast.FunctionDef lineno name args body decorator_list returns in
  (forall p1 p2 c1 c2,
     let s1 := {| PhantomLoops.source_lines := lines;
                  PhantomLoops.phantoms := p1;
                  PhantomLoops.current_context := c1 |} in
     let s2 := {| PhantomLoops.source_lines := lines;
                  PhantomLoops.phantoms := p2;
                  PhantomLoops.current_context := c2 |} in
     exists new,
       PhantomLoops.phantoms (Ast.visit_stmt PhantomLoops.visitor node s1)
       = p1 ++ new
       /\ PhantomLoops.phantoms (Ast.visit_stmt PhantomLoops.visitor node s2)
          = p2 ++ new
       /\ PhantomLoops.current_context
            (Ast.visit_stmt PhantomLoops.visitor node s1) = c1)
  /\ (forall p1 p2 c1 c2 a1 a2 u1 u2,
        let s1 := {| ZombieOrbits.source_lines := lines;
                     ZombieOrbits.zombies := p1;
                     ZombieOrbits.current_context := c1;
                     ZombieOrbits.assigned_vars := a1;
                     ZombieOrbits.used_vars := u1 |} in
        let s2 := {| ZombieOrbits.source_lines := lines;
                     ZombieOrbits.zombies := p2;
                     ZombieOrbits.current_context := c2;
                     ZombieOrbits.assigned_vars := a2;
                     ZombieOrbits.used_vars := u2 |} in
        exists new,
          ZombieOrbits.zombies (Ast.visit_stmt ZombieOrbits.visitor node s1)
          = p1 ++ new
          /\ ZombieOrbits.zombies
               (Ast.visit_stmt ZombieOrbits.visitor node s2) = p2 ++ new
          /\ ZombieOrbits.current_context
               (Ast.visit_stmt ZombieOrbits.visitor node s1) = c1)
  /\ (forall p1 p2 c1 c2,
        let s1 := {| EvidenceVoids.source_lines := lines;
                     EvidenceVoids.voids := p1;
                     EvidenceVoids.current_context := c1 |} in
        let s2 := {| EvidenceVoids.source_lines := lines;
                     EvidenceVoids.voids := p2;
                     EvidenceVoids.current_context := c2 |} in
        exists new,
          EvidenceVoids.voids (Ast.visit_stmt EvidenceVoids.visitor node s1)
          = p1 ++ new
          /\ EvidenceVoids.voids
               (Ast.visit_stmt EvidenceVoids.visitor node s2) = p2 ++ new
          /\ EvidenceVoids.current_context
               (Ast.visit_stmt EvidenceVoids.visitor node s1) = c1).
Proof.
  intros node. split; [|split].
  - intros p1 p2 c1 c2 s1 s2.
    rewrite !VisitorFacts.visit_stmt_unfold.
    cbn [node Ast.visit_FunctionDef PhantomLoops.visitor
         PhantomLoops.visit_FunctionDef].
    destruct (FrameFacts.phantom_generic_sim p1 p2 node
                (PhantomLoops.set_current_context
                   ("function:" ++ name)%string s1)
                (PhantomLoops.set_current_context
                   ("function:" ++ name)%string s2))
      as (_ & _ & new & P1 & P2).
    { repeat split. exists []. now rewrite !app_nil_r. }
    exists new. repeat split; assumption.
  - intros p1 p2 c1 c2 a1 a2 u1 u2 s1 s2.
    assert (H : FrameFacts.zombie_same p1 p2
                  (Ast.visit_stmt ZombieOrbits.visitor node
                     (ZombieOrbits.set_current_context c1 s1))
                  (Ast.visit_stmt ZombieOrbits.visitor node
                     (ZombieOrbits.set_current_context c1 s2))).
    { rewrite !VisitorFacts.visit_stmt_unfold.
      cbn [node Ast.visit_FunctionDef ZombieOrbits.visitor].
      apply FrameFacts.zombie_FunctionDef_sim;
        [apply FrameFacts.zombie_generic_sim|].
      repeat split. exists []. now rewrite !app_nil_r. }
    destruct H as (_ & _ & new & P1 & P2).
    exists new. split; [exact P1|]. split; [|reflexivity].
    rewrite <- P2. rewrite !VisitorFacts.visit_stmt_unfold. reflexivity.
  - intros p1 p2 c1 c2 s1 s2.
    rewrite !VisitorFacts.visit_stmt_unfold.
    cbn [node Ast.visit_FunctionDef EvidenceVoids.visitor
         EvidenceVoids.visit_FunctionDef].
    destruct (FrameFacts.void_generic_sim p1 p2 node
                (EvidenceVoids.set_current_context
                   ("function:" ++ name)%string s1)
                (EvidenceVoids.set_current_context
                   ("function:" ++ name)%string s2))
      as (_ & _ & new & P1 & P2).
    { repeat split. exists []. now rewrite !app_nil_r. }
    exists new. repeat split; assumption.
Qed.

(** ** Zombie orbits: functions that return or act *)

Module ZombieMore.
Import Py Ast ZombieOrbits.

(** A [return] with a value somewhere among [nodes]. *)
Definition has_value_return (nodes : list node) : Prop :=
  exists value, In (NStmt (Return (Some value))) nodes.

(** A call of one of the six acting names, or an attribute store,
    somewhere among [nodes]. *)
Definition has_side_effect (nodes : list node) : Prop :=
  (exists lineno func args keywords name,
     In (NExpr (Call lineno func args keywords)) nodes
     /\ _get_call_name (Call lineno func args keywords) = Some name
     /\ In name ["print"; "log"; "write"; "append"; "update";
                 "delete"]%string)
  \/ (exists value attr, In (NExpr (Attribute value attr Store)) nodes).

Lemma str_in_In (x : string) (names : list string) :
  str_in x names = true <-> In x names.
Proof.
  unfold str_in. rewrite existsb_exists. split.
  - intros (y & Hy & E). apply String.eqb_eq in E. now subst.
  - intros H. exists x. split; [exact H | apply String.eqb_refl].
Qed.

Lemma has_meaningful_return_iff (node : stmt) :
  _has_meaningful_return node = true <-> has_value_return (walk_stmt node).
Proof.
  unfold _has_meaningful_return, has_value_return.
  rewrite existsb_exists. split.
  - intros (n & Hn & E). destruct n as [e|[]|h]; try discriminate.
    destruct value; try discriminate. eauto.
  - intros (v & Hv). eexists. split; [exact Hv | reflexivity].
Qed.

Lemma has_side_effects_iff (node : stmt) :
  _has_side_effects node = true <-> has_side_effect (walk_stmt node).
Proof.
  unfold _has_side_effects, has_side_effect.
  rewrite existsb_exists. split.
  - intros (n & Hn & E). destruct n as [e|s|h]; try discriminate.
    destruct e; try discriminate.
    + destruct ctx; try discriminate. right. eauto.
    + left. destruct (_get_call_name _) as [name|] eqn:Hname;
        [|discriminate].
      exists lineno, e, args, keywords, name.
      split; [exact Hn|]. split; [exact Hname|].
      apply str_in_In. exact E.
  - intros [(l & f & a & kw & name & Hin & Hname & Hlist)|(v & attr & Hin)].
    + eexists. split; [exact Hin|]. cbv beta iota. rewrite Hname.
      apply str_in_In. exact Hlist.
    + eexists. split; [exact Hin | reflexivity].
Qed.

End ZombieMore.

(** X10. A function is not reported as producing nothing when a return
    with a value, a call of print, log, write, append, update or delete, or
    an attribute store occurs anywhere below its definition, nested
    function definitions included: the visit then adds nothing for the
    function itself. *)
Theorem function_with_return_or_effect_not_flagged
  (self : ZombieOrbits.ZombieOrbitDetector) (lineno : Z) (name : string)
  (args : Ast.arguments) (body : list Ast.stmt)
  (decorator_list : list Ast.expr) (returns : option Ast.expr) :
  let node :=
    Ast.FunctionDef lineno name args body decorator_list returns in
  ZombieMore.has_value_return (Ast.walk_stmt node)
  \/ ZombieMore.has_side_effect (Ast.walk_stmt node) ->
  Ast.visit_stmt ZombieOrbits.visitor node self
  = ZombieOrbits.set_current_context (ZombieOrbits.current_context self)
      (Ast.generic_visit ZombieOrbits.visitor node
         (ZombieOrbits.set_current_context ("function:" ++ name)%string
            self)).
Proof.
  intros node H. rewrite VisitorFacts.visit_stmt_unfold.
  cbn [node Ast.visit_FunctionDef ZombieOrbits.visitor
       ZombieOrbits.visit_FunctionDef].
  fold node.
  destruct H as [H|H].
  - apply ZombieMore.has_meaningful_return_iff in H. rewrite H. reflexivity.
  - apply ZombieMore.has_side_effects_iff in H. rewrite H.
    now rewrite andb_false_r.
Qed.

(** A function whose only statement is a nested function that returns
    a value: neither function is reported. *)
Lemma function_with_return_or_effect_not_flagged_witness :
  let inner :=
    Ast.FunctionDef 2 "inner" (Ast.Arguments_ [] [])
      [Ast.Return (Some (Ast.Constant (Ast.CInt 1)))] [] None in
  let outer :=
    Ast.FunctionDef 1 "outer" (Ast.Arguments_ [] []) [inner] [] None in
  ZombieOrbits.zombies
    (Ast.visit_stmt ZombieOrbits.visitor outer (ZombieOrbits.init [])) = [].
Proof.
  intros inner outer.
  pose proof (function_with_return_or_effect_not_flagged
                (ZombieOrbits.init []) 1 "outer" (Ast.Arguments_ [] [])
                [inner] [] None) as H.
  cbv zeta in H. fold outer in H. rewrite H.
  - reflexivity.
  - left. exists (Ast.Constant (Ast.CInt 1)). cbn. auto.
Defined.

(** ** Evidence voids: swallowing and logging *)

Module VoidMore.
Import Py Ast EvidenceVoids.

Definition logging_names : list string :=
  ["log"; "debug"; "info"; "warning"; "error"; "critical"; "exception";
   "print"]%string.

(** A call of a logging name somewhere below the statements [body]. *)
Definition has_logging_call (body : list stmt) : Prop :=
  exists lineno func args keywords name,
    In (NExpr (Call lineno func args keywords)) (walk_body body)
    /\ _get_call_name (Call lineno func args keywords) = Some name
    /\ In name logging_names.

Lemma has_logging_iff (body : list stmt) :
  _has_logging body = true <-> has_logging_call body.
Proof.
  unfold _has_logging, has_logging_call.
  rewrite existsb_exists. split.
  - intros (n & Hn & E). destruct n as [e|s|h]; try discriminate.
    destruct e; try discriminate.
    destruct (_get_call_name _) as [name|] eqn:Hname; [|discriminate].
    exists lineno, e, args, keywords, name.
    split; [exact Hn|]. split; [exact Hname|].
    apply ZombieMore.str_in_In. exact E.
  - intros (l & f & a & kw & name & Hin & Hname & Hlist).
    eexists. split; [exact Hin|]. cbv beta iota. rewrite Hname.
    apply ZombieMore.str_in_In. exact Hlist.
Qed.

Lemma swallowed_has_no_logging (body : list stmt) :
  _is_swallowed body = true -> _has_logging body = false.
Proof.
  destruct body as [|[] [|]]; try discriminate; reflexivity.
Qed.

End VoidMore.

(** X11. A handler that is reported as swallowing its exception is also
    reported as lacking logging: its findings end with the
    swallowed-exception finding followed by the no-logging finding on the
    same line, after the bare-except finding if it has no type. *)
Theorem swallowed_handler_also_lacks_logging
  (self : EvidenceVoids.EvidenceVoidDetector) (h : Ast.excepthandler) :
  EvidenceVoids._is_swallowed (Ast.h_body h) = true ->
  EvidenceVoids._has_logging (Ast.h_body h) = false
  /\ EvidenceVoids.voids (EvidenceVoids.visit_Try_handler self h)
     = EvidenceVoids.voids self
       ++ match Ast.h_type h with
          | None => [VoidFacts.bare_except self (Ast.h_lineno h)]
          | Some _ => []
          end
       ++ [VoidFacts.swallowed self (Ast.h_lineno h);
           VoidFacts.no_logging self (Ast.h_lineno h)].
Proof.
  intros Hsw. pose proof (VoidMore.swallowed_has_no_logging _ Hsw) as Hlog.
  split; [exact Hlog|].
  unfold EvidenceVoids.visit_Try_handler. rewrite Hsw, Hlog.
  destruct (Ast.h_type h); cbn; now rewrite <- ?app_assoc.
Qed.

Lemma swallowed_handler_also_lacks_logging_witness :
  let self := EvidenceVoids.init [] in
  let h := Ast.ExceptHandler 3
             (Some (Ast.Name "KeyError" Ast.Load)) None [Ast.Break] in
  EvidenceVoids.voids (EvidenceVoids.visit_Try_handler self h)
  = [VoidFacts.swallowed self 3; VoidFacts.no_logging self 3].
Proof.
  intros self h.
  exact (proj2 (swallowed_handler_also_lacks_logging self h eq_refl)).
Defined.

(** X12. A handler that names an exception type and holds a call of log,
    debug, info, warning, error, critical, exception or print anywhere
    below its body, as a function or as a method, gets no finding at
    all. *)
Theorem typed_handler_with_logging_is_clean
  (self : EvidenceVoids.EvidenceVoidDetector) (h : Ast.excepthandler)
  (type_ : Ast.expr) :
  Ast.h_type h = Some type_ ->
  VoidMore.has_logging_call (Ast.h_body h) ->
  EvidenceVoids.visit_Try_handler self h = self.
Proof.
  intros Htype Hlog. apply VoidMore.has_logging_iff in Hlog.
  assert (Hsw : EvidenceVoids._is_swallowed (Ast.h_body h) = false).
  { destruct (EvidenceVoids._is_swallowed (Ast.h_body h)) eqn:E;
      [|reflexivity].
    apply VoidMore.swallowed_has_no_logging in E. congruence. }
  unfold EvidenceVoids.visit_Try_handler. now rewrite Htype, Hsw, Hlog.
Qed.

(** A handler [except OSError as e: logger.error(e)]. *)
Lemma typed_handler_with_logging_is_clean_witness :
  let self := EvidenceVoids.init [] in
  let call :=
    Ast.Call 4 (Ast.Attribute (Ast.Name "logger" Ast.Load) "error" Ast.Load)
      [Ast.Name "e" Ast.Load] [] in
  let h := Ast.ExceptHandler 3 (Some (Ast.Name "OSError" Ast.Load))
             (Some "e"%string) [Ast.Expr 4 call] in
  EvidenceVoids.visit_Try_handler self h = self.
Proof.
  intros self call h.
  apply (typed_handler_with_logging_is_clean self h
           (Ast.Name "OSError" Ast.Load) eq_refl).
  exists 4, (Ast.Attribute (Ast.Name "logger" Ast.Load) "error" Ast.Load),
    [Ast.Name "e" Ast.Load], [], "error"%string.
  split; [|split; [reflexivity|]]; cbn; auto 10.
Defined.

(** ** Code snippets, continued *)

Module SnippetMore.
Import Py.

Lemma split_nl_not_nil (s : string) : split_nl s <> [].
Proof.
  destruct s as [|c rest]; cbn; [discriminate|].
  destruct (Ascii.eqb c "010"); [discriminate|].
  destruct (split_nl rest); discriminate.
Qed.

Lemma concat_cons (sep x : string) (y : string) (l : list string) :
  String.concat sep (x :: y :: l)
  = (x ++ sep ++ String.concat sep (y :: l))%string.
Proof. reflexivity. Qed.

(** Joining the pieces of a split gives the text back. *)
Lemma join_split_nl (s : string) : join nl (split_nl s) = s.
Proof.
  unfold join. induction s as [|c rest IH]; [reflexivity|].
  cbn [split_nl]. destruct (Ascii.eqb_spec c "010") as [->|Hc].
  - pose proof (split_nl_not_nil rest) as Hne.
    destruct (split_nl rest) as [|y l]; [congruence|].
    rewrite concat_cons, IH. reflexivity.
  - pose proof (split_nl_not_nil rest) as Hne.
    destruct (split_nl rest) as [|y l]; [congruence|].
    destruct l as [|z l].
    + cbn in *. now rewrite IH.
    + rewrite concat_cons. rewrite concat_cons in IH.
      cbn [String.append]. now rewrite IH.
Qed.

Lemma slice_all {A} (l : list A) : slice l 0 (len l) = l.
Proof.
  rewrite SnippetFacts.slice_nonneg by (unfold len; lia).
  unfold len. cbn [Z.to_nat skipn].
  rewrite Nat2Z.id, Nat.sub_0_r. apply firstn_all.
Qed.

End SnippetMore.

(** X13. For a line number [L] from 1 on, the snippet is made of at most
    four lines of the file; it holds line [L] itself whenever the file has
    such a line, and it is empty, with no error, when [L] lies two or more
    lines past the end of the file. *)
Theorem snippet_holds_the_line (lines : list string) (L : Z) :
  1 <= L ->
  let window :=
    Py.slice lines (Z.max 0 (L - 2)) (Z.min (Py.len lines) (L + 2)) in
  PhantomLoops._get_code_snippet (PhantomLoops.init lines) L
    = Py.join Py.nl window
  /\ ZombieOrbits._get_code_snippet (ZombieOrbits.init lines) L
     = Py.join Py.nl window
  /\ EvidenceVoids._get_code_snippet (EvidenceVoids.init lines) L
     = Py.join Py.nl window
  /\ (length window <= 4)%nat
  /\ (L <= Py.len lines ->
      In (nth (Z.to_nat (L - 1)) lines EmptyString) window)
  /\ (Py.len lines + 2 <= L -> window = []).
Proof.
  intros HL window.
  split; [reflexivity|]. split; [reflexivity|]. split; [reflexivity|].
  assert (W : window
              = firstn (Z.to_nat (Z.min (Py.len lines) (L + 2))
                        - Z.to_nat (Z.max 0 (L - 2)))
                  (skipn (Z.to_nat (Z.max 0 (L - 2))) lines)).
  { unfold window. apply SnippetFacts.slice_nonneg; unfold Py.len; lia. }
  unfold Py.len in *. split; [|split].
  - rewrite W, length_firstn. lia.
  - intros Hn. rewrite W.
    set (a := Z.to_nat (Z.max 0 (L - 2))).
    set (k := (Z.to_nat (Z.min (Z.of_nat (length lines)) (L + 2)) - a)%nat).
    replace (Z.to_nat (L - 1)) with (a + (Z.to_nat (L - 1) - a))%nat
      by (unfold a; lia).
    rewrite <- nth_skipn.
    set (i := (Z.to_nat (L - 1) - a)%nat).
    set (rest := skipn a lines).
    assert (Hi : (i < k)%nat) by (unfold i, k, a; lia).
    assert (Hlen : (i < length rest)%nat)
      by (unfold rest; rewrite length_skipn; unfold i, a; lia).
    replace (nth i rest EmptyString)
      with (nth i (firstn k rest) EmptyString).
    2: { rewrite nth_firstn.
         destruct (Nat.ltb_spec i k); [reflexivity | lia]. }
    apply nth_In. rewrite length_firstn. lia.
  - intros Hn. rewrite W.
    rewrite skipn_all2 by lia. apply firstn_nil.
Qed.

Lemma snippet_holds_the_line_witness :
  In "break"%string
    (Py.slice ["while True:"; "break"; "x = 1"]%string
       (Z.max 0 (2 - 2)) (Z.min 3 (2 + 2))).
Proof.
  pose proof (snippet_holds_the_line
                ["while True:"; "break"; "x = 1"]%string 2 ltac:(lia)) as H.
  cbv zeta in H. destruct H as (_ & _ & _ & _ & H & _).
  apply H. cbn. lia.
Defined.

(** X14. Splitting a text at its newlines and joining the pieces gives
    the text back; so when the file ends at most two lines after line [L]
    and [L] is 1 or 2, the snippet of line [L] is the whole source text. *)
Theorem snippet_of_a_short_file_is_the_file (source_code : string) (L : Z) :
  1 <= L <= 2 ->
  Py.len (Py.split_nl source_code) <= L + 2 ->
  Py.join Py.nl (Py.split_nl source_code) = source_code
  /\ PhantomLoops._get_code_snippet
       (PhantomLoops.init (Py.split_nl source_code)) L = source_code
  /\ ZombieOrbits._get_code_snippet
       (ZombieOrbits.init (Py.split_nl source_code)) L = source_code
  /\ EvidenceVoids._get_code_snippet
       (EvidenceVoids.init (Py.split_nl source_code)) L = source_code.
Proof.
  intros HL Hn.
  assert (H : Py.join Py.nl
                (Py.slice (Py.split_nl source_code) (Z.max 0 (L - 2))
                   (Z.min (Py.len (Py.split_nl source_code)) (L + 2)))
              = source_code).
  { rewrite Z.max_l by lia. rewrite Z.min_l by lia.
    rewrite SnippetMore.slice_all. apply SnippetMore.join_split_nl. }
  split; [apply SnippetMore.join_split_nl|].
  split; [exact H|]. split; exact H.
Qed.

Lemma snippet_of_a_short_file_is_the_file_witness :
  let source_code := ("while True:" ++ Py.nl ++ "    break")%string in
  PhantomLoops._get_code_snippet
    (PhantomLoops.init (Py.split_nl source_code)) 1 = source_code.
Proof.
  intros source_code.
  refine (proj1 (proj2 (snippet_of_a_short_file_is_the_file source_code 1
                          _ _))).
  - lia.
  - vm_compute. discriminate.
Defined.

(** ** Scores of what the detectors return *)

Module ScoreBounds.
Import Py Ast ScoreFacts.

Definition high_or_medium (severity : string) : Prop :=
  severity = "HIGH"%string \/ severity = "MEDIUM"%string.

Lemma weight_sum_between {A} (severity : A -> string) (F : list A) :
  Forall (fun x => high_or_medium (severity x)) F ->
  2 * len F <= weight_sum (fun x => severity_weight (severity x)) F
            <= 3 * len F.
Proof.
  unfold len. induction 1 as [|x F Hx _ IH]; [cbn; lia|].
  cbn [weight_sum fold_right length]. unfold weight_sum in IH.
  rewrite Nat2Z.inj_succ.
  destruct Hx as [-> | ->];
    [change (severity_weight "HIGH") with 3
    |change (severity_weight "MEDIUM") with 2]; lia.
Qed.

Lemma capped_between {A} (severity : A -> string) (score : list A -> Z)
  (F : list A) :
  capped_score severity score ->
  Forall (fun x => high_or_medium (severity x)) F ->
  2 * Z.min 5 (len F) <= score F <= Z.min 10 (3 * len F).
Proof.
  intros H HF. rewrite (score_sum _ _ H).
  pose proof (weight_sum_between severity F HF). lia.
Qed.

Lemma phantom_severities ast_parse source_code findings :
  PhantomLoops.detect_phantom_loops ast_parse source_code
    = Returns findings ->
  Forall (fun f => high_or_medium (PhantomLoops.severity f)) findings.
Proof.
  intros Hdetect. unfold PhantomLoops.detect_phantom_loops in Hdetect.
  destruct (ast_parse source_code) as [tree|e].
  - injection Hdetect as <-.
    destruct (WfFacts.phantom_visit_grows tree
                (PhantomLoops.init (split_nl source_code)))
      as (_ & _ & new & P & F).
    rewrite P. cbn [PhantomLoops.phantoms PhantomLoops.init app].
    specialize (F (or_introl eq_refl)).
    revert F. apply Forall_impl.
    intros f ((l & b & o & _ & _ & _ & ->) & _).
    destruct (PhantomLoops.phantom_type f); cbn; unfold high_or_medium; auto.
  - destruct e; try discriminate. injection Hdetect as <-. constructor.
Qed.

Lemma zombie_severities ast_parse source_code findings :
  ZombieOrbits.detect_zombie_orbits ast_parse source_code
    = Returns findings ->
  Forall (fun f => high_or_medium (ZombieOrbits.severity f)) findings.
Proof.
  intros Hdetect. unfold ZombieOrbits.detect_zombie_orbits in Hdetect.
  destruct (ast_parse source_code) as [tree|e].
  - injection Hdetect as <-.
    destruct (WfFacts.zombie_visit_grows tree
                (ZombieOrbits.init (split_nl source_code)))
      as (_ & _ & new & P & F).
    rewrite P. cbn [ZombieOrbits.zombies ZombieOrbits.init app].
    specialize (F (or_introl eq_refl)).
    revert F. apply Forall_impl. intros f (Ho & _).
    unfold WfFacts.zombie_origin in Ho.
    destruct (ZombieOrbits.zombie_type f);
      destruct Ho as [-> _] || destruct Ho; unfold high_or_medium; auto.
  - destruct e; try discriminate. injection Hdetect as <-. constructor.
Qed.

Lemma void_severities ast_parse source_code findings :
  EvidenceVoids.detect_evidence_voids ast_parse source_code
    = Returns findings ->
  Forall (fun f => high_or_medium (EvidenceVoids.severity f)) findings.
Proof.
  intros Hdetect. unfold EvidenceVoids.detect_evidence_voids in Hdetect.
  destruct (ast_parse source_code) as [tree|e].
  - injection Hdetect as <-.
    destruct (WfFacts.void_visit_grows tree
                (EvidenceVoids.init (split_nl source_code)))
      as (_ & _ & new & P & F).
    rewrite P. cbn [EvidenceVoids.voids EvidenceVoids.init app].
    specialize (F (or_introl eq_refl)).
    revert F. apply Forall_impl. intros f (Ho & _).
    unfold WfFacts.void_origin in Ho.
    destruct (EvidenceVoids.void_type f);
      destruct Ho as [-> _] || destruct Ho; unfold high_or_medium; auto.
  - destruct e; try discriminate. injection Hdetect as <-. constructor.
Qed.

End ScoreBounds.

(** X15. The findings a detector returns are all of severity HIGH or
    MEDIUM, so their score lies between twice the number of findings
    (counting at most five) and three times that number (at most 10.0):
    any finding scores at least 2.0, and five findings or more score
    exactly 10.0. *)
Theorem detector_output_score_bounds
  (ast_parse : string -> Py.result Ast.module_) (source_code : string)
  (phantoms : list PhantomLoops.PhantomLoop)
  (zombies : list ZombieOrbits.ZombieOrbit)
  (voids : list EvidenceVoids.EvidenceVoid) :
  PhantomLoops.detect_phantom_loops ast_parse source_code
    = Py.Returns phantoms ->
  ZombieOrbits.detect_zombie_orbits ast_parse source_code
    = Py.Returns zombies ->
  EvidenceVoids.detect_evidence_voids ast_parse source_code
    = Py.Returns voids ->
  (2 * Z.min 5 (Py.len phantoms)
     <= PhantomLoops.calculate_phantom_score phantoms
     <= Z.min 10 (3 * Py.len phantoms))
  /\ (2 * Z.min 5 (Py.len zombies)
        <= ZombieOrbits.calculate_zombie_score zombies
        <= Z.min 10 (3 * Py.len zombies))
  /\ (2 * Z.min 5 (Py.len voids)
        <= EvidenceVoids.calculate_void_score voids
        <= Z.min 10 (3 * Py.len voids)).
Proof.
  intros Hp Hz Hv.
  pose proof (ScoreMore.for_each_capped_score
                (fun A severity score =>
                   forall F : list A,
                     Forall (fun x =>
                               ScoreBounds.high_or_medium (severity x)) F ->
                     2 * Z.min 5 (Py.len F) <= score F
                       <= Z.min 10 (3 * Py.len F))
                (fun A severity score H F =>
                   ScoreBounds.capped_between severity score F H))
    as (Bp & Bz & Bv).
  split; [|split].
  - apply Bp. eapply ScoreBounds.phantom_severities, Hp.
  - apply Bz. eapply ScoreBounds.zombie_severities, Hz.
  - apply Bv. eapply ScoreBounds.void_severities, Hv.
Qed.

(** A file with a [while True: break]. *)
Lemma detector_output_score_bounds_witness :
  let tree := Ast.Module_ [PhantomFacts.while_true 1 [Ast.Break] []] in
  let ast_parse := fun _ : string => Py.Returns tree in
  let source_code := ("while True:" ++ Py.nl ++ "    break")%string in
  exists phantoms,
    PhantomLoops.detect_phantom_loops ast_parse source_code
      = Py.Returns phantoms
    /\ 2 * Z.min 5 (Py.len phantoms)
       <= PhantomLoops.calculate_phantom_score phantoms
       <= Z.min 10 (3 * Py.len phantoms).
Proof.
  intros tree ast_parse source_code.
  eexists. split; [reflexivity|].
  exact (proj1 (detector_output_score_bounds ast_parse source_code _ _ _
                  eq_refl eq_refl eq_refl)).
Defined.

(** ** The scanner, continued *)

Module ScannerMore.
Import Py Ast Scanner.

(** The number of lines of one section of the text report. *)
Definition section_len (count : Z) : Z :=
  if count >? 0 then 3 + 4 * Z.min 5 count else 0.

Lemma len_app {A} (a b : list A) : len (a ++ b) = len a + len b.
Proof. unfold len. rewrite length_app. lia. Qed.

Lemma len_flat_map_four {F A} (lines_of : F -> list A) (l : list F) :
  (forall f, len (lines_of f) = 4) ->
  len (flat_map lines_of l) = 4 * len l.
Proof.
  intros H. induction l as [|f l IH]; [reflexivity|].
  cbn [flat_map]. rewrite len_app, H, IH. unfold len. cbn [length]. lia.
Qed.

Lemma len_text_section {F} (title : string) (lines_of : F -> list string)
  (d : DetectorResult F) :
  (forall f, len (lines_of f) = 4) ->
  count d = len (findings d) ->
  len (text_section title lines_of (Some d)) = section_len (count d).
Proof.
  intros Hlines Hcount. unfold text_section, section_len.
  destruct (count d >? 0); [|reflexivity].
  rewrite len_app, len_flat_map_four by exact Hlines.
  rewrite ScannerFacts.len_slice_first_five, <- Hcount. reflexivity.
Qed.

Lemma capped_facts {A} (severity : A -> string) (score : list A -> Z) :
  ScoreFacts.capped_score severity score ->
  forall F, 0 <= score F <= 10 /\ (score F = 0 <-> len F = 0).
Proof.
  intros H F. split; [apply (ScoreFacts.score_range _ _ H)|].
  rewrite (ScoreFacts.score_sum _ _ H).
  pose proof (ScoreMore.weight_sum_at_least_length severity F) as Hlen.
  unfold len. destruct F as [|x F]; [split; reflexivity|].
  cbn [length] in *. lia.
Qed.

Section More.
Variable ast_parse : string -> result module_.
Variable MagicValue : Type.
Variable str_value : MagicValue -> string.
Variable GravityType : Type.
Variable GravityType_value : GravityType -> string.
Variable detect_magic_gravity :
  string -> result (list (MagicConstant MagicValue GravityType)).
Variable json_dumps : json MagicValue -> string.

#[local] Abbreviation MagicConstant := (MagicConstant MagicValue GravityType).
#[local] Abbreviation Results := (Results MagicValue GravityType).
#[local] Abbreviation ScannerObject :=
  (DarkMatterScanner MagicValue GravityType).
#[local] Abbreviation World := (World MagicValue GravityType).
#[local] Abbreviation scan_all :=
  (scan_all ast_parse MagicValue GravityType detect_magic_gravity).
#[local] Abbreviation json_results :=
  (json_results MagicValue GravityType GravityType_value).
#[local] Abbreviation text_report_lines :=
  (text_report_lines MagicValue str_value GravityType GravityType_value).
#[local] Abbreviation generate_report :=
  (generate_report MagicValue str_value GravityType GravityType_value
     json_dumps).
#[local] Abbreviation dark_mass_score :=
  (calculate_dark_mass_score MagicValue GravityType).

Lemma dark_mass_score_capped :
  ScoreFacts.capped_score (@severity MagicValue GravityType) dark_mass_score.
Proof.
  apply ScoreFacts.capped_score_intro. intros F.
  destruct F as [|x F]; [reflexivity|].
  unfold calculate_dark_mass_score, PhantomLoops.sum.
  f_equal. f_equal. apply map_ext. intros a. symmetry.
  apply ScoreMore.severity_weight_is_weights_get.
Qed.

(** The entry of a detector that found nothing. *)
Definition nothing {F} : DetectorResult F :=
  {| findings := []; score := 0; count := 0 |}.

(** X16. When the parser rejects the source text and no magic constant
    is found, the scan still returns: every detector's entry is empty
    with score 0.0, the totals are 0.0 and 0, and the text report is its
    fourteen fixed lines, with no section and no finding. *)
Theorem unparseable_source_gives_empty_report (w : World) :
  ast_parse (source_code (self_ w)) = Raises SyntaxError ->
  detect_magic_gravity (source_code (self_ w)) = Returns [] ->
  exists w',
    scan_all w = (Returns (results (self_ w')), w')
    /\ results (self_ w')
       = {| magic_gravity := Some nothing;
            phantom_loops := Some nothing;
            zombie_orbits := Some nothing;
            evidence_voids := Some nothing;
            summary := Some {| total_score := 0; total_findings := 0;
                               summary_filepath := filepath (self_ w) |} |}
    /\ len (text_report_lines (self_ w')) = 14
    /\ findings_shown (text_report_lines (self_ w')) = 0.
Proof.
  destruct w as [[src fp r] out]. cbn [self_ source_code filepath].
  intros Hparse Hmagic.
  unfold Scanner.scan_all.
  cbv [bind get_self print call set_results ret self_ stdout source_code
       filepath results].
  unfold PhantomLoops.detect_phantom_loops,
    ZombieOrbits.detect_zombie_orbits, EvidenceVoids.detect_evidence_voids.
  rewrite Hmagic, Hparse.
  match goal with
  | |- exists w', (_, ?w0) = _ /\ _ => exists w0
  end.
  split; [reflexivity|]. cbn [self_ results].
  split; [reflexivity|]. split; reflexivity.
Qed.

(** X17. The structured report needs the entries of the four detectors:
    it raises KeyError as soon as one is missing, a missing summary being
    rendered as an empty dict; the text report never raises, and on a
    scanner that has not scanned yet it names the file "unknown", whatever
    path the scanner was given. *)
Theorem structured_report_needs_every_detector
  (self : ScannerObject) (source_code filepath : string) :
  match magic_gravity (results self), phantom_loops (results self),
        zombie_orbits (results self), evidence_voids (results self) with
  | Some _, Some _, Some _, Some _ =>
      exists j, json_results self = Returns j
                /\ generate_report self "json" = Returns (json_dumps j)
                /\ (summary (results self) = None ->
                    json_get "summary" j = Some (JDict []))
  | _, _, _, _ =>
      json_results self = Raises KeyError
      /\ generate_report self "json" = Raises KeyError
  end
  /\ generate_report self "text"
     = Returns (join nl (text_report_lines self))
  /\ generate_report (init MagicValue GravityType source_code filepath)
       "json" = Raises KeyError
  /\ nth 3 (text_report_lines
              (init MagicValue GravityType source_code filepath))
       EmptyString
     = (nl ++ "File: unknown")%string.
Proof.
  split; [|split; [reflexivity | split; reflexivity]].
  unfold Scanner.generate_report, Scanner._generate_json_report,
    Scanner.json_results.
  cbn [String.eqb Ascii.eqb Bool.eqb].
  destruct (magic_gravity (results self)),
    (phantom_loops (results self)), (zombie_orbits (results self)),
    (evidence_voids (results self)); cbn; try (split; reflexivity).
  eexists. split; [reflexivity|]. split; [reflexivity|].
  intros ->. reflexivity.
Qed.


(** X19. After a scan the summary holds the sum of the four scores,
    which lies between 0.0 and 40.0, and the sum of the four counts; the
    total score is 0.0 exactly when there is no finding at all; the file
    name is the scanner's. *)
Theorem summary_totals (w w' : World) (res : Results) :
  scan_all w = (Returns res, w') ->
  exists sm dm dp dz dv,
    summary res = Some sm
    /\ magic_gravity res = Some dm
    /\ phantom_loops res = Some dp
    /\ zombie_orbits res = Some dz
    /\ evidence_voids res = Some dv
    /\ total_score sm = score dm + score dp + score dz + score dv
    /\ 0 <= total_score sm <= 40
    /\ total_findings sm = count dm + count dp + count dz + count dv
    /\ (total_score sm = 0 <-> total_findings sm = 0)
    /\ summary_filepath sm = filepath (self_ w).
Proof.
  intros Hscan. apply ScannerFacts.scan_all_returns in Hscan.
  destruct Hscan as (m & p & z & v & _ & _ & _ & _ & -> & _).
  do 5 eexists. repeat (split; [reflexivity|]).
  cbn [total_score total_findings summary_filepath score count].
  pose proof (capped_facts _ _ dark_mass_score_capped m) as (Rm & Zm).
  pose proof (ScoreMore.for_each_capped_score
                (fun A severity score =>
                   forall F : list A,
                     0 <= score F <= 10 /\ (score F = 0 <-> len F = 0))
                (fun A severity score H => capped_facts severity score H))
    as (Bp & Bz & Bv).
  destruct (Bp p) as (Rp & Zp). destruct (Bz z) as (Rz & Zz).
  destruct (Bv v) as (Rv & Zv).
  assert (0 <= len m /\ 0 <= len p /\ 0 <= len z /\ 0 <= len v)
    by (unfold len; lia).
  repeat split; try reflexivity; lia.
Qed.

(** X20. After a scan the text report has fourteen fixed lines and, for
    each detector that found something, three heading lines and four
    lines for each of its first five findings; a detector that found
    nothing has no section. *)
Theorem text_report_layout (w w' : World) (res : Results) :
  scan_all w = (Returns res, w') ->
  exists dm dp dz dv,
    magic_gravity res = Some dm
    /\ phantom_loops res = Some dp
    /\ zombie_orbits res = Some dz
    /\ evidence_voids res = Some dv
    /\ len (text_report_lines (self_ w'))
       = 14 + section_len (count dm) + section_len (count dp)
         + section_len (count dz) + section_len (count dv)
    /\ section_len 0 = 0.
Proof.
  intros Hscan. apply ScannerFacts.scan_all_returns in Hscan.
  destruct Hscan as (m & p & z & v & _ & _ & _ & _ & -> & Hself).
  rewrite Hself. clear Hself.
  do 4 eexists. repeat (split; [reflexivity|]).
  split; [|reflexivity].
  unfold Scanner.text_report_lines.
  cbn [results summary magic_gravity phantom_loops zombie_orbits
       evidence_voids ScannerFacts.scan_results].
  rewrite !len_app.
  rewrite !len_text_section by (reflexivity || (intros; reflexivity)).
  cbn [count]. unfold len. cbn [length]. lia.
Qed.

End More.

Lemma unparseable_source_gives_empty_report_witness :
  exists w',
    Scanner.scan_all (fun _ => Raises SyntaxError) Z unit
      ScannerFacts.example_magic ScannerFacts.example_world
    = (Returns (results (self_ w')), w')
    /\ len (Scanner.text_report_lines Z str_int unit
              (fun _ => "numeric"%string) (self_ w')) = 14.
Proof.
  destruct (unparseable_source_gives_empty_report
              (fun _ => Raises SyntaxError) Z str_int unit
              (fun _ => "numeric"%string) ScannerFacts.example_magic
              ScannerFacts.example_world eq_refl eq_refl)
    as (w' & H1 & _ & H3 & _).
  exists w'. split; [exact H1 | exact H3].
Defined.


Lemma summary_totals_witness :
  exists sm,
    summary ScannerFacts.example_results = Some sm
    /\ 0 <= total_score sm <= 40.
Proof.
  destruct (summary_totals ScannerFacts.example_parse Z unit
              ScannerFacts.example_magic
              ScannerFacts.example_world ScannerFacts.example_world'
              ScannerFacts.example_results ScannerFacts.example_scan_returns)
    as (sm & dm & dp & dz & dv & H1 & _ & _ & _ & _ & _ & H & _).
  exists sm. split; [exact H1 | exact H].
Defined.

Lemma text_report_layout_witness :
  exists dm dp dz dv,
    magic_gravity ScannerFacts.example_results = Some dm
    /\ phantom_loops ScannerFacts.example_results = Some dp
    /\ zombie_orbits ScannerFacts.example_results = Some dz
    /\ evidence_voids ScannerFacts.example_results = Some dv
    /\ len (Scanner.text_report_lines Z str_int unit
              (fun _ => "numeric"%string)
              (self_ ScannerFacts.example_world'))
       = 14 + section_len (count dm) + section_len (count dp)
         + section_len (count dz) + section_len (count dv).
Proof.
  destruct (text_report_layout ScannerFacts.example_parse Z str_int unit
              (fun _ => "numeric"%string) ScannerFacts.example_magic
              ScannerFacts.example_world ScannerFacts.example_world'
              ScannerFacts.example_results ScannerFacts.example_scan_returns)
    as (dm & dp & dz & dv & H1 & H2 & H3 & H4 & H5 & _).
  exists dm, dp, dz, dv. repeat split; assumption.
Defined.

End ScannerMore.

(** ** The visitor: every node is reached *)

Module ReachFacts.
Import Py Ast.

Section Reach.
Context {S : Type} (V : NodeVisitor S).

(** A relation every visit respects, as in [VisitorFacts]. *)
Variable R : S -> S -> Prop.
Hypothesis R_refl : forall s, R s s.
Hypothesis R_trans : forall s1 s2 s3, R s1 s2 -> R s2 s3 -> R s1 s3.
Hypothesis Call_ok : forall e k,
  (forall s, R s (k s)) -> forall s, R s (visit_Call V e k s).
Hypothesis FunctionDef_ok : forall node k,
  (forall s, R s (k s)) -> forall s, R s (visit_FunctionDef V node k s).
Hypothesis For_ok : forall node k,
  (forall s, R s (k s)) -> forall s, R s (visit_For V node k s).
Hypothesis While_ok : forall node k,
  (forall s, R s (k s)) -> forall s, R s (visit_While V node k s).
Hypothesis Try_ok : forall node k,
  (forall s, R s (k s)) -> forall s, R s (visit_Try V node k s).
Hypothesis Expr_ok : forall node k,
  (forall s, R s (k s)) -> forall s, R s (visit_Expr V node k s).

(** What the visit of the node [target] leaves in the detector, which
    later visits keep and which each method passes on from the generic
    visit it is handed. *)
Variable E : S -> Prop.
Hypothesis E_mono : forall s s', R s s' -> E s -> E s'.
Variable target : node.
Hypothesis not_handler : forall h, target <> NHandler h.
Hypothesis own_stmt : forall st,
  target = NStmt st -> forall s, E (visit_stmt V st s).
Hypothesis own_expr : forall e,
  target = NExpr e -> forall s, E (visit_expr V e s).
Hypothesis Call_pass : forall e k,
  (forall s, E (k s)) -> forall s, E (visit_Call V e k s).
Hypothesis FunctionDef_pass : forall node k,
  (forall s, E (k s)) -> forall s, E (visit_FunctionDef V node k s).
Hypothesis For_pass : forall node k,
  (forall s, E (k s)) -> forall s, E (visit_For V node k s).
Hypothesis While_pass : forall node k,
  (forall s, E (k s)) -> forall s, E (visit_While V node k s).
Hypothesis Try_pass : forall node k,
  (forall s, E (k s)) -> forall s, E (visit_Try V node k s).
Hypothesis Expr_pass : forall node k,
  (forall s, E (k s)) -> forall s, E (visit_Expr V node k s).

Lemma grow_exprs (l : list expr) (s : S) : R s (visit_exprs V l s).
Proof.
  apply (VisitorFacts.visit_exprs_rel V R R_refl R_trans Call_ok l s s), R_refl.
Qed.

Lemma grow_body (l : list stmt) (s : S) : R s (visit_body V l s).
Proof.
  apply (VisitorFacts.visit_rel V R R_refl R_trans Call_ok (fun _ => True)
           (fun n k _ => FunctionDef_ok n k) (fun n k _ => For_ok n k)
           (fun n k _ => While_ok n k) (fun n k _ => Try_ok n k)
           (fun n k _ => Expr_ok n k) (Module_ l)).
  intros n _. exact I.
Qed.

Lemma grow_handlers (hs : list excepthandler) (s : S) :
  R s (fold_left (fun self h => visit_handler V h self) hs s).
Proof.
  exact (VisitorFacts.generic_visit_below V R R_refl R_trans Call_ok
           (fun _ => True)
           (fun n k _ => FunctionDef_ok n k) (fun n k _ => For_ok n k)
           (fun n k _ => While_ok n k) (fun n k _ => Try_ok n k)
           (fun n k _ => Expr_ok n k) (Try [] hs [] [])
           (fun _ _ => I) s).
Qed.

Lemma grow_generic (st : stmt) (s : S) : R s (generic_visit V st s).
Proof.
  exact (VisitorFacts.generic_visit_below V R R_refl R_trans Call_ok
           (fun _ => True)
           (fun n k _ => FunctionDef_ok n k) (fun n k _ => For_ok n k)
           (fun n k _ => While_ok n k) (fun n k _ => Try_ok n k)
           (fun n k _ => Expr_ok n k) st (fun _ _ => I) s).
Qed.

(** *** Expressions *)

Definition reaches_expr (e : expr) : Prop :=
  In target (map NExpr (walk_expr e)) -> forall s, E (visit_expr V e s).

Lemma reach_expr_list (l : list expr) :
  list_all expr reaches_expr l ->
  In target (walk_exprs l) -> forall s, E (visit_exprs V l s).
Proof.
  unfold walk_exprs.
  induction 1 as [|e He l _ IH]; intros Hin s.
  - destruct Hin.
  - cbn [flat_map] in Hin. rewrite map_app in Hin.
    change (visit_exprs V (e :: l) s)
      with (visit_exprs V l (visit_expr V e s)).
    apply in_app_or in Hin. destruct Hin as [Hin|Hin].
    + eapply E_mono; [apply grow_exprs | apply He, Hin].
    + apply IH, Hin.
Qed.

Lemma keywords_visit (kws : list (option string * expr)) (s : S) :
  fold_left (fun self kw => visit_expr V (snd kw) self) kws s
  = visit_exprs V (map snd kws) s.
Proof.
  revert s. induction kws as [|kw kws IH]; intros s; [reflexivity|].
  cbn [fold_left map]. rewrite IH. reflexivity.
Qed.

(** The generic visit of a call: the callee, the arguments, the
    keywords. *)
Lemma grow_call_children (f : expr) (args : list expr)
  (kws : list (option string * expr)) (s : S) :
  R s (fold_left (fun self kw => visit_expr V (snd kw) self) kws
         (fold_left (fun self a => visit_expr V a self) args
            (visit_expr V f s))).
Proof.
  rewrite keywords_visit.
  eapply R_trans; [|apply grow_exprs].
  eapply R_trans; [|apply (grow_exprs args)].
  apply (grow_exprs [f]).
Qed.

Lemma keywords_walk (kws : list (option string * expr)) :
  flat_map (fun kw => walk_expr (snd kw)) kws
  = flat_map walk_expr (map snd kws).
Proof.
  induction kws as [|kw kws IH]; [reflexivity|].
  cbn [flat_map map]. now rewrite IH.
Qed.

Lemma keywords_all (kws : list (option string * expr)) :
  list_all (option string * expr)
    (prod_all (option string) (fun _ => unit) expr reaches_expr) kws ->
  list_all expr reaches_expr (map snd kws).
Proof.
  induction 1 as [|kw H kws _ IH]; [constructor|].
  destruct H as [k _ v Hv]. constructor; assumption.
Qed.

Lemma reach_expr (e : expr) : reaches_expr e.
Proof.
  induction e as [c | id ctx | v IHv attr ctx | l f IHf args IHargs kws IHkws
                 | a IHa op b IHb | a IHa ops cs IHcs];
    intros Hin s;
    (destruct Hin as [Hin|Hin];
     [apply own_expr; symmetry; exact Hin|]).
  - destruct Hin.
  - destruct Hin.
  - apply IHv, Hin.
  - cbn [visit_expr]. apply Call_pass. clear s. intros s.
    rewrite keywords_visit.
    change (fold_left (fun self a => visit_expr V a self) args
              (visit_expr V f s))
      with (visit_exprs V args (visit_expr V f s)).
    rewrite !map_app, keywords_walk in Hin.
    apply in_app_or in Hin. destruct Hin as [Hin|Hin].
    { eapply E_mono; [apply grow_exprs|].
      eapply E_mono; [apply grow_exprs|]. apply IHf, Hin. }
    apply in_app_or in Hin. destruct Hin as [Hin|Hin].
    { eapply E_mono; [apply grow_exprs|].
      apply reach_expr_list; assumption. }
    apply reach_expr_list; [apply keywords_all, IHkws | exact Hin].
  - cbn [visit_expr]. rewrite map_app in Hin.
    apply in_app_or in Hin. destruct Hin as [Hin|Hin].
    + change (visit_expr V b (visit_expr V a s))
        with (visit_exprs V [b] (visit_expr V a s)).
      eapply E_mono; [apply grow_exprs | apply IHa, Hin].
    + apply IHb, Hin.
  - cbn [visit_expr]. rewrite map_app in Hin.
    change (fold_left (fun self c => visit_expr V c self) cs
              (visit_expr V a s))
      with (visit_exprs V cs (visit_expr V a s)).
    apply in_app_or in Hin. destruct Hin as [Hin|Hin].
    + eapply E_mono; [apply grow_exprs | apply IHa, Hin].
    + apply reach_expr_list; assumption.
Qed.

Lemma reach_exprs (l : list expr) :
  In target (walk_exprs l) -> forall s, E (visit_exprs V l s).
Proof.
  apply reach_expr_list. induction l; constructor;
    [apply reach_expr | assumption].
Qed.

Lemma reach_arguments (a : arguments) :
  In target (walk_arguments a) -> forall s, E (visit_arguments V a s).
Proof.
  unfold walk_arguments, visit_arguments. intros Hin s.
  apply in_app_or in Hin. destruct Hin as [Hin|Hin].
  - eapply E_mono; [apply grow_exprs | apply reach_exprs, Hin].
  - apply reach_exprs, Hin.
Qed.

(** *** Statements *)

Definition reaches (st : stmt) : Prop :=
  In target (walk_stmt st) -> forall s, E (visit_stmt V st s).

Lemma reach_body (l : list stmt) :
  list_all stmt reaches l ->
  In target (walk_body l) -> forall s, E (visit_body V l s).
Proof.
  induction 1 as [|st Hst l _ IH]; intros Hin s.
  - destruct Hin.
  - change (walk_body (st :: l)) with (walk_stmt st ++ walk_body l) in Hin.
    rewrite VisitorFacts.visit_body_cons.
    apply in_app_or in Hin. destruct Hin as [Hin|Hin].
    + eapply E_mono; [apply grow_body | apply Hst, Hin].
    + apply IH, Hin.
Qed.

Lemma reach_handlers (hs : list excepthandler) :
  list_all excepthandler (excepthandler__all stmt reaches) hs ->
  In target
    (flat_map (fun h => NHandler h :: walk_exprs (opt_list (h_type h))
                          ++ walk_body (h_body h)) hs) ->
  forall s, E (fold_left (fun self h => visit_handler V h self) hs s).
Proof.
  induction 1 as [|h Hh hs _ IH]; intros Hin s.
  - destruct Hin.
  - cbn [flat_map fold_left] in *.
    apply in_app_or in Hin. destruct Hin as [Hin|Hin].
    + eapply E_mono; [apply grow_handlers|].
      destruct Hin as [Hin|Hin];
        [symmetry in Hin; destruct (not_handler _ Hin)|].
      unfold visit_handler, visit_opt_expr.
      destruct Hh as [l t n b Hb]. cbn [h_type h_body] in *.
      apply in_app_or in Hin. destruct Hin as [Hin|Hin].
      * eapply E_mono; [apply grow_body | apply reach_exprs, Hin].
      * apply reach_body; assumption.
    + apply IH, Hin.
Qed.

Ltac split_in H := apply in_app_or in H; destruct H as [H|H].

Ltac later :=
  eapply E_mono;
  [first [apply grow_body | apply grow_exprs | apply grow_handlers]|].

Ltac here :=
  first [ apply reach_body; assumption
        | apply reach_exprs; assumption
        | apply reach_arguments; assumption
        | apply reach_handlers; assumption ].

Lemma reach_generic (st : stmt) :
  (match st with
   | FunctionDef _ _ _ body _ _ => list_all stmt reaches body
   | For _ _ _ body orelse | While _ _ body orelse | If _ body orelse =>
       list_all stmt reaches body * list_all stmt reaches orelse
   | Try body handlers orelse finalbody =>
       list_all stmt reaches body
       * list_all excepthandler (excepthandler__all stmt reaches) handlers
       * list_all stmt reaches orelse * list_all stmt reaches finalbody
   | _ => True
   end)%type ->
  In target (tl (walk_stmt st)) ->
  forall s, E (generic_visit V st s).
Proof.
  destruct st; cbn [walk_stmt tl generic_visit]; intros IH Hin s;
    fold walk_body in Hin; unfold visit_opt_expr.
  - split_in Hin; [later; later; later; here|].
    split_in Hin; [later; later; here|].
    split_in Hin; [later; here | here].
  - here.
  - change (visit_expr V value (visit_exprs V targets s))
      with (visit_exprs V [value] (visit_exprs V targets s)).
    split_in Hin; [later; here | here].
  - destruct IH as [Hb Ho].
    change (visit_expr V iter (visit_expr V target0 s))
      with (visit_exprs V [target0; iter] s).
    split_in Hin; [later; later; here|].
    split_in Hin; [later; here | here].
  - destruct IH as [Hb Ho].
    change (visit_expr V test s) with (visit_exprs V [test] s).
    split_in Hin; [later; later; here|].
    split_in Hin; [later; here | here].
  - destruct IH as [Hb Ho].
    change (visit_expr V test s) with (visit_exprs V [test] s).
    split_in Hin; [later; later; here|].
    split_in Hin; [later; here | here].
  - split_in Hin; [later; here | here].
  - destruct IH as [[[Hb Hh] Ho] Hf].
    split_in Hin; [later; later; later; here|].
    split_in Hin; [later; later; here|].
    split_in Hin; [later; here | here].
  - change (visit_expr V value s) with (visit_exprs V [value] s). here.
  - destruct Hin.
  - destruct Hin.
  - destruct Hin.
Qed.

Lemma reach_stmt (st : stmt) : reaches st.
Proof.
  induction st; intros Hin s;
    (destruct Hin as [Hin|Hin];
     [apply own_stmt; symmetry; exact Hin|]);
    rewrite VisitorFacts.visit_stmt_unfold;
    first [ apply FunctionDef_pass | apply For_pass | apply While_pass
          | apply Try_pass | apply Expr_pass | idtac ];
    try (intros s'); apply reach_generic;
    first [ exact Hin | cbn; repeat split; assumption ].
Qed.

(** A node of the tree is visited: what its own visit establishes holds
    of the detector after the visit of the whole tree. *)
Lemma reach (tree : module_) :
  In target (walk tree) -> forall s, E (visit V tree s).
Proof.
  intros Hin s. apply reach_body; [|exact Hin].
  induction (m_body tree); constructor; [apply reach_stmt | assumption].
Qed.

End Reach.
End ReachFacts.

(** ** Phantom loops: every exiting [while True] is reported *)

Module PhantomReach.
Import Py Ast PhantomLoops.

(** Findings are only ever added. *)
Definition keeps (s s' : PhantomLoopDetector) : Prop :=
  incl (phantoms s) (phantoms s').

Lemma phantom_keeps_refl s : keeps s s.
Proof. apply incl_refl. Qed.

Lemma phantom_keeps_trans s1 s2 s3 : keeps s1 s2 -> keeps s2 s3 -> keeps s1 s3.
Proof. apply incl_tran. Qed.

Lemma phantom_keeps_FunctionDef node k :
  (forall s, keeps s (k s)) -> forall s, keeps s (visit_FunctionDef node k s).
Proof.
  intros Hk s.
  destruct node; first [apply Hk | exact (Hk (set_current_context _ s))].
Qed.

Lemma phantom_keeps_While node k :
  (forall s, keeps s (k s)) -> forall s, keeps s (visit_While node k s).
Proof.
  intros Hk s. destruct node; try apply Hk. cbn [visit_While].
  eapply phantom_keeps_trans; [|apply Hk].
  destruct (_is_infinite_condition test); [|apply phantom_keeps_refl].
  destruct (_check_immediate_exit body) as [[t m]|]; [|apply phantom_keeps_refl].
  unfold keeps. cbn. apply incl_appl, incl_refl.
Qed.

(** A finding for the loop at [lineno] is among the findings. *)
Definition reported (lineno : Z) (t : PhantomType) (m : string)
  (F : list PhantomLoop) : Prop :=
  exists f, In f F /\ line f = lineno /\ phantom_type f = t
            /\ exit_mechanism f = m
            /\ severity f = _calculate_severity t.

Lemma phantom_reported_keeps lineno t m s s' :
  keeps s s' -> reported lineno t m (phantoms s) ->
  reported lineno t m (phantoms s').
Proof.
  intros H (f & Hf & Hrest). exists f. split; [apply H, Hf | exact Hrest].
Qed.

Lemma phantom_reported_FunctionDef lineno t m node k :
  (forall s, reported lineno t m (phantoms (k s))) ->
  forall s, reported lineno t m (phantoms (visit_FunctionDef node k s)).
Proof.
  intros Hk s.
  destruct node; first [apply Hk | exact (Hk (set_current_context _ s))].
Qed.

Lemma phantom_reported_While lineno t m node k :
  (forall s, reported lineno t m (phantoms (k s))) ->
  forall s, reported lineno t m (phantoms (visit_While node k s)).
Proof.
  intros Hk s. destruct node; apply Hk.
Qed.

Lemma phantom_generic_keeps (st : stmt) (s : PhantomLoopDetector) :
  keeps s (generic_visit visitor st s).
Proof.
  apply (ReachFacts.grow_generic visitor keeps phantom_keeps_refl phantom_keeps_trans
           (fun e k H => H) phantom_keeps_FunctionDef (fun n k H => H)
           phantom_keeps_While (fun n k H => H) (fun n k H => H)).
Qed.

Lemma phantom_reported_own lineno test body orelse t m s :
  _is_infinite_condition test = true ->
  _check_immediate_exit body = Some (t, m) ->
  reported lineno t m
    (phantoms (visit_stmt visitor (While lineno test body orelse) s)).
Proof.
  intros Htest Hexit. rewrite VisitorFacts.visit_stmt_unfold.
  cbn [Ast.visit_While visitor visit_While]. rewrite Htest, Hexit.
  eapply phantom_reported_keeps; [apply phantom_generic_keeps|].
  eexists. split; [cbn; apply in_or_app; right; left; reflexivity|].
  cbn. auto.
Qed.

End PhantomReach.

(** X21. Every [while] statement of the parsed tree, at any depth, whose
    test is the constant [True] and whose first body statement is
    [break], [return] or [raise] has a finding at its line in the result
    of [detect_phantom_loops], with the type and exit mechanism of that
    first statement and the severity [_calculate_severity] gives it. *)
Theorem every_exiting_while_true_is_reported
  (ast_parse : string -> Py.result Ast.module_) (source_code : string)
  (tree : Ast.module_) (lineno : Z) (test : Ast.expr)
  (body orelse : list Ast.stmt)
  (t : PhantomLoops.PhantomType) (m : string) :
  ast_parse source_code = Py.Returns tree ->
  In (Ast.NStmt (Ast.While lineno test body orelse)) (Ast.walk tree) ->
  PhantomLoops._is_infinite_condition test = true ->
  PhantomLoops._check_immediate_exit body = Some (t, m) ->
  exists F,
    PhantomLoops.detect_phantom_loops ast_parse source_code = Py.Returns F
    /\ PhantomReach.reported lineno t m F.
Proof.
  intros Hparse Hin Htest Hexit.
  unfold PhantomLoops.detect_phantom_loops. rewrite Hparse.
  eexists. split; [reflexivity|]. cbv zeta.
  apply (ReachFacts.reach PhantomLoops.visitor PhantomReach.keeps
           PhantomReach.phantom_keeps_refl PhantomReach.phantom_keeps_trans
           (fun e k H => H) PhantomReach.phantom_keeps_FunctionDef (fun n k H => H)
           PhantomReach.phantom_keeps_While (fun n k H => H) (fun n k H => H)
           (fun s => PhantomReach.reported lineno t m (PhantomLoops.phantoms s))
           (PhantomReach.phantom_reported_keeps lineno t m)
           (Ast.NStmt (Ast.While lineno test body orelse))).
  - discriminate.
  - intros st [= <-] s. apply PhantomReach.phantom_reported_own; assumption.
  - discriminate.
  - intros e k H. exact H.
  - apply PhantomReach.phantom_reported_FunctionDef.
  - intros n k H. exact H.
  - apply PhantomReach.phantom_reported_While.
  - intros n k H. exact H.
  - intros n k H. exact H.
  - exact Hin.
Qed.

Lemma every_exiting_while_true_is_reported_witness :
  exists F,
    PhantomLoops.detect_phantom_loops
      (fun _ => Py.Returns
         (Ast.Module_
            [Ast.FunctionDef 1 "spin" (Ast.Arguments_ [] [])
               [Ast.If (Ast.Name "x" Ast.Load)
                  [Ast.While 3 (Ast.Constant (Ast.CBool true))
                     [Ast.Break] []] []] [] None]))
      "def spin():" = Py.Returns F
    /\ PhantomReach.reported 3 PhantomLoops.WHILE_TRUE_BREAK "breaks" F.
Proof.
  apply (every_exiting_while_true_is_reported _ _
           (Ast.Module_
              [Ast.FunctionDef 1 "spin" (Ast.Arguments_ [] [])
                 [Ast.If (Ast.Name "x" Ast.Load)
                    [Ast.While 3 (Ast.Constant (Ast.CBool true))
                       [Ast.Break] []] []] [] None])
           3 (Ast.Constant (Ast.CBool true)) [Ast.Break] []);
    [reflexivity | cbn; auto 10 | reflexivity | reflexivity].
Defined.

(** ** Zombie orbits: every matching statement is reported *)

Module ZombieReach.
Import Py Ast ZombieOrbits.

(** Findings are only ever added. *)
Definition keeps (s s' : ZombieOrbitDetector) : Prop :=
  incl (zombies s) (zombies s').

Lemma zombie_keeps_refl s : keeps s s.
Proof. apply incl_refl. Qed.

Lemma zombie_keeps_trans s1 s2 s3 : keeps s1 s2 -> keeps s2 s3 -> keeps s1 s3.
Proof. apply incl_tran. Qed.

Lemma zombie_keeps_append z s : keeps s (zombies_append z s).
Proof. unfold keeps. cbn. apply incl_appl, incl_refl. Qed.

Lemma zombie_keeps_FunctionDef node k :
  (forall s, keeps s (k s)) -> forall s, keeps s (visit_FunctionDef node k s).
Proof.
  intros Hk s. destruct node; try apply Hk.
  unfold visit_FunctionDef, keeps.
  cbn [zombies set_current_context].
  eapply incl_tran; [|apply Hk].
  destruct (negb _ && negb _); cbn [zombies set_current_context zombies_append];
    [apply incl_appl|]; apply incl_refl.
Qed.

Lemma zombie_keeps_loop lineno body k :
  (forall s, keeps s (k s)) -> forall s, keeps s (visit_loop lineno body k s).
Proof.
  intros Hk s. unfold visit_loop.
  eapply zombie_keeps_trans; [|apply Hk].
  destruct (_is_empty_loop body); [apply zombie_keeps_append | apply zombie_keeps_refl].
Qed.

Lemma zombie_keeps_For node k :
  (forall s, keeps s (k s)) -> forall s, keeps s (visit_For node k s).
Proof. intros Hk s. destruct node; try apply Hk. now apply zombie_keeps_loop. Qed.

Lemma zombie_keeps_While node k :
  (forall s, keeps s (k s)) -> forall s, keeps s (visit_While node k s).
Proof. intros Hk s. destruct node; try apply Hk. now apply zombie_keeps_loop. Qed.

Lemma zombie_keeps_Expr node k :
  (forall s, keeps s (k s)) -> forall s, keeps s (visit_Expr node k s).
Proof.
  intros Hk s. destruct node; try apply Hk. unfold visit_Expr.
  eapply zombie_keeps_trans; [|apply Hk].
  destruct value; try apply zombie_keeps_refl.
  - destruct (_get_call_name _) as [name|]; [|apply zombie_keeps_refl].
    destruct (truthy _ && negb _); [apply zombie_keeps_append | apply zombie_keeps_refl].
  - apply zombie_keeps_append.
Qed.

Lemma zombie_generic_keeps (st : stmt) (s : ZombieOrbitDetector) :
  keeps s (generic_visit visitor st s).
Proof.
  apply (ReachFacts.grow_generic visitor keeps zombie_keeps_refl zombie_keeps_trans
           (fun e k H => H) zombie_keeps_FunctionDef zombie_keeps_For zombie_keeps_While
           (fun n k H => H) zombie_keeps_Expr).
Qed.

(** A finding of type [t] and severity [sev] at [lineno] is among the
    findings. *)
Definition reported (lineno : Z) (t : ZombieType) (sev : string)
  (F : list ZombieOrbit) : Prop :=
  exists f, In f F /\ line f = lineno /\ zombie_type f = t
            /\ severity f = sev.

Lemma zombie_reported_keeps lineno t sev s s' :
  keeps s s' -> reported lineno t sev (zombies s) ->
  reported lineno t sev (zombies s').
Proof.
  intros H (f & Hf & Hrest). exists f. split; [apply H, Hf | exact Hrest].
Qed.

Lemma zombie_reported_append lineno t sev z s :
  line z = lineno -> zombie_type z = t -> severity z = sev ->
  reported lineno t sev (zombies (zombies_append z s)).
Proof.
  intros H1 H2 H3. exists z. split; [|auto].
  cbn. apply in_or_app. right. now left.
Qed.

Section Pass.
Variables (lineno : Z) (t : ZombieType) (sev : string).
Let E (s : ZombieOrbitDetector) : Prop := reported lineno t sev (zombies s).

Lemma zombie_reported_FunctionDef node k :
  (forall s, E (k s)) -> forall s, E (visit_FunctionDef node k s).
Proof.
  intros Hk s. destruct node; first [apply Hk | exact (Hk _)].
Qed.

Lemma zombie_reported_For node k :
  (forall s, E (k s)) -> forall s, E (visit_For node k s).
Proof. intros Hk s. destruct node; apply Hk. Qed.

Lemma zombie_reported_While node k :
  (forall s, E (k s)) -> forall s, E (visit_While node k s).
Proof. intros Hk s. destruct node; apply Hk. Qed.

Lemma zombie_reported_Expr node k :
  (forall s, E (k s)) -> forall s, E (visit_Expr node k s).
Proof. intros Hk s. destruct node; apply Hk. Qed.

(** The finding of one node of the tree reaches the result. *)
Lemma zombie_reported_in_tree (target : node) (tree : module_) :
  (forall h, target <> NHandler h) ->
  (forall st, target = NStmt st -> forall s, E (visit_stmt visitor st s)) ->
  (forall e, target = NExpr e -> forall s, E (visit_expr visitor e s)) ->
  In target (walk tree) ->
  forall s, E (visit visitor tree s).
Proof.
  intros Hh Hst He.
  apply (ReachFacts.reach visitor keeps zombie_keeps_refl zombie_keeps_trans
           (fun e k H => H) zombie_keeps_FunctionDef zombie_keeps_For zombie_keeps_While
           (fun n k H => H) zombie_keeps_Expr
           E (zombie_reported_keeps lineno t sev) target Hh Hst He
           (fun e k H => H) zombie_reported_FunctionDef zombie_reported_For
           zombie_reported_While (fun n k H => H) zombie_reported_Expr).
Qed.

End Pass.

Lemma zombie_loop_own lineno body k s :
  (forall s, keeps s (k s)) ->
  _is_empty_loop body = true ->
  reported lineno EMPTY_LOOP "HIGH" (zombies (visit_loop lineno body k s)).
Proof.
  intros Hk Hempty. unfold visit_loop. rewrite Hempty.
  eapply zombie_reported_keeps; [apply Hk|].
  apply zombie_reported_append; reflexivity.
Qed.

End ZombieReach.

(** X22. Every [for] or [while] statement of the parsed tree, at any
    depth, whose body is empty or holds only [pass] and [continue] has an
    [empty_loop] finding of severity HIGH at its line in the result of
    [detect_zombie_orbits]. *)
Theorem every_empty_loop_is_reported
  (ast_parse : string -> Py.result Ast.module_) (source_code : string)
  (tree : Ast.module_) (st : Ast.stmt) (lineno : Z) (target iter test : Ast.expr)
  (body orelse : list Ast.stmt) :
  ast_parse source_code = Py.Returns tree ->
  In (Ast.NStmt st) (Ast.walk tree) ->
  st = Ast.For lineno target iter body orelse
  \/ st = Ast.While lineno test body orelse ->
  ZombieOrbits._is_empty_loop body = true ->
  exists F,
    ZombieOrbits.detect_zombie_orbits ast_parse source_code = Py.Returns F
    /\ ZombieReach.reported lineno ZombieOrbits.EMPTY_LOOP "HIGH" F.
Proof.
  intros Hparse Hin Hst Hempty.
  unfold ZombieOrbits.detect_zombie_orbits. rewrite Hparse.
  eexists. split; [reflexivity|]. cbv zeta.
  apply (ZombieReach.zombie_reported_in_tree _ _ _ (Ast.NStmt st));
    [discriminate | | discriminate | exact Hin].
  intros st' [= <-] s. rewrite VisitorFacts.visit_stmt_unfold.
  destruct Hst as [-> | ->];
    apply ZombieReach.zombie_loop_own;
    solve [assumption | intros s'; apply ZombieReach.zombie_generic_keeps].
Qed.

Lemma every_empty_loop_is_reported_witness :
  exists F,
    ZombieOrbits.detect_zombie_orbits
      (fun _ => Py.Returns
         (Ast.Module_
            [Ast.Try [Ast.For 2 (Ast.Name "x" Ast.Store)
                        (Ast.Name "xs" Ast.Load) [Ast.Pass; Ast.Continue] []]
               [] [] []]))
      "try:" = Py.Returns F
    /\ ZombieReach.reported 2 ZombieOrbits.EMPTY_LOOP "HIGH" F.
Proof.
  apply (every_empty_loop_is_reported _ _
           (Ast.Module_
              [Ast.Try [Ast.For 2 (Ast.Name "x" Ast.Store)
                          (Ast.Name "xs" Ast.Load) [Ast.Pass; Ast.Continue] []]
                 [] [] []])
           (Ast.For 2 (Ast.Name "x" Ast.Store) (Ast.Name "xs" Ast.Load)
              [Ast.Pass; Ast.Continue] [])
           2 (Ast.Name "x" Ast.Store) (Ast.Name "xs" Ast.Load)
           (Ast.Name "x" Ast.Load) [Ast.Pass; Ast.Continue] []);
    [reflexivity | cbn; auto 10 | left; reflexivity | reflexivity].
Defined.

(** X23. Every function definition of the parsed tree, at any depth
    (nested functions included), in which [_has_meaningful_return] and
    [_has_side_effects] both fail has a [no_return_function] finding of
    severity MEDIUM at its line in the result of
    [detect_zombie_orbits]. *)
Theorem every_silent_function_is_reported
  (ast_parse : string -> Py.result Ast.module_) (source_code : string)
  (tree : Ast.module_) (lineno : Z) (name : string) (args : Ast.arguments)
  (body : list Ast.stmt) (decorator_list : list Ast.expr)
  (returns : option Ast.expr) :
  ast_parse source_code = Py.Returns tree ->
  In (Ast.NStmt (Ast.FunctionDef lineno name args body decorator_list returns))
     (Ast.walk tree) ->
  ZombieOrbits._has_meaningful_return
    (Ast.FunctionDef lineno name args body decorator_list returns) = false ->
  ZombieOrbits._has_side_effects
    (Ast.FunctionDef lineno name args body decorator_list returns) = false ->
  exists F,
    ZombieOrbits.detect_zombie_orbits ast_parse source_code = Py.Returns F
    /\ ZombieReach.reported lineno ZombieOrbits.NO_RETURN_FUNCTION "MEDIUM" F.
Proof.
  intros Hparse Hin Hret Heff.
  unfold ZombieOrbits.detect_zombie_orbits. rewrite Hparse.
  eexists. split; [reflexivity|]. cbv zeta.
  apply (ZombieReach.zombie_reported_in_tree _ _ _
           (Ast.NStmt
              (Ast.FunctionDef lineno name args body decorator_list returns)));
    [discriminate | | discriminate | exact Hin].
  intros st' [= <-] s. rewrite VisitorFacts.visit_stmt_unfold.
  change (Ast.visit_FunctionDef ZombieOrbits.visitor)
    with ZombieOrbits.visit_FunctionDef.
  unfold ZombieOrbits.visit_FunctionDef. rewrite Hret, Heff.
  cbn [negb andb ZombieOrbits.zombies ZombieOrbits.set_current_context].
  eapply ZombieReach.zombie_reported_keeps; [apply ZombieReach.zombie_generic_keeps|].
  apply ZombieReach.zombie_reported_append; reflexivity.
Qed.

Lemma every_silent_function_is_reported_witness :
  exists F,
    ZombieOrbits.detect_zombie_orbits
      (fun _ => Py.Returns
         (Ast.Module_
            [Ast.FunctionDef 1 "outer" (Ast.Arguments_ [] [])
               [Ast.FunctionDef 2 "inner" (Ast.Arguments_ [] [])
                  [Ast.Assign [Ast.Name "x" Ast.Store]
                     (Ast.Constant (Ast.CInt 1))] [] None;
                Ast.Return (Some (Ast.Name "inner" Ast.Load))] [] None]))
      "def outer():" = Py.Returns F
    /\ ZombieReach.reported 2 ZombieOrbits.NO_RETURN_FUNCTION "MEDIUM" F.
Proof.
  apply (every_silent_function_is_reported _ _
           (Ast.Module_
              [Ast.FunctionDef 1 "outer" (Ast.Arguments_ [] [])
                 [Ast.FunctionDef 2 "inner" (Ast.Arguments_ [] [])
                    [Ast.Assign [Ast.Name "x" Ast.Store]
                       (Ast.Constant (Ast.CInt 1))] [] None;
                  Ast.Return (Some (Ast.Name "inner" Ast.Load))] [] None])
           2 "inner" (Ast.Arguments_ [] [])
           [Ast.Assign [Ast.Name "x" Ast.Store] (Ast.Constant (Ast.CInt 1))]
           [] None);
    [reflexivity | cbn; auto 10 | reflexivity | reflexivity].
Defined.

(** X24. Every expression statement of the parsed tree, at any depth,
    whose value is a call of a non-empty name that
    [_is_side_effect_function] rejects has a [discarded_call] finding of
    severity HIGH at its line in the result of [detect_zombie_orbits]. *)
Theorem every_discarded_call_is_reported
  (ast_parse : string -> Py.result Ast.module_) (source_code : string)
  (tree : Ast.module_) (lineno call_lineno : Z) (func : Ast.expr)
  (args : list Ast.expr) (keywords : list (option string * Ast.expr))
  (name : string) :
  ast_parse source_code = Py.Returns tree ->
  In (Ast.NStmt (Ast.Expr lineno (Ast.Call call_lineno func args keywords)))
     (Ast.walk tree) ->
  ZombieOrbits._get_call_name (Ast.Call call_lineno func args keywords)
    = Some name ->
  name <> EmptyString ->
  ZombieOrbits._is_side_effect_function name = false ->
  exists F,
    ZombieOrbits.detect_zombie_orbits ast_parse source_code = Py.Returns F
    /\ ZombieReach.reported lineno ZombieOrbits.DISCARDED_CALL "HIGH" F.
Proof.
  intros Hparse Hin Hname Hne Hside.
  unfold ZombieOrbits.detect_zombie_orbits. rewrite Hparse.
  eexists. split; [reflexivity|]. cbv zeta.
  apply (ZombieReach.zombie_reported_in_tree _ _ _
           (Ast.NStmt
              (Ast.Expr lineno (Ast.Call call_lineno func args keywords))));
    [discriminate | | discriminate | exact Hin].
  intros st' [= <-] s. rewrite VisitorFacts.visit_stmt_unfold.
  change (Ast.visit_Expr ZombieOrbits.visitor) with ZombieOrbits.visit_Expr.
  unfold ZombieOrbits.visit_Expr. rewrite Hname, Hside.
  assert (ZombieOrbits.truthy (Some name) = true) as ->
    by (destruct name; [contradiction | reflexivity]).
  cbn [negb andb].
  eapply ZombieReach.zombie_reported_keeps; [apply ZombieReach.zombie_generic_keeps|].
  apply ZombieReach.zombie_reported_append; reflexivity.
Qed.

Lemma every_discarded_call_is_reported_witness :
  exists F,
    ZombieOrbits.detect_zombie_orbits
      (fun _ => Py.Returns
         (Ast.Module_
            [Ast.While 1 (Ast.Name "go" Ast.Load)
               [Ast.Expr 2
                  (Ast.Call 2 (Ast.Name "compute" Ast.Load)
                     [Ast.Name "x" Ast.Load] [])] []]))
      "while go:" = Py.Returns F
    /\ ZombieReach.reported 2 ZombieOrbits.DISCARDED_CALL "HIGH" F.
Proof.
  apply (every_discarded_call_is_reported _ _
           (Ast.Module_
              [Ast.While 1 (Ast.Name "go" Ast.Load)
                 [Ast.Expr 2
                    (Ast.Call 2 (Ast.Name "compute" Ast.Load)
                       [Ast.Name "x" Ast.Load] [])] []])
           2 2 (Ast.Name "compute" Ast.Load) [Ast.Name "x" Ast.Load] []
           "compute");
    [reflexivity | cbn; auto 10 | reflexivity | discriminate
    | vm_compute; reflexivity].
Defined.

(** X25. Every expression statement of the parsed tree, at any depth,
    whose value is a binary operation has an [unused_computation] finding
    of severity MEDIUM at its line in the result of
    [detect_zombie_orbits]. *)
Theorem every_unused_computation_is_reported
  (ast_parse : string -> Py.result Ast.module_) (source_code : string)
  (tree : Ast.module_) (lineno : Z) (left right : Ast.expr)
  (op : Ast.operator) :
  ast_parse source_code = Py.Returns tree ->
  In (Ast.NStmt (Ast.Expr lineno (Ast.BinOp left op right))) (Ast.walk tree) ->
  exists F,
    ZombieOrbits.detect_zombie_orbits ast_parse source_code = Py.Returns F
    /\ ZombieReach.reported lineno ZombieOrbits.UNUSED_COMPUTATION "MEDIUM" F.
Proof.
  intros Hparse Hin.
  unfold ZombieOrbits.detect_zombie_orbits. rewrite Hparse.
  eexists. split; [reflexivity|]. cbv zeta.
  apply (ZombieReach.zombie_reported_in_tree _ _ _
           (Ast.NStmt (Ast.Expr lineno (Ast.BinOp left op right))));
    [discriminate | | discriminate | exact Hin].
  intros st' [= <-] s. rewrite VisitorFacts.visit_stmt_unfold.
  change (Ast.visit_Expr ZombieOrbits.visitor) with ZombieOrbits.visit_Expr.
  unfold ZombieOrbits.visit_Expr.
  eapply ZombieReach.zombie_reported_keeps; [apply ZombieReach.zombie_generic_keeps|].
  apply ZombieReach.zombie_reported_append; reflexivity.
Qed.

Lemma every_unused_computation_is_reported_witness :
  exists F,
    ZombieOrbits.detect_zombie_orbits
      (fun _ => Py.Returns
         (Ast.Module_
            [Ast.If (Ast.Name "ok" Ast.Load) []
               [Ast.Expr 4
                  (Ast.BinOp (Ast.Name "a" Ast.Load) Ast.Add
                     (Ast.Name "b" Ast.Load))]]))
      "if ok:" = Py.Returns F
    /\ ZombieReach.reported 4 ZombieOrbits.UNUSED_COMPUTATION "MEDIUM" F.
Proof.
  apply (every_unused_computation_is_reported _ _
           (Ast.Module_
              [Ast.If (Ast.Name "ok" Ast.Load) []
                 [Ast.Expr 4
                    (Ast.BinOp (Ast.Name "a" Ast.Load) Ast.Add
                       (Ast.Name "b" Ast.Load))]])
           4 (Ast.Name "a" Ast.Load) (Ast.Name "b" Ast.Load) Ast.Add);
    [reflexivity | cbn; auto 10].
Defined.

(** ** Evidence voids: every handler and every fallible call is reported *)

Module VoidReach.
Import Py Ast EvidenceVoids.

(** Findings are only ever added. *)
Definition keeps (s s' : EvidenceVoidDetector) : Prop :=
  incl (voids s) (voids s').

Lemma void_keeps_refl s : keeps s s.
Proof. apply incl_refl. Qed.

Lemma void_keeps_trans s1 s2 s3 : keeps s1 s2 -> keeps s2 s3 -> keeps s1 s3.
Proof. apply incl_tran. Qed.

Lemma void_keeps_append v s : keeps s (voids_append v s).
Proof. unfold keeps. cbn. apply incl_appl, incl_refl. Qed.

Lemma void_keeps_FunctionDef node k :
  (forall s, keeps s (k s)) -> forall s, keeps s (visit_FunctionDef node k s).
Proof.
  intros Hk s.
  destruct node; first [apply Hk | exact (Hk (set_current_context _ s))].
Qed.

Lemma void_keeps_Try_handler s h : keeps s (visit_Try_handler s h).
Proof.
  unfold visit_Try_handler.
  destruct (h_type h), (_is_swallowed (h_body h)),
    (negb (_has_logging (h_body h)));
    repeat first [ apply void_keeps_refl
                 | eapply void_keeps_trans; [|apply void_keeps_append] ].
Qed.

Lemma void_keeps_Try_handlers hs s : keeps s (fold_left visit_Try_handler hs s).
Proof.
  revert s. induction hs as [|h hs IH]; intros s; [apply void_keeps_refl|].
  cbn [fold_left]. eapply void_keeps_trans; [apply void_keeps_Try_handler | apply IH].
Qed.

Lemma void_keeps_Try node k :
  (forall s, keeps s (k s)) -> forall s, keeps s (visit_Try node k s).
Proof.
  intros Hk s. destruct node; try apply Hk. cbn [visit_Try].
  eapply void_keeps_trans; [apply void_keeps_Try_handlers | apply Hk].
Qed.

Lemma void_keeps_Call e k :
  (forall s, keeps s (k s)) -> forall s, keeps s (visit_Call e k s).
Proof.
  intros Hk s. destruct e; try apply Hk. unfold visit_Call.
  eapply void_keeps_trans; [|apply Hk].
  destruct (_get_call_name _) as [name|]; [|apply void_keeps_refl].
  destruct (str_in name fallible); [|apply void_keeps_refl].
  destruct (negb _); [apply void_keeps_append | apply void_keeps_refl].
Qed.

Lemma void_generic_keeps (st : stmt) (s : EvidenceVoidDetector) :
  keeps s (generic_visit visitor st s).
Proof.
  apply (ReachFacts.grow_generic visitor keeps void_keeps_refl void_keeps_trans
           void_keeps_Call void_keeps_FunctionDef (fun n k H => H) (fun n k H => H)
           void_keeps_Try (fun n k H => H)).
Qed.

(** A finding of type [t] and severity [sev] at [lineno] is among the
    findings. *)
Definition reported (lineno : Z) (t : VoidType) (sev : string)
  (F : list EvidenceVoid) : Prop :=
  exists f, In f F /\ line f = lineno /\ void_type f = t /\ severity f = sev.

Lemma void_reported_keeps lineno t sev s s' :
  keeps s s' -> reported lineno t sev (voids s) ->
  reported lineno t sev (voids s').
Proof.
  intros H (f & Hf & Hrest). exists f. split; [apply H, Hf | exact Hrest].
Qed.

Lemma void_reported_append lineno t sev v s :
  line v = lineno -> void_type v = t -> severity v = sev ->
  reported lineno t sev (voids (voids_append v s)).
Proof.
  intros H1 H2 H3. exists v. split; [|auto].
  cbn. apply in_or_app. right. now left.
Qed.

(** What [visit_Try] owes the handler [h]. *)
Definition handler_reported (h : excepthandler) (F : list EvidenceVoid)
  : Prop :=
  (h_type h = None -> reported (h_lineno h) BARE_EXCEPT "HIGH" F)
  /\ (_is_swallowed (h_body h) = true ->
      reported (h_lineno h) SWALLOWED_EXCEPTION "HIGH" F)
  /\ (_has_logging (h_body h) = false ->
      reported (h_lineno h) NO_LOGGING_IN_EXCEPT "MEDIUM" F).

Lemma void_handler_reported_keeps h s s' :
  keeps s s' -> handler_reported h (voids s) -> handler_reported h (voids s').
Proof.
  intros H (H1 & H2 & H3).
  repeat split; intros C; eapply void_reported_keeps; eauto.
Qed.

Lemma void_handler_own s h : handler_reported h (voids (visit_Try_handler s h)).
Proof.
  unfold visit_Try_handler, handler_reported.
  destruct (h_type h) as [ty|] eqn:Hty,
    (_is_swallowed (h_body h)) eqn:Hsw,
    (_has_logging (h_body h)) eqn:Hlog;
    cbn [negb]; repeat split; intros C; try discriminate;
    first [ apply void_reported_append; reflexivity
          | eapply void_reported_keeps; [apply void_keeps_append|];
            first [ apply void_reported_append; reflexivity
                  | eapply void_reported_keeps; [apply void_keeps_append|];
                    apply void_reported_append; reflexivity ] ].
Qed.

Lemma void_handlers_own hs h s :
  In h hs -> handler_reported h (voids (fold_left visit_Try_handler hs s)).
Proof.
  revert s. induction hs as [|a hs IH]; intros s Hin; [destruct Hin|].
  cbn [fold_left]. destruct Hin as [-> | Hin].
  - eapply void_handler_reported_keeps; [apply void_keeps_Try_handlers|].
    apply void_handler_own.
  - apply IH, Hin.
Qed.

Section Pass.
Variable E : EvidenceVoidDetector -> Prop.
Hypothesis E_voids : forall s s', voids s = voids s' -> E s -> E s'.
Hypothesis E_keeps : forall s s', keeps s s' -> E s -> E s'.

Lemma void_pass_FunctionDef node k :
  (forall s, E (k s)) -> forall s, E (visit_FunctionDef node k s).
Proof.
  intros Hk s. destruct node; try apply Hk. unfold visit_FunctionDef.
  eapply E_voids; [|apply Hk]. reflexivity.
Qed.

Lemma void_pass_Try node k :
  (forall s, E (k s)) -> forall s, E (visit_Try node k s).
Proof. intros Hk s. destruct node; apply Hk. Qed.

Lemma void_pass_Call e k :
  (forall s, E (k s)) -> forall s, E (visit_Call e k s).
Proof. intros Hk s. destruct e; apply Hk. Qed.

(** What the visit of one node of the tree establishes reaches the
    result. *)
Lemma void_established_in_tree (target : node) (tree : module_) :
  (forall h, target <> NHandler h) ->
  (forall st, target = NStmt st -> forall s, E (visit_stmt visitor st s)) ->
  (forall e, target = NExpr e -> forall s, E (visit_expr visitor e s)) ->
  In target (walk tree) ->
  forall s, E (visit visitor tree s).
Proof.
  intros Hh Hst He.
  apply (ReachFacts.reach visitor keeps void_keeps_refl void_keeps_trans
           void_keeps_Call void_keeps_FunctionDef (fun n k H => H) (fun n k H => H)
           void_keeps_Try (fun n k H => H)
           E E_keeps target Hh Hst He
           void_pass_Call void_pass_FunctionDef (fun n k H => H)
           (fun n k H => H) void_pass_Try (fun n k H => H)).
Qed.

End Pass.

End VoidReach.

(** X26. Every handler of every [try] statement of the parsed tree, at
    any depth, gets in the result of [detect_evidence_voids], at the
    handler's line: a [bare_except] finding (HIGH) when it names no
    exception type, a [swallowed_exception] finding (HIGH) when
    [_is_swallowed] holds of its body, and a [no_logging_in_except]
    finding (MEDIUM) when [_has_logging] fails on its body. *)
Theorem every_handler_is_reported
  (ast_parse : string -> Py.result Ast.module_) (source_code : string)
  (tree : Ast.module_) (body : list Ast.stmt)
  (handlers : list Ast.excepthandler) (orelse finalbody : list Ast.stmt)
  (h : Ast.excepthandler) :
  ast_parse source_code = Py.Returns tree ->
  In (Ast.NStmt (Ast.Try body handlers orelse finalbody)) (Ast.walk tree) ->
  In h handlers ->
  exists F,
    EvidenceVoids.detect_evidence_voids ast_parse source_code = Py.Returns F
    /\ VoidReach.handler_reported h F.
Proof.
  intros Hparse Hin Hh.
  unfold EvidenceVoids.detect_evidence_voids. rewrite Hparse.
  eexists. split; [reflexivity|]. cbv zeta.
  assert (Hv : forall s s',
             EvidenceVoids.voids s = EvidenceVoids.voids s' ->
             VoidReach.handler_reported h (EvidenceVoids.voids s) ->
             VoidReach.handler_reported h (EvidenceVoids.voids s'))
    by (intros s s' H1 H2; rewrite <- H1; exact H2).
  apply (VoidReach.void_established_in_tree
           (fun s => VoidReach.handler_reported h (EvidenceVoids.voids s))
           Hv (VoidReach.void_handler_reported_keeps h)
           (Ast.NStmt (Ast.Try body handlers orelse finalbody)));
    [discriminate | | discriminate | exact Hin].
  intros st' [= <-] s. rewrite VisitorFacts.visit_stmt_unfold.
  change (Ast.visit_Try EvidenceVoids.visitor) with EvidenceVoids.visit_Try.
  cbn [EvidenceVoids.visit_Try].
  eapply VoidReach.void_handler_reported_keeps; [apply VoidReach.void_generic_keeps|].
  apply VoidReach.void_handlers_own, Hh.
Qed.

Lemma every_handler_is_reported_witness :
  exists F,
    EvidenceVoids.detect_evidence_voids
      (fun _ => Py.Returns
         (Ast.Module_
            [Ast.FunctionDef 1 "load" (Ast.Arguments_ [] [])
               [Ast.Try [Ast.Pass]
                  [Ast.ExceptHandler 4 (Some (Ast.Name "OSError" Ast.Load))
                     None [Ast.Return None];
                   Ast.ExceptHandler 6 None None [Ast.Pass]] [] []]
               [] None]))
      "def load():" = Py.Returns F
    /\ VoidReach.handler_reported
         (Ast.ExceptHandler 6 None None [Ast.Pass]) F.
Proof.
  apply (every_handler_is_reported _ _
           (Ast.Module_
              [Ast.FunctionDef 1 "load" (Ast.Arguments_ [] [])
                 [Ast.Try [Ast.Pass]
                    [Ast.ExceptHandler 4 (Some (Ast.Name "OSError" Ast.Load))
                       None [Ast.Return None];
                     Ast.ExceptHandler 6 None None [Ast.Pass]] [] []]
                 [] None])
           [Ast.Pass]
           [Ast.ExceptHandler 4 (Some (Ast.Name "OSError" Ast.Load))
              None [Ast.Return None];
            Ast.ExceptHandler 6 None None [Ast.Pass]] [] []);
    [reflexivity | cbn; auto 10 | cbn; auto].
Defined.

(** X27. Every call of the parsed tree, at any depth of statements and
    expressions (an argument of another call, a loop test, a handler
    body), whose name is one of [open], [urlopen], [connect], [request],
    [load], [parse] has a [silent_failure] finding of severity MEDIUM at
    its line in the result of [detect_evidence_voids]. *)
Theorem every_fallible_call_is_reported
  (ast_parse : string -> Py.result Ast.module_) (source_code : string)
  (tree : Ast.module_) (lineno : Z) (func : Ast.expr)
  (args : list Ast.expr) (keywords : list (option string * Ast.expr))
  (name : string) :
  ast_parse source_code = Py.Returns tree ->
  In (Ast.NExpr (Ast.Call lineno func args keywords)) (Ast.walk tree) ->
  EvidenceVoids._get_call_name (Ast.Call lineno func args keywords)
    = Some name ->
  Py.str_in name EvidenceVoids.fallible = true ->
  exists F,
    EvidenceVoids.detect_evidence_voids ast_parse source_code = Py.Returns F
    /\ VoidReach.reported lineno EvidenceVoids.SILENT_FAILURE "MEDIUM" F.
Proof.
  intros Hparse Hin Hname Hfall.
  unfold EvidenceVoids.detect_evidence_voids. rewrite Hparse.
  eexists. split; [reflexivity|]. cbv zeta.
  assert (Hv : forall s s',
             EvidenceVoids.voids s = EvidenceVoids.voids s' ->
             VoidReach.reported lineno EvidenceVoids.SILENT_FAILURE "MEDIUM"
               (EvidenceVoids.voids s) ->
             VoidReach.reported lineno EvidenceVoids.SILENT_FAILURE "MEDIUM"
               (EvidenceVoids.voids s'))
    by (intros s s' H1 H2; rewrite <- H1; exact H2).
  apply (VoidReach.void_established_in_tree
           (fun s => VoidReach.reported lineno EvidenceVoids.SILENT_FAILURE
                       "MEDIUM" (EvidenceVoids.voids s))
           Hv (VoidReach.void_reported_keeps _ _ _)
           (Ast.NExpr (Ast.Call lineno func args keywords)));
    [discriminate | discriminate | | exact Hin].
  intros e [= <-] s. cbn [Ast.visit_expr].
  change (Ast.visit_Call EvidenceVoids.visitor) with EvidenceVoids.visit_Call.
  unfold EvidenceVoids.visit_Call. rewrite Hname, Hfall.
  cbn [negb EvidenceVoids._is_error_checked].
  eapply VoidReach.void_reported_keeps.
  - apply (ReachFacts.grow_call_children EvidenceVoids.visitor VoidReach.keeps
             VoidReach.void_keeps_refl VoidReach.void_keeps_trans VoidReach.void_keeps_Call).
  - apply VoidReach.void_reported_append; reflexivity.
Qed.

Lemma every_fallible_call_is_reported_witness :
  exists F,
    EvidenceVoids.detect_evidence_voids
      (fun _ => Py.Returns
         (Ast.Module_
            [Ast.Assign [Ast.Name "data" Ast.Store]
               (Ast.Call 1 (Ast.Attribute (Ast.Name "json" Ast.Load)
                              "dumps" Ast.Load)
                  [Ast.Call 1 (Ast.Name "open" Ast.Load)
                     [Ast.Name "path" Ast.Load] []] [])]))
      "data = json.dumps(open(path))" = Py.Returns F
    /\ VoidReach.reported 1 EvidenceVoids.SILENT_FAILURE "MEDIUM" F.
Proof.
  apply (every_fallible_call_is_reported _ _
           (Ast.Module_
              [Ast.Assign [Ast.Name "data" Ast.Store]
                 (Ast.Call 1 (Ast.Attribute (Ast.Name "json" Ast.Load)
                                "dumps" Ast.Load)
                    [Ast.Call 1 (Ast.Name "open" Ast.Load)
                       [Ast.Name "path" Ast.Load] []] [])])
           1 (Ast.Name "open" Ast.Load) [Ast.Name "path" Ast.Load] [] "open");
    [reflexivity | cbn; auto 10 | reflexivity | reflexivity].
Defined.
